(** * ArtisanMarket backend: carts, checkout saga and caches

    Shallow embedding of the Python services of the repository
    ([src/services/cart_service.py], [src/services/product_service.py],
    [src/services/search_service.py]) and of the store clients they call
    ([src/db/redis_client.py], [src/db/postgres_client.py],
    [src/db/neo4j_client.py]).

    The three stores are modelled as data: Redis as a keyspace with TTLs,
    PostgreSQL as tables with their keys and constraints and with the
    commit/rollback of [get_cursor], Neo4j as a node/edge store.  Python
    exceptions and the shared world state are threaded by a small
    state-and-exception monad [M].  Store failures (lost connection,
    timeout) are injected by fault oracles indexed by the round trip
    number. *)

From Stdlib Require Import ZArith String Ascii Decimal DecimalString DecimalZ.
From Stdlib Require Floats Uint63.
From stdpp Require Import base list gmap strings sorting.

Set Warnings "-register-all".
Open Scope Z_scope.

(* ------------------------------------------------------------------ *)
(** ** Python integers and their decimal text *)

(** [str(z)] for a Python [int]. *)
Definition py_str_int (z : Z) : string :=
  NilZero.string_of_int (Z.to_int z).

(** Python's [str.isspace] and [str.isdigit] on ASCII characters.  The
    values handled here are ASCII text (Redis replies decoded as UTF-8);
    [int] also accepts non-ASCII digits and blanks, which are not
    modelled. *)
Definition py_space (c : ascii) : bool :=
  let n := Ascii.nat_of_ascii c in
  ((9 <=? n) && (n <=? 13))%nat || ((28 <=? n) && (n <=? 32))%nat.

Definition is_digit (c : ascii) : bool :=
  let n := Ascii.nat_of_ascii c in ((48 <=? n) && (n <=? 57))%nat.

Fixpoint py_lstrip (l : list ascii) : list ascii :=
  match l with
  | c :: r => if py_space c then py_lstrip r else l
  | [] => []
  end.

(** [s.strip()]. *)
Definition py_strip (l : list ascii) : list ascii :=
  reverse (py_lstrip (reverse (py_lstrip l))).

(** Decimal digits with single [_] separators between them; the digits. *)
Fixpoint py_digit_group (after_digit : bool) (l : list ascii) : option string :=
  match l with
  | [] => if after_digit then Some EmptyString else None
  | c :: r =>
      if is_digit c then option_map (String c) (py_digit_group true r)
      else if Ascii.eqb c "_" && after_digit then py_digit_group false r
      else None
  end.

(** [int(s)] (base 10): surrounding blanks, an optional [+] or [-] sign,
    then digits with single [_] separators; leading zeros are allowed.
    Anything else raises [ValueError], here [None].  (CPython's default
    cap of 4300 digits, which [str(z)] shares, is not modelled.) *)
Definition py_int (s : string) : option Z :=
  let l := py_strip (list_ascii_of_string s) in
  let '(neg, body) :=
    match l with
    | c :: r =>
        if Ascii.eqb c "-" then (true, r)
        else if Ascii.eqb c "+" then (false, r) else (false, l)
    | [] => (false, l)
    end in
  match py_digit_group false body ≫= NilEmpty.uint_of_string with
  | Some u => Some (if neg then - Z.of_uint u else Z.of_uint u)
  | None => None
  end.

(** Redis' [string2ll] (util.c), used by [HINCRBY] and [INCR]: at most 20
    bytes, ["0"], or an optional [-] then a digit [1]-[9] and more digits,
    the value in the signed 64-bit range. *)
Definition int64_min : Z := - 2 ^ 63.
Definition int64_max : Z := 2 ^ 63 - 1.

Definition redis_string2ll (s : string) : option Z :=
  if (String.length s =? 0)%nat || (21 <=? String.length s)%nat then None
  else if String.eqb s "0" then Some 0
  else
    let '(neg, body) :=
      match s with
      | String c r => if Ascii.eqb c "-" then (true, r) else (false, s)
      | EmptyString => (false, s)
      end in
    match body with
    | String c _ =>
        if is_digit c && negb (Ascii.eqb c "0") then
          match NilEmpty.uint_of_string body with
          | Some u =>
              let v := if neg then - Z.of_uint u else Z.of_uint u in
              if (int64_min <=? v) && (v <=? int64_max) then Some v else None
          | None => None
          end
        else None
    | EmptyString => None
    end.

(* ------------------------------------------------------------------ *)
(** ** Binary floats and DECIMAL(10,2) *)

Module Flt.
Definition float := PrimFloat.float.

(** [float(z)] for a Python [int] of at most 63 bits. *)
Definition of_Z (z : Z) : float :=
  if 0 <=? z then PrimFloat.of_uint63 (Uint63.of_Z z)
  else PrimFloat.opp (PrimFloat.of_uint63 (Uint63.of_Z (- z))).

(** [float(Decimal)] of a DECIMAL(10,2) value given in cents: the
    double nearest to [cents / 100] (both operands are exact doubles and
    the division rounds once). *)
Definition of_cents (cents : Z) : float :=
  PrimFloat.div (of_Z cents) (of_Z 100).

(** Division of integers rounding half away from zero ([d > 0]). *)
Definition div_round_half_away (n d : Z) : Z :=
  if 0 <=? n then (2 * n + d) / (2 * d) else - ((2 * (- n) + d) / (2 * d)).

(** *** [repr(x)] of a double

    A finite positive double is [m * 2 ^ e] ([Prim2SF]).  The reals that
    read back as it (round to nearest, ties to even) lie between the
    midpoints to its neighbours; over [2 ^ (e - 2)] these are [4m - 2]
    and [4m + 2], except below a power of two, where the lower neighbour
    is twice as close ([4m - 1]).  The midpoints themselves read back as
    it when [m] is even. *)
Definition repr_bounds (m : positive) (e : Z) : Z * Z :=
  let lo := if Pos.eqb m (2 ^ 52) && (-1074 <? e) then 4 * Zpos m - 1 else 4 * Zpos m - 2 in
  (lo, 4 * Zpos m + 2).

(** [a * 2 ^ t / 10 ^ k] as a fraction [num / den] of integers, [den > 0]. *)
Definition scaled (a t k : Z) : Z * Z :=
  (a * 2 ^ Z.max t 0 * 10 ^ Z.max (- k) 0, 2 ^ Z.max (- t) 0 * 10 ^ Z.max k 0).

(** The multiple [D * 10 ^ k] of [10 ^ k] nearest to [m * 2 ^ e] among
    those that read back as it (ties to an even [D]), if there is one. *)
Definition repr_candidate (m : positive) (e k : Z) : option Z :=
  let '(lo, hi) := repr_bounds m e in
  let t := e - 2 in
  let incl := Z.even (Zpos m) in
  let '(ln, ld) := scaled lo t k in
  let '(hn, hd) := scaled hi t k in
  let '(xn, xd) := scaled (4 * Zpos m) t k in
  let d_lo := (ln + ld - 1) / ld in
  let d_lo := if negb incl && (ln mod ld =? 0) then d_lo + 1 else d_lo in
  let d_hi := hn / hd in
  let d_hi := if negb incl && (hn mod hd =? 0) then d_hi - 1 else d_hi in
  let d0 := (2 * xn + xd) / (2 * xd) in
  let d0 := if ((2 * xn + xd) mod (2 * xd) =? 0) && Z.odd d0 then d0 - 1 else d0 in
  if d_lo <=? d_hi then Some (Z.max d_lo (Z.min d_hi d0)) else None.

(** Python's [repr] of [m * 2 ^ e]: the shortest decimal that reads back
    as the double, and of those the nearest.  The search tries [10 ^ k]
    downwards from [k0], where [10 ^ k0] exceeds [2 ^ (log2 m + 1 + e)]
    and so the double ([log10 2 < 0.30103]): no multiple of a larger power
    lies in the interval.  Seventeen significant digits always suffice,
    so the search ends well within its fuel.  The result [(D, k)] stands
    for [D * 10 ^ k]. *)
Fixpoint repr_search (fuel : nat) (m : positive) (e k : Z) : option (Z * Z) :=
  match fuel with
  | O => None
  | S f =>
      match repr_candidate m e k with
      | Some d => Some (d, k)
      | None => repr_search f m e (k - 1)
      end
  end.

Definition repr_digits (m : positive) (e : Z) : option (Z * Z) :=
  repr_search 700 m e ((Z.log2 (Zpos m) + 1 + e) * 30103 / 100000 + 2).

(** PostgreSQL's conversion of a float parameter into a DECIMAL(10,2)
    column.  psycopg2 sends a finite float as the literal [repr(x)];
    NUMERIC reads it exactly, rounds it to two decimals half away from
    zero, and fails with "numeric field overflow" when the result has
    more than 8 integer digits.  An infinity is refused as well.  A NaN is
    sent as ['NaN'::float], which the column would store as NaN; these
    rows hold a number of cents, so it is refused here too. *)
Definition to_numeric_10_2 (x : float) : option Z :=
  let cents :=
    match FloatOps.Prim2SF x with
    | SpecFloat.S754_zero _ => Some 0
    | SpecFloat.S754_finite s m e =>
        match repr_digits m e with
        | Some (d, k) =>
            let c := if 0 <=? k + 2 then d * 10 ^ (k + 2)
                     else div_round_half_away d (10 ^ (- (k + 2))) in
            Some (if s then - c else c)
        | None => None
        end
    | _ => None
    end in
  match cents with
  | Some c => if Z.abs c <? 10 ^ 10 then Some c else None
  | None => None
  end.
End Flt.

(* ------------------------------------------------------------------ *)
(** ** Python values and JSON *)

(** The Python values that flow through the services: rows of
    [RealDictCursor] are dictionaries with the column order of the query.
    A DECIMAL(10,2) column comes back as a [decimal.Decimal], kept here as
    its number of cents. *)
Inductive pyval :=
| PNone
| PBool (b : bool)
| PInt (z : Z)
| PFloat (f : Flt.float)
| PDecimal (cents : Z)
| PStr (s : string)
| PList (l : list pyval)
| PDict (d : list (string * pyval)).

(** Truth value of a Python object ([if x:]). *)
Definition py_truthy (v : pyval) : bool :=
  match v with
  | PNone => false
  | PBool b => b
  | PInt z => negb (z =? 0)
  | PFloat f => negb (PrimFloat.eqb f (Flt.of_Z 0))
  | PDecimal c => negb (c =? 0)
  | PStr s => negb (String.eqb s "")
  | PList l => negb (length l =? 0)%nat
  | PDict d => negb (length d =? 0)%nat
  end.

(** A JSON document. *)
Inductive json :=
| JNull
| JBool (b : bool)
| JInt (z : Z)
| JFloat (f : Flt.float)
| JStr (s : string)
| JArr (l : list json)
| JObj (l : list (string * json)).

(** [json.dumps]: [None] where it raises [TypeError] ("Object of type
    Decimal is not JSON serializable"). *)
Fixpoint json_dumps (v : pyval) : option json :=
  match v with
  | PNone => Some JNull
  | PBool b => Some (JBool b)
  | PInt z => Some (JInt z)
  | PFloat f => Some (JFloat f)
  | PDecimal _ => None
  | PStr s => Some (JStr s)
  | PList l =>
      let fix go (l : list pyval) : option (list json) :=
        match l with
        | [] => Some []
        | x :: r =>
            match json_dumps x, go r with
            | Some j, Some js => Some (j :: js)
            | _, _ => None
            end
        end in
      option_map JArr (go l)
  | PDict d =>
      let fix go (d : list (string * pyval)) : option (list (string * json)) :=
        match d with
        | [] => Some []
        | (k, x) :: r =>
            match json_dumps x, go r with
            | Some j, Some js => Some ((k, j) :: js)
            | _, _ => None
            end
        end in
      option_map JObj (go d)
  end.

(** [json.loads] of the text [json.dumps] produced. *)
Fixpoint json_loads (j : json) : pyval :=
  match j with
  | JNull => PNone
  | JBool b => PBool b
  | JInt z => PInt z
  | JFloat f => PFloat f
  | JStr s => PStr s
  | JArr l => PList (map json_loads l)
  | JObj l => PDict (map (fun '(k, x) => (k, json_loads x)) l)
  end.

(** Python dictionary assignment [d[k] = v] on an insertion-ordered
    dictionary: an existing key keeps its position. *)
Fixpoint dict_set {A} (d : list (string * A)) (k : string) (v : A)
  : list (string * A) :=
  match d with
  | [] => [(k, v)]
  | (k', v') :: r =>
      if String.eqb k k' then (k, v) :: r else (k', v') :: dict_set r k v
  end.

Fixpoint dict_get {A} (d : list (string * A)) (k : string) : option A :=
  match d with
  | [] => None
  | (k', v) :: r => if String.eqb k k' then Some v else dict_get r k
  end.

(* ------------------------------------------------------------------ *)
(** ** Exceptions and the state-and-exception monad *)

Inductive exc :=
| ValueError (msg : string)
| TypeError (msg : string)
| KeyError (key : string)
| RedisError (msg : string)     (** [redis.exceptions.ResponseError] *)
| PgError (msg : string)        (** [psycopg2.Error] *)
| Neo4jError (msg : string).    (** [neo4j.exceptions.Neo4jError] *)

Inductive outcome (A : Type) :=
| Ok (a : A)
| Raise (e : exc).
Arguments Ok {A} a.
Arguments Raise {A} e.

(** *** Redis *)

(** A Redis value.  Counters are strings holding decimal integers.  A value
    written by [set_json] is the text [json.dumps(value)]; it is kept as
    the document that text encodes, which is what [json.loads] gives
    back.  Sorted-set scores are doubles in Redis; they are only ever
    incremented by 1 here and are kept as integers. *)
Inductive rval :=
| RStr (s : string)
| RJson (j : json)
| RHash (h : list (string * string))
| RZSet (z : list (string * Z)).

Record redis := mkRedis {
  r_keys : gmap string rval;
  r_ttl : gmap string Z;    (** remaining time to live, in seconds *)
}.

(** *** PostgreSQL *)

Record product := mkProduct {
  prod_name : string;
  prod_description : option string;
  prod_price : option Z;            (** DECIMAL(10,2), in cents *)
  prod_category_id : option string;
  prod_seller_id : option string;
  prod_tags : option (list string);
  prod_stock : option Z;
}.

Record order_row := mkOrder {
  ord_user_id : string;
  ord_order_date : string;
  ord_status : string;
  ord_total_price : Z;              (** DECIMAL(10,2), in cents *)
}.

Record order_item_row := mkOrderItem {
  item_quantity : Z;                (** INT *)
  item_price_at_purchase : Z;       (** DECIMAL(10,2), in cents *)
}.

Record pgdb := mkPg {
  pg_users : gset string;
  pg_products : gmap string product;
  pg_orders : gmap string order_row;
  pg_order_items : gmap (string * string) order_item_row;
}.

(** *** Neo4j *)

Record graph := mkGraph {
  g_users : gset string;
  g_products : gset string;
  g_purchased : list (string * string * Z * string);  (** user, product, quantity, date *)
  g_viewed : list (string * string);
}.

(** *** The world *)

(** The three stores, plus for PostgreSQL and Neo4j the number of round
    trips made so far and an oracle telling which round trips fail
    (connection loss, timeout). *)
Record world := mkWorld {
  w_redis : redis;
  w_pg : pgdb;
  w_pg_calls : nat;
  w_pg_fault : nat -> bool;
  w_graph : graph;
  w_gr_calls : nat;
  w_gr_fault : nat -> bool;
}.

Definition set_redis (r : redis) (w : world) : world :=
  mkWorld r (w_pg w) (w_pg_calls w) (w_pg_fault w) (w_graph w) (w_gr_calls w) (w_gr_fault w).
Definition set_pg (p : pgdb) (w : world) : world :=
  mkWorld (w_redis w) p (w_pg_calls w) (w_pg_fault w) (w_graph w) (w_gr_calls w) (w_gr_fault w).
Definition set_pg_calls (n : nat) (w : world) : world :=
  mkWorld (w_redis w) (w_pg w) n (w_pg_fault w) (w_graph w) (w_gr_calls w) (w_gr_fault w).
Definition set_graph (g : graph) (w : world) : world :=
  mkWorld (w_redis w) (w_pg w) (w_pg_calls w) (w_pg_fault w) g (w_gr_calls w) (w_gr_fault w).
Definition set_gr_calls (n : nat) (w : world) : world :=
  mkWorld (w_redis w) (w_pg w) (w_pg_calls w) (w_pg_fault w) (w_graph w) n (w_gr_fault w).

(** A Python statement sequence: it may raise, and keeps the effects done
    before the exception. *)
Definition M (A : Type) : Type := world -> outcome A * world.

Definition ret {A} (a : A) : M A := fun w => (Ok a, w).
Definition raise {A} (e : exc) : M A := fun w => (Raise e, w).
Definition bind {A B} (m : M A) (k : A -> M B) : M B :=
  fun w => match m w with
           | (Ok a, w') => k a w'
           | (Raise e, w') => (Raise e, w')
           end.
Definition get_world : M world := fun w => (Ok w, w).
Definition put_world (w : world) : M unit := fun _ => (Ok tt, w).

#[global] Instance M_ret : MRet M := @ret.
#[global] Instance M_bind : MBind M := fun A B k m => bind m k.

(** [for x in l: body(x)] *)
Fixpoint for_each {A} (l : list A) (body : A -> M unit) : M unit :=
  match l with
  | [] => ret tt
  | x :: r => body x ;; for_each r body
  end.

(* ------------------------------------------------------------------ *)
(** ** Redis commands *)

Definition CACHE_TTL : Z := 3600.
Definition CART_TTL : Z := 86400.

Definition WRONGTYPE : exc :=
  RedisError "WRONGTYPE Operation against a key holding the wrong kind of value".

Module Redis.
Definition cmd {A} (f : redis -> outcome A * redis) : M A :=
  fun w => let '(o, r') := f (w_redis w) in (o, set_redis r' w).

Definition with_key (r : redis) (k : string) (v : rval) : redis :=
  mkRedis (<[k := v]> (r_keys r)) (r_ttl r).

Definition without_key (r : redis) (k : string) : redis :=
  mkRedis (delete k (r_keys r)) (delete k (r_ttl r)).

(** The integer held by a string value, as [string2ll] reads it. *)
Definition int_of_value (v : rval) : option Z :=
  match v with
  | RStr s => redis_string2ll s
  | RJson (JInt z) => if (int64_min <=? z) && (z <=? int64_max) then Some z else None
  | _ => None
  end.

Definition GET (k : string) (r : redis) : outcome (option rval) * redis :=
  match r_keys r !! k with
  | Some (RHash _) | Some (RZSet _) => (Raise WRONGTYPE, r)
  | v => (Ok v, r)
  end.

Definition SETEX (k : string) (ttl : Z) (v : rval) (r : redis) : outcome bool * redis :=
  (Ok true, mkRedis (<[k := v]> (r_keys r)) (<[k := ttl]> (r_ttl r))).

Definition INCR (k : string) (r : redis) : outcome Z * redis :=
  let n := match r_keys r !! k with
           | None => Ok 0
           | Some (RHash _) | Some (RZSet _) => Raise WRONGTYPE
           | Some v =>
               match int_of_value v with
               | Some n => Ok n
               | None => Raise (RedisError "ERR value is not an integer or out of range")
               end
           end in
  match n with
  | Ok n =>
      if n + 1 <=? int64_max
      then (Ok (n + 1), with_key r k (RStr (py_str_int (n + 1))))
      else (Raise (RedisError "ERR increment or decrement would overflow"), r)
  | Raise e => (Raise e, r)
  end.

Definition ZINCRBY (k : string) (by_ : Z) (member : string) (r : redis)
  : outcome Z * redis :=
  match r_keys r !! k with
  | None => (Ok by_, with_key r k (RZSet [(member, by_)]))
  | Some (RZSet z) =>
      let s := from_option id 0 (dict_get z member) + by_ in
      (Ok s, with_key r k (RZSet (dict_set z member s)))
  | Some _ => (Raise WRONGTYPE, r)
  end.

Definition HINCRBY (k field : string) (by_ : Z) (r : redis) : outcome Z * redis :=
  let h := match r_keys r !! k with
           | None => Ok []
           | Some (RHash h) => Ok h
           | Some _ => Raise WRONGTYPE
           end in
  match h with
  | Raise e => (Raise e, r)
  | Ok h =>
      let old := match dict_get h field with
                 | None => Some 0
                 | Some s => redis_string2ll s
                 end in
      match old with
      | None => (Raise (RedisError "ERR hash value is not an integer"), r)
      | Some n =>
          if (int64_min <=? n + by_) && (n + by_ <=? int64_max)
          then (Ok (n + by_), with_key r k (RHash (dict_set h field (py_str_int (n + by_)))))
          else (Raise (RedisError "ERR increment or decrement would overflow"), r)
      end
  end.

Definition HSET (k field value : string) (r : redis) : outcome unit * redis :=
  match r_keys r !! k with
  | None => (Ok tt, with_key r k (RHash [(field, value)]))
  | Some (RHash h) => (Ok tt, with_key r k (RHash (dict_set h field value)))
  | Some _ => (Raise WRONGTYPE, r)
  end.

(** [HDEL]: a hash left without fields is removed with its TTL. *)
Definition HDEL (k field : string) (r : redis) : outcome unit * redis :=
  match r_keys r !! k with
  | None => (Ok tt, r)
  | Some (RHash h) =>
      match filter (fun kv => kv.1 <> field) h with
      | [] => (Ok tt, without_key r k)
      | h' => (Ok tt, with_key r k (RHash h'))
      end
  | Some _ => (Raise WRONGTYPE, r)
  end.

Definition HGETALL (k : string) (r : redis) : outcome (list (string * string)) * redis :=
  match r_keys r !! k with
  | None => (Ok [], r)
  | Some (RHash h) => (Ok h, r)
  | Some _ => (Raise WRONGTYPE, r)
  end.

(** [EXPIRE] sets the TTL of an existing key and ignores a missing one. *)
Definition EXPIRE (k : string) (ttl : Z) (r : redis) : outcome bool * redis :=
  match r_keys r !! k with
  | None => (Ok false, r)
  | Some _ => (Ok true, mkRedis (r_keys r) (<[k := ttl]> (r_ttl r)))
  end.

Definition DEL (k : string) (r : redis) : outcome unit * redis :=
  (Ok tt, without_key r k).

(** [ZREVRANGE] orders by decreasing score, and equal scores by decreasing
    member (byte order). *)
Definition zrev_le (a b : string * Z) : Prop :=
  b.2 < a.2 \/ (b.2 = a.2 /\ String.le b.1 a.1).
#[global] Instance zrev_le_dec : RelDecision zrev_le.
Proof. intros a b. unfold zrev_le. apply _. Defined.

(** The index arithmetic of [ZRANGE]/[ZREVRANGE] ([zrangeGenericCommand]):
    negative indices count from the end, [stop] is inclusive. *)
Definition redis_range {A} (l : list A) (start stop : Z) : list A :=
  let llen := Z.of_nat (length l) in
  let start := if start <? 0 then llen + start else start in
  let stop := if stop <? 0 then llen + stop else stop in
  let start := if start <? 0 then 0 else start in
  if (stop <? start) || (llen <=? start) then []
  else
    let stop := if llen <=? stop then llen - 1 else stop in
    take (Z.to_nat (stop - start + 1)) (drop (Z.to_nat start) l).

(** [ZREVRANGE k start stop WITHSCORES] *)
Definition ZREVRANGE (k : string) (start stop : Z) (r : redis)
  : outcome (list (string * Z)) * redis :=
  match r_keys r !! k with
  | None => (Ok [], r)
  | Some (RZSet z) => (Ok (redis_range (merge_sort zrev_le z) start stop), r)
  | Some _ => (Raise WRONGTYPE, r)
  end.

Definition EXISTS (k : string) (r : redis) : outcome bool * redis :=
  (Ok (bool_decide (is_Some (r_keys r !! k))), r).

(** [KEYS prefix*], and [SCAN ... MATCH prefix*] iterated to the end: the
    keys that start with [prefix], in the order of the keyspace (which
    Redis leaves unspecified). *)
Definition KEYS_prefix (prefix : string) (r : redis) : outcome (list string) * redis :=
  (Ok (filter (fun k => String.prefix prefix k = true) (map fst (map_to_list (r_keys r)))), r).
End Redis.

(* ------------------------------------------------------------------ *)
(** ** [RedisClient] (src/db/redis_client.py) *)

Module RedisClient.
(** [json.loads] of a plain string value: the only plain strings this
    code writes are decimal counters; anything else is reported as a
    [JSONDecodeError], which [get_json] turns into [None]. *)
Definition decode_str (s : string) : pyval :=
  match py_int s with
  | Some z => if String.eqb (py_str_int z) s then PInt z else PNone
  | None => PNone
  end.

Definition get_json (key : string) : M pyval :=
  data ← Redis.cmd (Redis.GET key);
  match data with
  | None => mret PNone
  | Some (RStr "") => mret PNone
  | Some (RStr s) => mret (decode_str s)
  | Some (RJson j) => mret (json_loads j)
  | Some _ => mret PNone
  end.

Definition set_json (key : string) (value : pyval) (ttl : Z) : M bool :=
  match json_dumps value with
  | None => raise (TypeError "Object of type Decimal is not JSON serializable")
  | Some j => Redis.cmd (Redis.SETEX key ttl (RJson j))
  end.

Definition increment_hot_product_score (product_id : string) : M unit :=
  _ ← Redis.cmd (Redis.ZINCRBY "hot_products" 1 product_id); mret tt.

Definition get_cart_key (user_id : string) : string := "cart:" +:+ user_id.

Definition add_to_cart (user_id product_id : string) (quantity : Z) : M unit :=
  let cart_key := get_cart_key user_id in
  _ ← Redis.cmd (Redis.HINCRBY cart_key product_id quantity);
  _ ← Redis.cmd (Redis.EXPIRE cart_key CART_TTL);
  mret tt.

Definition update_cart_item_quantity (user_id product_id : string) (quantity : Z) : M unit :=
  let cart_key := get_cart_key user_id in
  Redis.cmd (Redis.HSET cart_key product_id (py_str_int quantity)) ;;
  _ ← Redis.cmd (Redis.EXPIRE cart_key CART_TTL);
  mret tt.

Definition remove_from_cart (user_id product_id : string) : M unit :=
  let cart_key := get_cart_key user_id in
  Redis.cmd (Redis.HDEL cart_key product_id).

(** The loop of [get_cart]: fields whose value [int()] rejects are
    skipped. *)
Fixpoint parse_cart (cart : list (string * Z)) (data : list (string * string))
  : list (string * Z) :=
  match data with
  | [] => cart
  | (product, quantity_str) :: rest =>
      match py_int quantity_str with
      | Some q => parse_cart (dict_set cart product q) rest
      | None => parse_cart cart rest
      end
  end.

Definition get_cart (user_id : string) : M (list (string * Z)) :=
  let cart_key := get_cart_key user_id in
  cart_data ← Redis.cmd (Redis.HGETALL cart_key);
  mret (parse_cart [] cart_data).

Definition clear_cart (user_id : string) : M unit :=
  Redis.cmd (Redis.DEL (get_cart_key user_id)).

Definition increment_cache_metric (metric_name : string) : M unit :=
  _ ← Redis.cmd (Redis.INCR ("cache_metrics:" +:+ metric_name)); mret tt.

(** [get_hot_products]: [zrevrange("hot_products", 0, top_n - 1, withscores=True)]. *)
Definition get_hot_products (top_n : Z) : M (list (string * Z)) :=
  Redis.cmd (Redis.ZREVRANGE "hot_products" 0 (top_n - 1)).

(** [int(value) if value else 0] on the reply of [GET] (the text of the
    value; a JSON document is read back as its text). *)
Definition metric_int (value : option rval) : outcome Z :=
  match value with
  | None => Ok 0
  | Some (RStr "") => Ok 0
  | Some (RStr s) =>
      match py_int s with
      | Some z => Ok z
      | None => Raise (ValueError "invalid literal for int() with base 10")
      end
  | Some (RJson (JInt z)) => Ok z
  | Some _ => Raise (ValueError "invalid literal for int() with base 10")
  end.

(** [key.split(":", 1)[1]]: the text after the first colon (the keys this
    is applied to all contain one). *)
Fixpoint after_first_colon (s : string) : string :=
  match s with
  | EmptyString => EmptyString
  | String c r => if Ascii.eqb c ":"%char then r else after_first_colon r
  end.

(** The loop [for key in keys: metrics[name_of(key)] = int(value) if value else 0]
    with [value = GET key]. *)
Fixpoint read_metrics (name_of : string -> string) (metrics : list (string * Z))
    (keys : list string) : M (list (string * Z)) :=
  match keys with
  | [] => mret metrics
  | key :: rest =>
      value ← Redis.cmd (Redis.GET key);
      match metric_int value with
      | Ok n => read_metrics name_of (dict_set metrics (name_of key) n) rest
      | Raise e => raise e
      end
  end.

Definition get_cache_metrics : M (list (string * Z)) :=
  keys ← Redis.cmd (Redis.KEYS_prefix "cache_metrics:");
  read_metrics after_first_colon [] keys.
End RedisClient.

(* ------------------------------------------------------------------ *)
(** ** PostgreSQL (src/db/postgres_client.py and the engine) *)

Definition lift {A} (o : outcome A) : M A := fun w => (o, w).

(** A primitive step on the world. *)
Definition prim {A} (f : world -> outcome A * world) : M A := f.

Module Pg.
(** One round trip to the server; the fault oracle decides whether the
    connection fails on it. *)
Definition roundtrip : M unit := fun w =>
  let n := w_pg_calls w in
  let w' := set_pg_calls (S n) w in
  if w_pg_fault w n
  then (Raise (PgError "server closed the connection unexpectedly"), w')
  else (Ok tt, w').

(** [cursor.execute]: a round trip, then the statement on the tables. *)
Definition execute {A} (stmt : pgdb -> outcome A * pgdb) : M A :=
  roundtrip ;;
  prim (fun w => let '(o, p) := stmt (w_pg w) in (o, set_pg p w)).

(** [SELECT id, price FROM products WHERE id = ANY(ids)]; the rows come in
    the engine's order. *)
Definition select_prices (ids : list string) (p : pgdb)
  : outcome (list (string * option Z)) * pgdb :=
  (Ok (omap (fun '(id, pr) =>
               if decide (id ∈ ids) then Some (id, prod_price pr) else None)
            (map_to_list (pg_products p))), p).

(** [SELECT * FROM products WHERE id = %s] and [fetchone()]. *)
Definition select_product (id : string) (p : pgdb) : outcome (option product) * pgdb :=
  (Ok (pg_products p !! id), p).

Definition numeric_overflow : exc := PgError "numeric field overflow".

(** [INSERT INTO orders (id, user_id, order_date, total_price, status)]. *)
Definition insert_order (id user_id order_date : string) (total_price : Flt.float)
    (status : string) (p : pgdb) : outcome unit * pgdb :=
  match Flt.to_numeric_10_2 total_price with
  | None => (Raise numeric_overflow, p)
  | Some cents =>
      if decide (is_Some (pg_orders p !! id))
      then (Raise (PgError "duplicate key value violates unique constraint orders_pkey"), p)
      else if decide (user_id ∉ pg_users p)
      then (Raise (PgError "insert or update on table orders violates foreign key constraint"), p)
      else (Ok tt, mkPg (pg_users p) (pg_products p)
                      (<[id := mkOrder user_id order_date status cents]> (pg_orders p))
                      (pg_order_items p))
  end.

(** [INSERT INTO order_items (order_id, product_id, quantity, price_at_purchase)]. *)
Definition insert_order_item (order_id product_id : string) (quantity : Z)
    (price : Flt.float) (p : pgdb) : outcome unit * pgdb :=
  if negb ((- 2 ^ 31 <=? quantity) && (quantity <=? 2 ^ 31 - 1))
  then (Raise (PgError "integer out of range"), p) else
  match Flt.to_numeric_10_2 price with
  | None => (Raise numeric_overflow, p)
  | Some cents =>
      if decide (is_Some (pg_order_items p !! (order_id, product_id)))
      then (Raise (PgError "duplicate key value violates unique constraint order_items_pkey"), p)
      else if decide (¬ is_Some (pg_orders p !! order_id))
      then (Raise (PgError "insert or update on table order_items violates foreign key constraint"), p)
      else if decide (¬ is_Some (pg_products p !! product_id))
      then (Raise (PgError "insert or update on table order_items violates foreign key constraint"), p)
      else (Ok tt, mkPg (pg_users p) (pg_products p) (pg_orders p)
                      (<[(order_id, product_id) := mkOrderItem quantity cents]> (pg_order_items p)))
  end.

(** [cursor.executemany]: one execution per parameter tuple. *)
Fixpoint executemany_items (items : list (string * string * Z * Flt.float)) : M unit :=
  match items with
  | [] => mret tt
  | (oid, pid, q, pr) :: rest =>
      execute (insert_order_item oid pid q pr) ;; executemany_items rest
  end.
End Pg.

Module PostgresConnection.
(** [get_cursor]: connect (outside the [try]), run the body, commit;
    on any exception roll back to the state at connection time and
    re-raise. *)
Definition get_cursor {A} (body : M A) : M A :=
  Pg.roundtrip ;;
  prim (fun w0 =>
    let snapshot := w_pg w0 in
    match body w0 with
    | (Ok a, w1) =>
        match Pg.roundtrip w1 with          (* conn.commit() *)
        | (Ok _, w2) => (Ok a, w2)
        | (Raise e, w2) => (Raise e, set_pg snapshot w2)
        end
    | (Raise e, w1) => (Raise e, set_pg snapshot w1)
    end).
End PostgresConnection.

(* ------------------------------------------------------------------ *)
(** ** [Neo4jClient] (src/db/neo4j_client.py) *)

Module Neo4jClient.
Definition roundtrip : M unit := fun w =>
  let n := w_gr_calls w in
  let w' := set_gr_calls (S n) w in
  if w_gr_fault w n
  then (Raise (Neo4jError "ServiceUnavailable"), w')
  else (Ok tt, w').

(** [MATCH (u:User {id}) MATCH (p:Product {id}) CREATE (u)-[:PURCHASED]->(p)]:
    nothing is created when either node is missing. *)
Definition add_purchase (user_id product_id : string) (quantity : Z) (date : string)
  : M unit :=
  roundtrip ;;
  prim (fun w =>
    let g := w_graph w in
    if decide (user_id ∈ g_users g ∧ product_id ∈ g_products g)
    then (Ok tt, set_graph (mkGraph (g_users g) (g_products g)
                              (g_purchased g ++ [(user_id, product_id, quantity, date)])
                              (g_viewed g)) w)
    else (Ok tt, w)).

Definition add_view (user_id product_id : string) : M unit :=
  roundtrip ;;
  prim (fun w =>
    let g := w_graph w in
    if decide (user_id ∈ g_users g ∧ product_id ∈ g_products g)
    then (Ok tt, set_graph (mkGraph (g_users g) (g_products g) (g_purchased g)
                              (g_viewed g ++ [(user_id, product_id)])) w)
    else (Ok tt, w)).
End Neo4jClient.

(* ------------------------------------------------------------------ *)
(** ** [CartService] (src/services/cart_service.py) *)

Module CartService.
Definition add_to_cart (user_id product_id : string) (quantity : Z) : M unit :=
  if quantity <=? 0 then raise (ValueError "Quantity must be a positive integer.")
  else RedisClient.add_to_cart user_id product_id quantity.

Definition remove_from_cart (user_id product_id : string) : M unit :=
  RedisClient.remove_from_cart user_id product_id.

Definition get_cart (user_id : string) : M (list (string * Z)) :=
  RedisClient.get_cart user_id.

Definition update_item_quantity (user_id product_id : string) (quantity : Z) : M unit :=
  if quantity <? 0 then raise (ValueError "Quantity must be a non-negative integer.")
  else if quantity =? 0 then remove_from_cart user_id product_id
  else RedisClient.update_cart_item_quantity user_id product_id quantity.

Definition clear_cart (user_id : string) : M unit :=
  RedisClient.clear_cart user_id.

Record order_result := mkOrderResult {
  res_order_id : string;
  res_total_amount : Flt.float;
  res_items_count : nat;
}.

Definition float_of_none : exc :=
  TypeError "float() argument must be a string or a real number, not 'NoneType'".

(** [{row["id"]: float(row["price"]) for row in cursor.fetchall()}] *)
Fixpoint price_dict (acc : list (string * Flt.float)) (rows : list (string * option Z))
  : outcome (list (string * Flt.float)) :=
  match rows with
  | [] => Ok acc
  | (id, Some cents) :: rest => price_dict (dict_set acc id (Flt.of_cents cents)) rest
  | (id, None) :: rest => Raise float_of_none
  end.

(** The loop computing [total_amount] and [order_items_to_insert]. *)
Fixpoint order_lines (order_id : string) (product_prices : list (string * Flt.float))
    (total : Flt.float) (items : list (string * string * Z * Flt.float))
    (cart : list (string * Z))
  : outcome (Flt.float * list (string * string * Z * Flt.float)) :=
  match cart with
  | [] => Ok (total, items)
  | (product_id, quantity) :: rest =>
      match dict_get product_prices product_id with
      | None => Raise (KeyError product_id)
      | Some price =>
          order_lines order_id product_prices
            (PrimFloat.add total (PrimFloat.mul price (Flt.of_Z quantity)))
            (items ++ [(order_id, product_id, quantity, price)]) rest
      end
  end.

Definition products_missing : exc :=
  ValueError "One or more products in the cart could not be found.".
Definition cart_empty : exc :=
  ValueError "Cart is empty. Cannot create an order.".

(** The body of [with postgres_db.get_cursor() as cursor:]; it returns
    [total_amount]. *)
Definition checkout_txn (user_id order_id order_date : string)
    (cart : list (string * Z)) : M Flt.float :=
  let product_ids := map fst cart in
  rows ← Pg.execute (Pg.select_prices product_ids);
  product_prices ← lift (price_dict [] rows);
  if negb (length product_prices =? length product_ids)%nat
  then raise products_missing
  else
    lines ← lift (order_lines order_id product_prices (Flt.of_Z 0) [] cart);
    let '(total_amount, order_items_to_insert) := lines in
    Pg.execute (Pg.insert_order order_id user_id order_date total_amount "COMPLETED") ;;
    Pg.executemany_items order_items_to_insert ;;
    mret total_amount.

(** [convert_cart_to_order]; [order_id] is the fresh [uuid4()] and
    [order_date] the timestamp [datetime.now()] (in ISO format). *)
Definition convert_cart_to_order (user_id order_id order_date : string)
  : M order_result :=
  cart ← RedisClient.get_cart user_id;
  match cart with
  | [] => raise cart_empty
  | _ =>
      total_amount ← PostgresConnection.get_cursor
                       (checkout_txn user_id order_id order_date cart);
      for_each cart (fun '(product_id, quantity) =>
        Neo4jClient.add_purchase user_id product_id quantity order_date) ;;
      RedisClient.clear_cart user_id ;;
      mret (mkOrderResult order_id total_amount (length cart))
  end.
End CartService.

(* ------------------------------------------------------------------ *)
(** ** Product reads (src/services/product_service.py) *)

(** [float(v)] *)
Definition py_float (v : pyval) : outcome Flt.float :=
  match v with
  | PDecimal c => Ok (Flt.of_cents c)
  | PFloat f => Ok f
  | PInt z => Ok (Flt.of_Z z)
  | PBool b => Ok (Flt.of_Z (if b then 1 else 0))
  | PNone => Raise (TypeError "float() argument must be a string or a real number, not 'NoneType'")
  | PStr _ => Raise (ValueError "could not convert string to float")
  | _ => Raise (TypeError "float() argument must be a string or a real number")
  end.

Definition opt_pyval {A} (f : A -> pyval) (o : option A) : pyval :=
  match o with Some a => f a | None => PNone end.

(** A [products] row as [RealDictCursor] returns it for [SELECT *]. *)
Definition product_row (id : string) (p : product) : list (string * pyval) :=
  [("id", PStr id);
   ("name", PStr (prod_name p));
   ("description", opt_pyval PStr (prod_description p));
   ("price", opt_pyval PDecimal (prod_price p));
   ("category_id", opt_pyval PStr (prod_category_id p));
   ("seller_id", opt_pyval PStr (prod_seller_id p));
   ("tags", opt_pyval (fun ts => PList (map PStr ts)) (prod_tags p));
   ("stock", opt_pyval PInt (prod_stock p))].

Module ProductService.
Definition get_product_from_db (product_id : string) : M pyval :=
  PostgresConnection.get_cursor (
    product ← Pg.execute (Pg.select_product product_id);
    match product with
    | None => mret PNone
    | Some p =>
        let row := product_row product_id p in
        match dict_get row "price" with
        | Some v => price ← lift (py_float v);
                    mret (PDict (dict_set row "price" (PFloat price)))
        | None => mret (PDict row)
        end
    end).

Definition get_product_by_id (product_id : string) (user_id : option string) : M pyval :=
  let cache_key := "product:" +:+ product_id in
  cached_product ← RedisClient.get_json cache_key;
  product ←
    (if py_truthy cached_product then mret cached_product
     else
       product ← get_product_from_db product_id;
       (if py_truthy product
        then RedisClient.set_json cache_key product CACHE_TTL ;; mret tt
        else mret tt) ;;
       mret product);
  (if py_truthy product
   then RedisClient.increment_hot_product_score product_id ;;
        match user_id with
        | Some u => if String.eqb u "" then mret tt
                    else Neo4jClient.add_view u product_id
        | None => mret tt
        end
   else mret tt) ;;
  mret product.

End ProductService.

(* ------------------------------------------------------------------ *)
(** ** Semantic search (src/services/search_service.py) *)

(** The filters of the similarity query, as the SQL text is built from
    them. *)
Record nn_query := mkNNQuery {
  nn_embedding : list Flt.float;
  nn_category : option string;
  nn_min_price : option Flt.float;
  nn_max_price : option Flt.float;
  nn_limit : Z;
}.

Definition key_le (a b : string * pyval) : Prop := String.le a.1 b.1.
#[global] Instance key_le_dec : RelDecision key_le.
Proof. intros a b. unfold key_le. apply _. Defined.

Section SemanticSearch.
(** [hashlib.md5(s.encode()).hexdigest()] *)
Variable md5_hexdigest : string -> string.
(** [repr] of a float, as an f-string prints it. *)
Variable float_repr : Flt.float -> string.
(** [SentenceTransformer.encode] *)
Variable encode : string -> list Flt.float.
(** The engine's answer to the similarity query: rows with the columns
    [id, name, description, price, category_name, similarity]. *)
Variable vector_search : pgdb -> nn_query -> list (list (string * pyval)).

(** [f"{v}"] *)
Definition py_format (v : pyval) : string :=
  match v with
  | PNone => "None"
  | PBool b => if b then "True" else "False"
  | PInt z => py_str_int z
  | PFloat f => float_repr f
  | PStr s => s
  | _ => ""
  end.

(** [_generate_cache_key].  [sorted(params.items())] compares the
    (key, value) pairs; the keys of a dict are distinct, so the order is
    the order of the keys. *)
Definition generate_cache_key (params : list (string * pyval)) : string :=
  let sorted_params := merge_sort key_le params in
  let param_string :=
    String.concat "&" (map (fun '(k, v) => k +:+ "=" +:+ py_format v) sorted_params) in
  "semantic_search:" +:+ md5_hexdigest param_string.

(** [if r.get(col): r[col] = float(r[col])] *)
Definition float_column (col : string) (r : list (string * pyval))
  : outcome (list (string * pyval)) :=
  match dict_get r col with
  | Some v =>
      if py_truthy v
      then match py_float v with
           | Ok f => Ok (dict_set r col (PFloat f))
           | Raise e => Raise e
           end
      else Ok r
  | None => Ok r
  end.

Definition convert_row (r : list (string * pyval)) : outcome (list (string * pyval)) :=
  match float_column "price" r with
  | Ok r' => float_column "similarity" r'
  | Raise e => Raise e
  end.

Fixpoint convert_rows (rows : list (list (string * pyval)))
  : outcome (list (list (string * pyval))) :=
  match rows with
  | [] => Ok []
  | r :: rest =>
      match convert_row r, convert_rows rest with
      | Ok r', Ok rest' => Ok (r' :: rest')
      | Raise e, _ => Raise e
      | _, Raise e => Raise e
      end
  end.

Definition is_none (v : pyval) : bool :=
  match v with PNone => true | _ => false end.

Definition natural_language_search (query : string) (category : option string)
    (min_price max_price : option Flt.float) (top_k : Z) : M pyval :=
  let search_params :=
    [("query", PStr query);
     ("category", opt_pyval PStr category);
     ("min_price", opt_pyval PFloat min_price);
     ("max_price", opt_pyval PFloat max_price);
     ("top_k", PInt top_k)] in
  let active_params := filter (fun kv => is_none kv.2 = false) search_params in
  let cache_key := generate_cache_key active_params in
  cached_results ← RedisClient.get_json cache_key;
  if negb (is_none cached_results)
  then RedisClient.increment_cache_metric "semantic_hits" ;; mret cached_results
  else
    RedisClient.increment_cache_metric "semantic_misses" ;;
    let query_embedding := encode query in
    let q := mkNNQuery query_embedding
               (match category with
                | Some c => if String.eqb c "" then None else Some c
                | None => None
                end)
               min_price max_price top_k in
    results ← PostgresConnection.get_cursor (
      rows ← Pg.execute (fun p => (Ok (vector_search p q), p));
      lift (convert_rows rows));
    let results := PList (map PDict results) in
    RedisClient.set_json cache_key results CACHE_TTL ;;
    mret results.
End SemanticSearch.

(* ------------------------------------------------------------------ *)
(** ** [search_products] (src/services/product_service.py) *)

Record text_query := mkTextQuery {
  tq_query : option string;
  tq_category_id : option string;
  tq_min_price : option Flt.float;
  tq_max_price : option Flt.float;
  tq_limit : Z;
}.

Section ProductSearch.
(** [repr] of a float, as an f-string prints it. *)
Variable float_repr : Flt.float -> string.
(** The engine's answer to the full-text query: rows with the columns
    [id, name, price, category_id]. *)
Variable text_search : pgdb -> text_query -> list (list (string * pyval)).

(** A string argument used as a condition: [None] and [""] are false. *)
Definition truthy_str (s : option string) : option string :=
  match s with
  | Some s => if String.eqb s "" then None else Some s
  | None => None
  end.

(** [s or "all"] *)
Definition or_all (s : option string) : string :=
  match truthy_str s with Some s => s | None => "all" end.

Definition search_cache_key (query category_id : option string)
    (min_price max_price : option Flt.float) (limit : Z) : string :=
  String.concat ":"
    ["search"; or_all query; or_all category_id;
     match min_price with Some m => "minp" +:+ float_repr m | None => "any" end;
     match max_price with Some m => "maxp" +:+ float_repr m | None => "any" end;
     "limit" +:+ py_str_int limit].

(** [{k: (float(v) if k == "price" else v) for k, v in row.items()}] *)
Fixpoint price_to_float (row : list (string * pyval)) : outcome (list (string * pyval)) :=
  match row with
  | [] => Ok []
  | (k, v) :: rest =>
      let v' := if String.eqb k "price"
                then match py_float v with Ok f => Ok (PFloat f) | Raise e => Raise e end
                else Ok v in
      match v' with
      | Raise e => Raise e
      | Ok v' =>
          match price_to_float rest with
          | Ok rest' => Ok ((k, v') :: rest')
          | Raise e => Raise e
          end
      end
  end.

Fixpoint rows_price_to_float (rows : list (list (string * pyval)))
  : outcome (list (list (string * pyval))) :=
  match rows with
  | [] => Ok []
  | r :: rest =>
      match price_to_float r with
      | Raise e => Raise e
      | Ok r' =>
          match rows_price_to_float rest with
          | Ok rest' => Ok (r' :: rest')
          | Raise e => Raise e
          end
      end
  end.

(** A [price] column as the database returns it: a [Decimal] or [None]. *)
Definition db_prices (row : list (string * pyval)) : Prop :=
  forall v, ("price", v) ∈ row -> v = PNone \/ exists c, v = PDecimal c.

Definition search_products (query category_id : option string)
    (min_price max_price : option Flt.float) (limit : Z) : M pyval :=
  let cache_key := search_cache_key query category_id min_price max_price limit in
  cached_results ← RedisClient.get_json cache_key;
  if negb (is_none cached_results)
  then RedisClient.increment_cache_metric "hits" ;; mret cached_results
  else
    RedisClient.increment_cache_metric "misses" ;;
    let q := mkTextQuery (truthy_str query) (truthy_str category_id)
               min_price max_price limit in
    results ← PostgresConnection.get_cursor (
      rows ← Pg.execute (fun p => (Ok (text_search p q), p));
      lift (rows_price_to_float rows));
    let results := PList (map PDict results) in
    RedisClient.set_json cache_key results CACHE_TTL ;;
    mret results.
End ProductSearch.


Section SimilarProducts.
(** The engine's answer to the similarity query of [find_similar_products]:
    rows with the columns [id, name, description, price, category_name,
    similarity]. *)
Variable similar_search : pgdb -> string -> Z -> list (list (string * pyval)).

Definition find_similar_products (product_id : string) (top_k : Z) : M pyval :=
  let cache_key := "similar_products:" +:+ product_id +:+ ":" +:+ py_str_int top_k in
  cached_results ← RedisClient.get_json cache_key;
  if negb (is_none cached_results)
  then RedisClient.increment_cache_metric "similar_hits" ;; mret cached_results
  else
    RedisClient.increment_cache_metric "similar_misses" ;;
    results ← PostgresConnection.get_cursor (
      rows ← Pg.execute (fun p => (Ok (similar_search p product_id top_k), p));
      lift (convert_rows rows));
    let results := PList (map PDict results) in
    RedisClient.set_json cache_key results CACHE_TTL ;;
    mret results.
End SimilarProducts.

(** [key.split(":")[1]]: the text between the first and the second colon. *)
Fixpoint before_first_colon (s : string) : string :=
  match s with
  | EmptyString => EmptyString
  | String c r => if Ascii.eqb c ":"%char then EmptyString else String c (before_first_colon r)
  end.
Definition second_field (s : string) : string :=
  before_first_colon (RedisClient.after_first_colon s).

(** [SemanticSearchService.get_cache_stats] *)
Definition get_cache_stats : M (list (string * Z)) :=
  keys ← Redis.cmd (Redis.KEYS_prefix "cache_metrics:");
  RedisClient.read_metrics second_field [] keys.

(* ------------------------------------------------------------------ *)
(** ** The Redis routes (src/api/routes/redis.py) *)

(** What a route answers: a body, or the [HTTPException] it raises. *)
Inductive response :=
| Response (body : pyval)
| HTTPException (status_code : Z) (detail : string).

Module RedisRoutes.
(** [GET /products/{product_id}/cached] *)
Definition get_product_from_cache (product_id : string) (user_id : option string)
  : M response :=
  product ← ProductService.get_product_by_id product_id user_id;
  if negb (py_truthy product) then mret (HTTPException 404 "Product not found.")
  else
    let cache_key := "product:" +:+ product_id in
    exists_ ← Redis.cmd (Redis.EXISTS cache_key);
    match product with
    | PDict d =>
        mret (Response (PDict (dict_set d "cache_status"
                                 (PStr (if (exists_ : bool) then "HIT" else "MISS")))))
    | _ => @raise response (TypeError "object does not support item assignment")
    end.
End RedisRoutes.
(* ================================================================== *)
(** * Predicates on states *)

(** A computation that leaves Redis alone. *)
Definition redis_frame {A} (m : M A) : Prop :=
  forall w, w_redis (snd (m w)) = w_redis w.

(** Every field of a hash holds the decimal text of a positive integer. *)
Definition positive_quantities (h : list (string * string)) : Prop :=
  Forall (fun fv => exists z, 0 < z /\ fv.2 = py_str_int z) h.

(** The Redis invariant: every hash (the carts are the only hashes this
    code writes) has positive quantities. *)
Definition carts_positive (r : redis) : Prop :=
  forall k h, r_keys r !! k = Some (RHash h) -> positive_quantities h.

Definition preserves {A} (m : M A) : Prop :=
  forall w, carts_positive (w_redis w) -> carts_positive (w_redis (snd (m w))).

(** The cart and product operations a client issues one after the other;
    an exception ends the request, not the session. *)
Inductive cart_op :=
| OpAdd (user_id product_id : string) (quantity : Z)
| OpSetQuantity (user_id product_id : string) (quantity : Z)
| OpRemove (user_id product_id : string)
| OpGet (user_id : string)
| OpClear (user_id : string)
| OpCheckout (user_id order_id order_date : string)
| OpViewProduct (product_id : string) (user_id : option string).

Definition run_op (o : cart_op) : M unit :=
  match o with
  | OpAdd u p q => CartService.add_to_cart u p q
  | OpSetQuantity u p q => CartService.update_item_quantity u p q
  | OpRemove u p => CartService.remove_from_cart u p
  | OpGet u => _ ← CartService.get_cart u; mret tt
  | OpClear u => CartService.clear_cart u
  | OpCheckout u oid d => _ ← CartService.convert_cart_to_order u oid d; mret tt
  | OpViewProduct p u => _ ← ProductService.get_product_by_id p u; mret tt
  end.

Fixpoint run_ops (ops : list cart_op) (w : world) : world :=
  match ops with
  | [] => w
  | o :: rest => run_ops rest (snd (run_op o w))
  end.

(** Starting states: empty stores, servers that answer every round trip. *)
Definition no_fault : nat -> bool := fun _ => false.
Definition redis_empty : redis := mkRedis ∅ ∅.
Definition pg_empty : pgdb := mkPg ∅ ∅ ∅ ∅.
Definition graph_empty : graph := mkGraph ∅ ∅ [] [].
Definition start_world (r : redis) (p : pgdb) (g : graph) : world :=
  mkWorld r p 0 no_fault g 0 no_fault.

(** A cart with two lines whose TTL has run down to 100 seconds. *)
Definition world_cart_ttl : world :=
  start_world (mkRedis {[ "cart:U1" := RHash [("P1", "2"); ("P2", "1")] ]}
                       {[ "cart:U1" := 100 ]})
              pg_empty graph_empty.

(** Computations that never raise [ProductsMissing]. *)
Definition never_missing {A} (m : M A) : Prop :=
  forall w, fst (m w) <> Raise CartService.products_missing.

(** Computations that leave the graph alone. *)
Definition graph_frame {A} (m : M A) : Prop :=
  forall w, w_graph (snd (m w)) = w_graph w.

(** A shop: user [U1], products [P1] at 10.00 and [P2] at 5.00. *)
Definition product_priced (name : string) (cents : Z) : product :=
  mkProduct name None (Some cents) None None None None.
Definition pg_shop : pgdb :=
  mkPg {[ "U1" ]}
       (<[ "P1" := product_priced "Lamp" 1000 ]> {[ "P2" := product_priced "Mug" 500 ]})
       ∅ ∅.
Definition graph_shop : graph := mkGraph {[ "U1" ]} {[ "P1"; "P2" ]} [] [].
Definition redis_cart (h : list (string * string)) : redis :=
  mkRedis {[ "cart:U1" := RHash h ]} {[ "cart:U1" := CART_TTL ]}.
(** The [n]-th round trip fails. *)
Definition fault_at (n : nat) : nat -> bool := fun k => Nat.eqb k n.
Definition shop_world (h : list (string * string)) (pg_fault gr_fault : nat -> bool) : world :=
  mkWorld (redis_cart h) pg_shop 0 pg_fault graph_shop 0 gr_fault.

(** The invariant the specification states for an order: the sum of
    quantity × price-at-purchase over its items, in cents. *)
Definition order_items_total (p : pgdb) (order_id : string) : Z :=
  foldr (fun '((o, _), it) acc =>
           if String.eqb o order_id
           then item_quantity it * item_price_at_purchase it + acc else acc)
        0 (map_to_list (pg_order_items p)).

(** Prices at the two ends of the DECIMAL(10,2) range (the column has no
    CHECK constraint, so a negative price is a valid row). *)
Definition pg_extreme : pgdb :=
  mkPg {[ "U1" ]}
       (<[ "P1" := product_priced "Lamp" 9999999999 ]>
          {[ "P2" := product_priced "Rebate" (-9999999998) ]})
       ∅ ∅.

(** Products at 0.10 and 0.20. *)
Definition pg_dimes : pgdb :=
  mkPg {[ "U1" ]}
       (<[ "P1" := product_priced "Pen" 10 ]> {[ "P2" := product_priced "Clip" 20 ]})
       ∅ ∅.

(** A product table where the only product has no price. *)
Definition pg_unpriced : pgdb :=
  mkPg {[ "U1" ]} {[ "P1" := mkProduct "Lamp" None None None None None None ]} ∅ ∅.

(** A cart holding that product and one that has no row. *)
Definition world_unpriced_missing : world :=
  mkWorld (redis_cart [("P1", "1"); ("P9", "1")]) pg_unpriced 0 no_fault graph_shop 0 no_fault.

(** A row of the similarity query, with the given [price] column. *)
Definition search_row (price : pyval) : list (string * pyval) :=
  [("id", PStr "P7"); ("name", PStr "Gift card"); ("description", PNone);
   ("price", price); ("category_name", PStr "Gifts");
   ("similarity", PFloat (Flt.of_cents 50))].

(** [natural_language_search("gift card")] against an engine answering
    with that one row.  The run does not depend on the hash, the float
    printer or the embedding, which are fixed to simple functions. *)
Definition search_gift (price : pyval) : M pyval :=
  natural_language_search (fun s => s) (fun _ => "") (fun _ => [])
    (fun _ _ => [search_row price]) "gift card" None None None 10.

(** The same call made twice in a row. *)
Definition twice {A} (m : M A) (w : world) : outcome A * outcome A * world :=
  let '(o1, w1) := m w in let '(o2, w2) := m w1 in (o1, o2, w2).

(* ------------------------------------------------------------------ *)
(** ** Cache counters, the cache-aside pattern and frames *)

(** The integer that [INCR] reads at key [k] ([0] for a missing key);
    [None] when [INCR] would fail on the stored value. *)
Definition counter_at (r : redis) (k : string) : option Z :=
  match r_keys r !! k with
  | None => Some 0
  | Some (RHash _) | Some (RZSet _) => None
  | Some v => Redis.int_of_value v
  end.

(** The world [w] with the counter [cache_metrics:m] set to [n + 1]. *)
Definition hit_counted (w : world) (m : string) (n : Z) : world :=
  set_redis (Redis.with_key (w_redis w) ("cache_metrics:" +:+ m) (RStr (py_str_int (n + 1)))) w.

(** The cache-aside shape shared by [search_products] and
    [find_similar_products]: read the key, count a hit and return the cached
    results, or count a miss, [fetch], store the results with the cache TTL
    and return them. *)
Definition cached_query (cache_key hit_metric miss_metric : string) (fetch : M pyval)
  : M pyval :=
  cached_results ← RedisClient.get_json cache_key;
  if negb (is_none cached_results)
  then RedisClient.increment_cache_metric hit_metric ;; mret cached_results
  else
    RedisClient.increment_cache_metric miss_metric ;;
    results ← fetch;
    RedisClient.set_json cache_key results CACHE_TTL ;;
    mret results.

(** Every hash in the store has distinct fields. *)
Definition hashes_nodup (r : redis) : Prop :=
  forall k h, r_keys r !! k = Some (RHash h) -> NoDup h.*1.

(** A computation that leaves the value at key [k] alone. *)
Definition keeps_key {A} (k : string) (m : M A) : Prop :=
  forall w, r_keys (w_redis (snd (m w))) !! k = r_keys (w_redis w) !! k.

(** A computation that keeps the Neo4j fault oracle. *)
Definition gr_oracle_kept {A} (m : M A) : Prop :=
  forall w, w_gr_fault (snd (m w)) = w_gr_fault w.

(** Every [cache_metrics:*] key holds a value that [int(value) if value else 0] reads. *)
Definition metrics_readable (r : redis) : Prop :=
  forall k v, String.prefix "cache_metrics:" k = true -> r_keys r !! k = Some v ->
  exists n, RedisClient.metric_int (Some v) = Ok n.

(** The value [get_cache_metrics] reads for key [k]. *)
Definition metric_val (r : redis) (k : string) : Z :=
  match RedisClient.metric_int (r_keys r !! k) with Ok n => n | Raise _ => 0 end.

(** [ZREVRANGE] order is total. *)
#[global] Instance zrev_le_total : Total Redis.zrev_le.
Proof.
  intros a b. unfold Redis.zrev_le.
  destruct (Z.lt_trichotomy a.2 b.2) as [H|[H|H]]; [right; by left| |left; by left].
  destruct (total String.le a.1 b.1); [right|left]; right; done.
Qed.

(* ================================================================== *)
(** * Properties *)

(* ------------------------------------------------------------------ *)
(** ** Cache keys of the semantic search *)

Lemma key_le_trans : Transitive key_le.
Proof. intros a b c. unfold key_le. intros. by trans b.1. Qed.

Lemma key_le_total : Total key_le.
Proof. intros a b. unfold key_le. apply (total String.le). Qed.

(** In a list with distinct keys, a key determines its entry. *)
Lemma nodup_keys_entry {B} (l : list (string * B)) x y :
  NoDup l.*1 -> x ∈ l -> y ∈ l -> x.1 = y.1 -> x = y.
Proof.
  induction l as [|z l IH]; simpl; intros Hnd Hx Hy Hk; [set_solver|].
  inversion Hnd as [|? ? Hz Hnd']; subst.
  apply elem_of_cons in Hx as [->|Hx]; apply elem_of_cons in Hy as [->|Hy];
    [done| | |auto].
  - exfalso. apply Hz. rewrite Hk. by apply list_elem_of_fmap_2.
  - exfalso. apply Hz. rewrite <- Hk. by apply list_elem_of_fmap_2.
Qed.

(** Sorting a dictionary's items by key gives one list whatever the
    insertion order. *)
Lemma merge_sort_key_perm (P1 P2 : list (string * pyval)) :
  NoDup P1.*1 -> P1 ≡ₚ P2 -> merge_sort key_le P1 = merge_sort key_le P2.
Proof.
  intros Hnd Hp.
  pose proof key_le_trans. pose proof key_le_total.
  apply (Sorted_unique_strong key_le).
  - intros x1 x2 H1 H2 H12 H21.
    apply nodup_keys_entry with (l := P1); [done| | |].
    + by rewrite <- (merge_sort_Permutation key_le P1).
    + rewrite Hp. by rewrite <- (merge_sort_Permutation key_le P2).
    + by apply (anti_symm String.le).
  - by apply Sorted_merge_sort.
  - by apply Sorted_merge_sort.
  - by rewrite !merge_sort_Permutation.
Qed.

(** **** C5
    For any two parameter dictionaries with the same (name, value) pairs,
    differing only in insertion order, [_generate_cache_key] returns the same
    key: the parameters are sorted by name, joined as [name=value] with
    ["&"], hashed, and prefixed with the ["semantic_search:"] namespace.
    The digest and the printing of floats are arbitrary functions here. *)
Theorem generate_cache_key_insertion_order
    (md5_hexdigest : string -> string) (float_repr : Flt.float -> string)
    (P1 P2 : list (string * pyval)) :
  NoDup P1.*1 -> P1 ≡ₚ P2 ->
  generate_cache_key md5_hexdigest float_repr P1 =
  generate_cache_key md5_hexdigest float_repr P2.
Proof.
  intros Hnd Hp. unfold generate_cache_key.
  by rewrite (merge_sort_key_perm P1 P2 Hnd Hp).
Qed.

Lemma generate_cache_key_insertion_order_witness :
  let P1 := [("query", PStr "lamp"); ("top_k", PInt 10)] in
  let P2 := [("top_k", PInt 10); ("query", PStr "lamp")] in
  NoDup P1.*1 /\ P1 ≡ₚ P2 /\
  generate_cache_key (fun s => s) (fun _ => "") P1 =
  generate_cache_key (fun s => s) (fun _ => "") P2.
Proof.
  intros P1 P2.
  assert (Hnd : NoDup P1.*1) by (apply (bool_decide_unpack _); vm_compute; exact I).
  assert (Hp : P1 ≡ₚ P2) by apply perm_swap.
  split; [exact Hnd|split; [exact Hp|]].
  exact (generate_cache_key_insertion_order (fun s => s) (fun _ => "") P1 P2 Hnd Hp).
Defined.

(* ------------------------------------------------------------------ *)
(** ** The monad: unfolding and framing *)

Lemma bind_run {A B} (m : M A) (k : A -> M B) w :
  (x ← m; k x) w = match m w with
                   | (Ok a, w') => k a w'
                   | (Raise e, w') => (Raise e, w')
                   end.
Proof. reflexivity. Qed.

Lemma frame_bind {A B} (m : M A) (k : A -> M B) :
  redis_frame m -> (forall a, redis_frame (k a)) -> redis_frame (x ← m; k x).
Proof.
  intros Hm Hk w. rewrite bind_run. specialize (Hm w).
  destruct (m w) as [[a|e] w'] eqn:E; simpl in *; [rewrite Hk|]; done.
Qed.

Lemma frame_ret {A} (a : A) : redis_frame (mret a).
Proof. intros w. reflexivity. Qed.

Lemma frame_raise {A} e : redis_frame (@raise A e).
Proof. intros w. reflexivity. Qed.

Lemma frame_lift {A} (o : outcome A) : redis_frame (lift o).
Proof. intros w. reflexivity. Qed.

Lemma frame_pg_roundtrip : redis_frame Pg.roundtrip.
Proof. intros w. unfold Pg.roundtrip. by destruct (w_pg_fault w (w_pg_calls w)). Qed.

Lemma frame_pg_execute {A} (stmt : pgdb -> outcome A * pgdb) :
  redis_frame (Pg.execute stmt).
Proof.
  unfold Pg.execute. apply frame_bind; [apply frame_pg_roundtrip|].
  intros _ w. unfold prim. by destruct (stmt (w_pg w)).
Qed.

Lemma frame_executemany items : redis_frame (Pg.executemany_items items).
Proof.
  induction items as [|[[[oid pid] q] pr] rest IH]; simpl.
  - apply frame_ret.
  - apply frame_bind; [apply frame_pg_execute|]. intros _. apply IH.
Qed.

Lemma frame_get_cursor {A} (body : M A) :
  redis_frame body -> redis_frame (PostgresConnection.get_cursor body).
Proof.
  intros Hb. unfold PostgresConnection.get_cursor.
  apply frame_bind; [apply frame_pg_roundtrip|]. intros _ w. unfold prim.
  specialize (Hb w).
  destruct (body w) as [[a|e] w1] eqn:E; simpl in *; [|done].
  pose proof (frame_pg_roundtrip w1) as Hr.
  destruct (Pg.roundtrip w1) as [[]w2]; simpl in *; congruence.
Qed.

Lemma frame_neo4j_roundtrip : redis_frame Neo4jClient.roundtrip.
Proof. intros w. unfold Neo4jClient.roundtrip. by destruct (w_gr_fault w (w_gr_calls w)). Qed.

Lemma frame_add_purchase u p q d : redis_frame (Neo4jClient.add_purchase u p q d).
Proof.
  unfold Neo4jClient.add_purchase. apply frame_bind; [apply frame_neo4j_roundtrip|].
  intros _ w. unfold prim. by case_decide.
Qed.

Lemma frame_add_view u p : redis_frame (Neo4jClient.add_view u p).
Proof.
  unfold Neo4jClient.add_view. apply frame_bind; [apply frame_neo4j_roundtrip|].
  intros _ w. unfold prim. by case_decide.
Qed.

Lemma frame_for_each {A} (l : list A) (body : A -> M unit) :
  (forall a, redis_frame (body a)) -> redis_frame (for_each l body).
Proof.
  intros Hb. induction l as [|a l IH]; simpl; [apply frame_ret|].
  apply frame_bind; [apply Hb|]. intros _. apply IH.
Qed.

Lemma frame_checkout_txn u oid d cart :
  redis_frame (CartService.checkout_txn u oid d cart).
Proof.
  unfold CartService.checkout_txn.
  apply frame_bind; [apply frame_pg_execute|]. intros rows.
  apply frame_bind; [apply frame_lift|]. intros pp.
  destruct (negb _); [apply frame_raise|].
  apply frame_bind; [apply frame_lift|]. intros [total items].
  apply frame_bind; [apply frame_pg_execute|]. intros _.
  apply frame_bind; [apply frame_executemany|]. intros _. apply frame_ret.
Qed.

(* ------------------------------------------------------------------ *)
(** ** Decimal text of integers *)

Lemma to_uint_not_nil p : Pos.to_uint p <> Nil.
Proof.
  intros H. pose proof (DecimalZ.of_to (Zpos p)) as E.
  simpl in E. rewrite H in E. discriminate E.
Qed.

Lemma int_of_py_str_int z : NilZero.int_of_string (py_str_int z) = Some (Z.to_int z).
Proof.
  unfold py_str_int. rewrite NilZero.isi; [done| |].
  - destruct z; simpl; try discriminate. intros [=]. by apply (to_uint_not_nil p).
  - destruct z; simpl; try discriminate. intros [=]. by apply (to_uint_not_nil p).
Qed.

Lemma digit_not_space c : is_digit c = true -> py_space c = false.
Proof. destruct c as [[][][][][][][][]]; vm_compute; congruence. Qed.

Lemma uint_of_string_digits s u :
  NilEmpty.uint_of_string s = Some u -> Forall (fun c => is_digit c = true) (list_ascii_of_string s).
Proof.
  revert u. induction s as [|a s IH]; intros u H; simpl; [done|].
  simpl in H. destruct (NilEmpty.uint_of_string s) as [d|] eqn:Ed; [|done].
  apply uint_of_char_spec in H.
  constructor; [|by eapply IH].
  intuition subst; reflexivity.
Qed.

Lemma digit_group_digits l b :
  Forall (fun c => is_digit c = true) l -> l <> [] ->
  py_digit_group b l = Some (string_of_list_ascii l).
Proof.
  revert b. induction l as [|c l IH]; intros b Hd Hne; [done|].
  inversion Hd as [|? ? Hc Hl]; subst. simpl. rewrite Hc.
  destruct l as [|c' l']; [done|]. rewrite IH; [done|done|done].
Qed.

Lemma py_strip_keep l :
  l <> [] -> (from_option py_space true (head l) = false) ->
  from_option py_space true (last l) = false -> py_strip l = l.
Proof.
  intros Hne Hh Hl. unfold py_strip.
  destruct l as [|c l]; [done|]. simpl in Hh. simpl. rewrite Hh.
  destruct (reverse (c :: l)) as [|d r] eqn:E.
  - by apply (f_equal length) in E; rewrite length_reverse in E.
  - assert (Hd : head (reverse (c :: l)) = Some d) by (rewrite E; done).
    rewrite head_reverse in Hd. rewrite Hd in Hl. simpl in Hl. simpl. rewrite Hl, <- E.
    apply reverse_involutive.
Qed.

Lemma last_digits_not_space l :
  Forall (fun c => is_digit c = true) l -> l <> [] ->
  from_option py_space true (last l) = false.
Proof.
  intros Hd Hne. destruct (last l) as [c|] eqn:E.
  - apply digit_not_space. apply last_Some_elem_of in E. by eapply Forall_forall in Hd.
  - by apply last_None in E.
Qed.

Lemma list_ascii_of_string_nonempty a s : list_ascii_of_string (String a s) <> [].
Proof. done. Qed.

(** [int] accepts every text [NilZero.int_of_string] reads, with its value. *)
Lemma py_int_of_int_of_string s i :
  NilZero.int_of_string s = Some i -> py_int s = Some (Z.of_int i).
Proof.
  destruct s as [|a r]; [done|]. cbn [NilZero.int_of_string].
  destruct (Ascii.eqb a "-") eqn:Ea.
  - apply Ascii.eqb_eq in Ea. subst a.
    destruct (NilZero.uint_of_string r) as [u|] eqn:Eu; [|done]. intros [= <-].
    destruct r as [|b r']; [done|]. cbn [NilZero.uint_of_string] in Eu.
    pose proof (uint_of_string_digits _ _ Eu) as Hd.
    unfold py_int. rewrite py_strip_keep.
    + change (list_ascii_of_string (String "-" ?x)) with ("-"%char :: list_ascii_of_string x).
      cbv beta iota. rewrite Ascii.eqb_refl. cbv beta iota.
      rewrite (digit_group_digits _ _ Hd) by done.
      rewrite string_of_list_ascii_of_string.
      change (Some ?x ≫= ?f) with (f x). rewrite Eu. done.
    + done.
    + done.
    + cbn [list_ascii_of_string]. rewrite last_cons_cons.
      by apply last_digits_not_space.
  - destruct (NilZero.uint_of_string (String a r)) as [u|] eqn:Eu; [|done]. intros [= <-].
    cbn [NilZero.uint_of_string] in Eu.
    pose proof (uint_of_string_digits _ _ Eu) as Hd.
    assert (Ha : is_digit a = true) by (inversion Hd; done).
    unfold py_int. rewrite py_strip_keep.
    + change (list_ascii_of_string (String a r)) with (a :: list_ascii_of_string r) at 1.
      cbv beta iota. rewrite Ea.
      destruct (Ascii.eqb a "+") eqn:Ep.
      { apply Ascii.eqb_eq in Ep. subst a. discriminate. }
      cbv beta iota.
      rewrite (digit_group_digits _ _ Hd) by done.
      rewrite string_of_list_ascii_of_string.
      change (Some ?x ≫= ?f) with (f x). rewrite Eu. done.
    + done.
    + simpl. by apply digit_not_space.
    + by apply last_digits_not_space.
Qed.

Lemma py_int_py_str_int z : py_int (py_str_int z) = Some z.
Proof.
  rewrite (py_int_of_int_of_string _ _ (int_of_py_str_int z)).
  by rewrite DecimalZ.of_to.
Qed.

(** What [string2ll] reads, [NilZero.int_of_string] reads to the same value. *)
Lemma string2ll_int_of_string s n :
  redis_string2ll s = Some n -> exists i, NilZero.int_of_string s = Some i /\ Z.of_int i = n.
Proof.
  unfold redis_string2ll.
  destruct (_ || _); [done|].
  destruct (String.eqb s "0") eqn:E0.
  { apply String.eqb_eq in E0. subst s. intros [= <-]. by exists (Pos (D0 Nil)). }
  destruct s as [|a r]; [done|].
  cbv beta iota. destruct (Ascii.eqb a "-") eqn:Ea; cbv beta iota.
  - destruct r as [|c r']; [done|].
    destruct (_ && _); [|done].
    destruct (NilEmpty.uint_of_string (String c r')) as [u|] eqn:Eu; [|done].
    destruct (_ && _); [|done]. intros [= <-].
    exists (Neg u). cbn [NilZero.int_of_string]. rewrite Ea.
    cbn [NilZero.uint_of_string]. by rewrite Eu.
  - destruct (_ && _); [|done].
    destruct (NilEmpty.uint_of_string (String a r)) as [u|] eqn:Eu; [|done].
    destruct (_ && _); [|done]. intros [= <-].
    exists (Pos u). cbn [NilZero.int_of_string]. rewrite Ea.
    cbn [NilZero.uint_of_string]. by rewrite Eu.
Qed.

Lemma string2ll_py_str_int z n :
  redis_string2ll (py_str_int z) = Some n -> n = z.
Proof.
  intros (i & Ei & <-)%string2ll_int_of_string.
  rewrite int_of_py_str_int in Ei. injection Ei as <-. apply DecimalZ.of_to.
Qed.

(* ------------------------------------------------------------------ *)
(** ** Dictionaries as association lists *)

Lemma dict_set_Forall {A} (P : string * A -> Prop) d k v :
  Forall P d -> P (k, v) -> Forall P (dict_set d k v).
Proof.
  intros Hd Hkv. induction Hd as [|[k' v'] d Hx Hd IH]; simpl; [by constructor|].
  destruct (String.eqb k k'); by constructor.
Qed.

Lemma dict_get_elem {A} (d : list (string * A)) k v :
  dict_get d k = Some v -> (k, v) ∈ d.
Proof.
  induction d as [|[k' v'] d IH]; simpl; [done|].
  destruct (String.eqb_spec k k') as [->|]; intros H.
  - injection H as ->. by left.
  - right. by apply IH.
Qed.

Lemma dict_get_not_key {A} (d : list (string * A)) k :
  k ∉ d.*1 -> dict_get d k = None.
Proof.
  induction d as [|[k' v'] d IH]; simpl; [done|].
  intros Hk. destruct (String.eqb_spec k k') as [->|]; [set_solver|].
  apply IH. set_solver.
Qed.

Lemma dict_set_keys {A} (d : list (string * A)) k v x :
  x ∈ (dict_set d k v).*1 -> x = k \/ x ∈ d.*1.
Proof.
  induction d as [|[k' v'] d IH]; simpl; [set_solver|].
  destruct (String.eqb k k'); simpl; [set_solver|].
  intros [->|Hx]%elem_of_cons; [set_solver|]. destruct (IH Hx); set_solver.
Qed.

(** A key absent from the stored hash and from the accumulator is absent
    from what [parse_cart] returns. *)
Lemma parse_cart_keys cart data p :
  p ∉ cart.*1 -> p ∉ data.*1 -> p ∉ (RedisClient.parse_cart cart data).*1.
Proof.
  revert cart. induction data as [|[f s] data IH]; simpl; intros cart Hc Hd; [done|].
  destruct (py_int s); apply IH; try set_solver.
  intros [->|]%dict_set_keys; set_solver.
Qed.

(** What [parse_cart] returns comes from the accumulator or from the
    integers parsed out of the hash. *)
Lemma parse_cart_values cart data fq :
  fq ∈ RedisClient.parse_cart cart data ->
  fq ∈ cart \/ exists s, (fq.1, s) ∈ data /\ py_int s = Some fq.2.
Proof.
  revert cart. induction data as [|[f s] data IH]; simpl; intros cart H; [by left|].
  destruct (py_int s) as [q|] eqn:Eq.
  - destruct (IH _ H) as [Hin|(s' & Hs' & Hq)].
    + (* entries of [dict_set cart f q] *)
      assert (Hset : forall d : list (string * Z), fq ∈ dict_set d f q -> fq ∈ d \/ fq = (f, q)).
      { intros d. induction d as [|[k' v'] d IHd]; simpl.
        - intros [->|Hx]%elem_of_cons; [by right|set_solver].
        - destruct (String.eqb f k'); intros [->|Hx]%elem_of_cons; try set_solver;
            destruct (IHd Hx); set_solver. }
      destruct (Hset _ Hin) as [Hd| ->]; [by left|]. right. exists s. simpl. set_solver.
    + right. exists s'. set_solver.
  - destruct (IH _ H) as [|(s' & Hs' & Hq)]; [by left|]. right. exists s'. set_solver.
Qed.

(* ------------------------------------------------------------------ *)
(** ** Cart hashes hold positive integers *)

Lemma preserves_bind {A B} (m : M A) (k : A -> M B) :
  preserves m -> (forall a, preserves (k a)) -> preserves (x ← m; k x).
Proof.
  intros Hm Hk w Hw. rewrite bind_run. specialize (Hm w Hw).
  destruct (m w) as [[a|e] w'] eqn:E; simpl in *; [by apply Hk|done].
Qed.

Lemma preserves_frame {A} (m : M A) : redis_frame m -> preserves m.
Proof. intros Hm w Hw. by rewrite Hm. Qed.

Lemma preserves_ret {A} (a : A) : preserves (mret a).
Proof. apply preserves_frame, frame_ret. Qed.

Lemma preserves_raise {A} e : preserves (@raise A e).
Proof. apply preserves_frame, frame_raise. Qed.

Lemma preserves_cmd {A} (f : redis -> outcome A * redis) :
  (forall r, carts_positive r -> carts_positive (snd (f r))) ->
  preserves (Redis.cmd f).
Proof.
  intros Hf w Hw. unfold Redis.cmd. specialize (Hf _ Hw).
  by destruct (f (w_redis w)).
Qed.

Lemma carts_positive_with_key r k v :
  carts_positive r -> (forall h, v = RHash h -> positive_quantities h) ->
  carts_positive (Redis.with_key r k v).
Proof.
  intros Hr Hv k' h. simpl. intros [[-> ->]|[_ H]]%lookup_insert_Some.
  - by apply Hv.
  - by apply (Hr k').
Qed.

Lemma carts_positive_without_key r k :
  carts_positive r -> carts_positive (Redis.without_key r k).
Proof.
  intros Hr k' h. simpl. intros [_ H]%lookup_delete_Some. by apply (Hr k').
Qed.

Lemma preserves_GET k : preserves (Redis.cmd (Redis.GET k)).
Proof.
  apply preserves_cmd. intros r Hr. unfold Redis.GET.
  by destruct (r_keys r !! k) as [[]|].
Qed.

Lemma preserves_HGETALL k : preserves (Redis.cmd (Redis.HGETALL k)).
Proof.
  apply preserves_cmd. intros r Hr. unfold Redis.HGETALL.
  by destruct (r_keys r !! k) as [[]|].
Qed.

Lemma preserves_EXPIRE k ttl : preserves (Redis.cmd (Redis.EXPIRE k ttl)).
Proof.
  apply preserves_cmd. intros r Hr. unfold Redis.EXPIRE.
  by destruct (r_keys r !! k).
Qed.

Lemma preserves_DEL k : preserves (Redis.cmd (Redis.DEL k)).
Proof. apply preserves_cmd. intros r Hr. by apply carts_positive_without_key. Qed.

Lemma preserves_INCR k : preserves (Redis.cmd (Redis.INCR k)).
Proof.
  apply preserves_cmd. intros r Hr. unfold Redis.INCR.
  repeat case_match; simpl; try done; by apply carts_positive_with_key.
Qed.

Lemma preserves_ZINCRBY k by_ m : preserves (Redis.cmd (Redis.ZINCRBY k by_ m)).
Proof.
  apply preserves_cmd. intros r Hr. unfold Redis.ZINCRBY.
  destruct (r_keys r !! k) as [[]|]; simpl; try done; by apply carts_positive_with_key.
Qed.

Lemma preserves_set_json key v ttl : preserves (RedisClient.set_json key v ttl).
Proof.
  unfold RedisClient.set_json. destruct (json_dumps v); [|apply preserves_raise].
  apply preserves_cmd. intros r Hr. by apply carts_positive_with_key.
Qed.

Lemma preserves_HINCRBY k f by_ :
  0 < by_ -> preserves (Redis.cmd (Redis.HINCRBY k f by_)).
Proof.
  intros Hby. apply preserves_cmd. intros r Hr. unfold Redis.HINCRBY.
  destruct (r_keys r !! k) as [v|] eqn:Ek; [destruct v as [| |h|]|]; simpl; try done.
  - destruct (dict_get h f) as [s|] eqn:Eg.
    + destruct (redis_string2ll s) as [n|] eqn:En; simpl; [|done].
      destruct (_ && _); simpl; [|done].
      apply carts_positive_with_key; [done|]. intros h' [= <-].
      pose proof (Hr k h Ek) as Hh.
      apply dict_set_Forall; [done|].
      apply dict_get_elem in Eg. unfold positive_quantities in Hh.
      rewrite Forall_forall in Hh. destruct (Hh _ Eg) as (z & Hz & Hs).
      simpl in Hs. subst s. apply string2ll_py_str_int in En. subst n.
      exists (z + by_). split; [lia|done].
    + simpl. destruct (_ && _); simpl; [|done].
      apply carts_positive_with_key; [done|]. intros h' [= <-].
      apply dict_set_Forall; [by apply (Hr k)|]. exists (0 + by_). split; [lia|done].
  - destruct (_ && _); simpl; [|done].
    apply carts_positive_with_key; [done|]. intros h' [= <-].
    constructor; [|constructor]. exists (0 + by_). split; [lia|done].
Qed.

Lemma preserves_HSET k f q :
  0 < q -> preserves (Redis.cmd (Redis.HSET k f (py_str_int q))).
Proof.
  intros Hq. apply preserves_cmd. intros r Hr. unfold Redis.HSET.
  destruct (r_keys r !! k) as [v|] eqn:Ek; [destruct v as [| |h|]|]; simpl; try done;
    apply carts_positive_with_key; try done; intros h' [= <-].
  - apply dict_set_Forall; [by apply (Hr k)|]. by exists q.
  - constructor; [|constructor]. by exists q.
Qed.

Lemma preserves_HDEL k f : preserves (Redis.cmd (Redis.HDEL k f)).
Proof.
  apply preserves_cmd. intros r Hr. unfold Redis.HDEL.
  destruct (r_keys r !! k) as [v|] eqn:Ek; [destruct v as [| |h|]|]; simpl; try done.
  pose proof (Hr k h Ek) as Hh.
  assert (Hf : positive_quantities (filter (fun kv => kv.1 <> f) h)).
  { unfold positive_quantities in *. rewrite Forall_forall in *.
    intros x [_ Hx]%list_elem_of_filter. by apply Hh. }
  destruct (filter _ h) as [|e h'] eqn:Ef; simpl.
  - by apply carts_positive_without_key.
  - apply carts_positive_with_key; [done|]. intros h'' [= <-]. done.
Qed.

Lemma preserves_get_json key : preserves (RedisClient.get_json key).
Proof.
  unfold RedisClient.get_json. apply preserves_bind; [apply preserves_GET|].
  intros d. repeat case_match; apply preserves_ret.
Qed.

Lemma preserves_get_cart u : preserves (RedisClient.get_cart u).
Proof.
  unfold RedisClient.get_cart. apply preserves_bind; [apply preserves_HGETALL|].
  intros d. apply preserves_ret.
Qed.

Lemma frame_get_product_from_db id : redis_frame (ProductService.get_product_from_db id).
Proof.
  unfold ProductService.get_product_from_db. apply frame_get_cursor.
  apply frame_bind; [apply frame_pg_execute|]. intros [p|]; [|apply frame_ret].
  destruct (dict_get _ _); [|apply frame_ret].
  apply frame_bind; [apply frame_lift|]. intros f. apply frame_ret.
Qed.

Lemma preserves_get_product_by_id id u :
  preserves (ProductService.get_product_by_id id u).
Proof.
  unfold ProductService.get_product_by_id.
  apply preserves_bind; [apply preserves_get_json|]. intros c.
  apply preserves_bind.
  { destruct (py_truthy c); [apply preserves_ret|].
    apply preserves_bind; [apply preserves_frame, frame_get_product_from_db|]. intros p.
    apply preserves_bind; [|intros; apply preserves_ret].
    destruct (py_truthy p); [|apply preserves_ret].
    apply preserves_bind; [apply preserves_set_json|intros; apply preserves_ret]. }
  intros p. apply preserves_bind; [|intros; apply preserves_ret].
  destruct (py_truthy p); [|apply preserves_ret].
  apply preserves_bind.
  { unfold RedisClient.increment_hot_product_score.
    apply preserves_bind; [apply preserves_ZINCRBY|intros; apply preserves_ret]. }
  intros _. destruct u as [u|]; [|apply preserves_ret].
  destruct (String.eqb u ""); [apply preserves_ret|].
  apply preserves_frame, frame_add_view.
Qed.

Lemma preserves_convert_cart_to_order u oid d :
  preserves (CartService.convert_cart_to_order u oid d).
Proof.
  unfold CartService.convert_cart_to_order.
  apply preserves_bind; [apply preserves_get_cart|]. intros cart.
  destruct cart as [|pq cart]; [apply preserves_raise|].
  apply preserves_bind; [apply preserves_frame, frame_get_cursor, frame_checkout_txn|].
  intros total. apply preserves_bind.
  { apply preserves_frame, frame_for_each. intros [p q]. apply frame_add_purchase. }
  intros _. apply preserves_bind; [apply preserves_DEL|intros; apply preserves_ret].
Qed.

Lemma preserves_run_op o : preserves (run_op o).
Proof.
  destruct o as [u p q|u p q|u p|u|u|u oid d|p u]; simpl.
  - unfold CartService.add_to_cart. destruct (Z.leb_spec q 0); [apply preserves_raise|].
    unfold RedisClient.add_to_cart.
    apply preserves_bind; [by apply preserves_HINCRBY|]. intros _.
    apply preserves_bind; [apply preserves_EXPIRE|intros; apply preserves_ret].
  - unfold CartService.update_item_quantity.
    destruct (Z.ltb_spec q 0); [apply preserves_raise|].
    destruct (Z.eqb_spec q 0); [apply preserves_HDEL|].
    unfold RedisClient.update_cart_item_quantity.
    apply preserves_bind; [apply preserves_HSET; lia|]. intros _.
    apply preserves_bind; [apply preserves_EXPIRE|intros; apply preserves_ret].
  - apply preserves_HDEL.
  - apply preserves_bind; [apply preserves_get_cart|intros; apply preserves_ret].
  - apply preserves_DEL.
  - apply preserves_bind; [apply preserves_convert_cart_to_order|intros; apply preserves_ret].
  - apply preserves_bind; [apply preserves_get_product_by_id|intros; apply preserves_ret].
Qed.

Lemma run_ops_carts_positive ops w :
  carts_positive (w_redis w) -> carts_positive (w_redis (run_ops ops w)).
Proof.
  revert w. induction ops as [|o ops IH]; simpl; intros w Hw; [done|].
  apply IH. by apply preserves_run_op.
Qed.

(** [get_cart] on a state satisfying the invariant returns positive
    quantities. *)
Lemma get_cart_positive u w c :
  carts_positive (w_redis w) -> fst (CartService.get_cart u w) = Ok c ->
  Forall (fun pq => 0 < pq.2) c.
Proof.
  intros Hw. unfold CartService.get_cart, RedisClient.get_cart.
  rewrite bind_run. unfold Redis.cmd, Redis.HGETALL.
  destruct (r_keys (w_redis w) !! _) as [v|] eqn:E; [destruct v as [| |h|]|];
    simpl; try discriminate; intros [= <-]; [|constructor].
  apply Forall_forall. intros fq Hfq.
  destruct (parse_cart_values [] h fq Hfq) as [Hin|(s & Hs & Hq)]; [set_solver|].
  pose proof (Hw _ _ E) as Hh. unfold positive_quantities in Hh.
  rewrite Forall_forall in Hh. destruct (Hh _ Hs) as (z & Hz & Hsz).
  simpl in Hsz. subst s. rewrite py_int_py_str_int in Hq. by injection Hq as <-.
Qed.

(** After [HDEL key p] succeeds, [get_cart] reads no field [p]. *)
Lemma get_cart_after_remove u p w :
  fst (CartService.remove_from_cart u p w) = Ok tt ->
  exists c, fst (CartService.get_cart u (snd (CartService.remove_from_cart u p w))) = Ok c
            /\ p ∉ c.*1.
Proof.
  unfold CartService.remove_from_cart, RedisClient.remove_from_cart,
    CartService.get_cart, RedisClient.get_cart.
  rewrite bind_run. unfold Redis.cmd, Redis.HDEL, Redis.HGETALL.
  destruct (r_keys (w_redis w) !! _) as [v|] eqn:E; [destruct v as [| |h|]|];
    simpl; try discriminate; intros _.
  - destruct (filter (fun kv => kv.1 <> p) h) as [|e h'] eqn:Ef; simpl.
    + rewrite lookup_delete_eq. simpl. eexists. split; [reflexivity|set_solver].
    + rewrite lookup_insert_eq. simpl. eexists. split; [reflexivity|].
      change (p ∉ (RedisClient.parse_cart [] (e :: h')).*1).
      apply parse_cart_keys; [set_solver|]. rewrite <- Ef.
      intros (x & -> & [Hx _]%list_elem_of_filter)%list_elem_of_fmap_1. done.
  - rewrite E. simpl. eexists. split; [reflexivity|set_solver].
Qed.

(* ------------------------------------------------------------------ *)
(** ** Cart quantities *)

(** **** C8
    Cart quantities stay at least 1: [add] with a quantity [<= 0] raises the
    validation error and leaves the whole state untouched; a successful
    [setQuantity(u, p, 0)] deletes the field, so a following [get] succeeds
    and does not list [p]; from a state whose hashes hold positive integers
    (the empty store, for one) every sequence of cart and product
    operations keeps that so, and [get] then returns only positive integer
    quantities. *)
Theorem cart_quantities_always_positive :
  (forall u p q w, q <= 0 ->
     CartService.add_to_cart u p q w =
     (Raise (ValueError "Quantity must be a positive integer."), w)) /\
  (forall u p w,
     fst (CartService.update_item_quantity u p 0 w) = Ok tt ->
     exists c, fst (CartService.get_cart u (snd (CartService.update_item_quantity u p 0 w)))
               = Ok c /\ p ∉ c.*1) /\
  (forall ops w, carts_positive (w_redis w) -> carts_positive (w_redis (run_ops ops w))) /\
  (forall ops w u c,
     carts_positive (w_redis w) ->
     fst (CartService.get_cart u (run_ops ops w)) = Ok c ->
     Forall (fun pq => 0 < pq.2) c).
Proof.
  split; [|split; [|split]].
  - intros u p q w Hq. unfold CartService.add_to_cart.
    destruct (Z.leb_spec q 0); [reflexivity|lia].
  - intros u p w.
    change (CartService.update_item_quantity u p 0) with (CartService.remove_from_cart u p).
    apply get_cart_after_remove.
  - apply run_ops_carts_positive.
  - intros ops w u c Hw. apply get_cart_positive. by apply run_ops_carts_positive.
Qed.

Lemma cart_quantities_always_positive_witness :
  let w0 := start_world redis_empty pg_empty graph_empty in
  let ops := [OpAdd "U1" "P1" 2; OpAdd "U1" "P2" 1; OpSetQuantity "U1" "P2" 0;
              OpAdd "U1" "P1" 0] in
  carts_positive (w_redis w0) /\
  fst (CartService.get_cart "U1" (run_ops ops w0)) = Ok [("P1", 2)] /\
  Forall (fun pq => 0 < pq.2) [("P1", 2)].
Proof.
  intros w0 ops.
  assert (H0 : carts_positive (w_redis w0)).
  { intros k h. simpl. rewrite lookup_empty. discriminate. }
  assert (Hg : fst (CartService.get_cart "U1" (run_ops ops w0)) = Ok [("P1", 2)]).
  { vm_compute. reflexivity. }
  split; [exact H0|split; [exact Hg|]].
  exact (proj2 (proj2 (proj2 cart_quantities_always_positive)) ops w0 "U1" _ H0 Hg).
Defined.

(* ------------------------------------------------------------------ *)
(** ** Cart TTL *)

(** **** C9
    [remove_from_cart] (also the path of [setQuantity(u, p, 0)]) sends only
    [HDEL]: when the cart keeps other lines, the TTLs of the whole keyspace,
    that of the cart included, are the ones before the call; the TTL is not
    renewed to [CART_TTL] as [add] and [setQuantity] with a positive
    quantity renew it. *)
Theorem remove_from_cart_keeps_ttl u p w h :
  r_keys (w_redis w) !! RedisClient.get_cart_key u = Some (RHash h) ->
  filter (fun kv => kv.1 <> p) h <> [] ->
  r_ttl (w_redis (snd (CartService.remove_from_cart u p w))) = r_ttl (w_redis w).
Proof.
  intros E Hne.
  unfold CartService.remove_from_cart, RedisClient.remove_from_cart, Redis.cmd, Redis.HDEL.
  rewrite E. destruct (filter _ h) as [|e h'] eqn:Ef; [done|]. reflexivity.
Qed.

Lemma remove_from_cart_keeps_ttl_witness :
  r_keys (w_redis world_cart_ttl) !! RedisClient.get_cart_key "U1"
    = Some (RHash [("P1", "2"); ("P2", "1")]) /\
  filter (fun kv : string * string => kv.1 <> "P1") [("P1", "2"); ("P2", "1")] <> [] /\
  r_ttl (w_redis (snd (CartService.remove_from_cart "U1" "P1" world_cart_ttl)))
    !! "cart:U1" = Some 100 /\
  r_ttl (w_redis (snd (CartService.add_to_cart "U1" "P1" 1 world_cart_ttl)))
    !! "cart:U1" = Some CART_TTL.
Proof.
  assert (E : r_keys (w_redis world_cart_ttl) !! RedisClient.get_cart_key "U1"
              = Some (RHash [("P1", "2"); ("P2", "1")])) by (vm_compute; reflexivity).
  assert (Hne : filter (fun kv : string * string => kv.1 <> "P1")
                  [("P1", "2"); ("P2", "1")] <> []) by (vm_compute; discriminate).
  split; [exact E|split; [exact Hne|split]].
  - rewrite (remove_from_cart_keeps_ttl "U1" "P1" world_cart_ttl _ E Hne).
    vm_compute. reflexivity.
  - vm_compute. reflexivity.
Defined.

(* ------------------------------------------------------------------ *)
(** ** Checkout *)


Lemma dict_set_keys_iff {A} (d : list (string * A)) k v x :
  x ∈ (dict_set d k v).*1 <-> x = k \/ x ∈ d.*1.
Proof.
  induction d as [|[k' v'] d IH]; simpl; [set_solver|].
  destruct (String.eqb_spec k k') as [->|]; simpl; [set_solver|].
  rewrite !elem_of_cons, IH. tauto.
Qed.

Lemma dict_set_nodup {A} (d : list (string * A)) k v :
  NoDup d.*1 -> NoDup (dict_set d k v).*1.
Proof.
  induction d as [|[k' v'] d IH]; simpl; intros Hnd; [repeat constructor; set_solver|].
  inversion Hnd as [|? ? Hk' Hnd']; subst.
  destruct (String.eqb_spec k k') as [->|]; simpl; [by constructor|].
  constructor; [|by apply IH]. rewrite dict_set_keys_iff. naive_solver.
Qed.

Lemma parse_cart_nodup cart data :
  NoDup cart.*1 -> NoDup (RedisClient.parse_cart cart data).*1.
Proof.
  revert cart. induction data as [|[f s] data IH]; simpl; intros cart Hc; [done|].
  destruct (py_int s); apply IH; [by apply dict_set_nodup|done].
Qed.

Lemma price_dict_spec acc rows :
  (forall r, r ∈ rows -> is_Some r.2) -> NoDup acc.*1 ->
  exists pp, CartService.price_dict acc rows = Ok pp /\ NoDup pp.*1 /\
             (forall x, x ∈ pp.*1 <-> x ∈ acc.*1 \/ x ∈ rows.*1).
Proof.
  revert acc. induction rows as [|[id [c|]] rows IH]; simpl; intros acc Hr Hnd.
  - exists acc. split; [done|]. split; [done|]. set_solver.
  - destruct (IH (dict_set acc id (Flt.of_cents c))) as (pp & Hpp & Hnd' & Hk).
    + intros r Hin. apply Hr. by right.
    + by apply dict_set_nodup.
    + exists pp. split; [done|]. split; [done|]. intros x. rewrite Hk, dict_set_keys_iff.
      rewrite elem_of_cons. tauto.
  - exfalso. destruct (Hr (id, None)) as [? [=]]. by left.
Qed.

Lemma select_prices_rows ids p :
  exists rows, Pg.select_prices ids p = (Ok rows, p) /\
    (forall x, x ∈ rows.*1 <-> x ∈ ids /\ is_Some (pg_products p !! x)) /\
    (forall r, r ∈ rows -> exists pr, pg_products p !! r.1 = Some pr /\ r.2 = prod_price pr).
Proof.
  eexists. split; [reflexivity|]. split.
  - intros x. rewrite list_elem_of_fmap. split.
    + intros ([x' o] & -> & ([i pr] & Hi%elem_of_map_to_list & Hf)%list_elem_of_omap).
      simpl in Hf. case_decide; [|done]. injection Hf as <- <-. simpl. split; [done|by eexists].
    + intros [Hx [pr Hpr]]. exists (x, prod_price pr). split; [done|].
      apply list_elem_of_omap. exists (x, pr). split; [by apply elem_of_map_to_list|].
      simpl. by rewrite decide_True.
  - intros r ([i pr] & Hi%elem_of_map_to_list & Hf)%list_elem_of_omap.
    simpl in Hf. case_decide; [|done]. injection Hf as <-. by exists pr.
Qed.

Lemma lengths_match (pp : list (string * Flt.float)) (ids : list string) (found : string -> Prop) `{!forall x, Decision (found x)} :
  NoDup pp.*1 -> NoDup ids -> (forall x, x ∈ pp.*1 <-> x ∈ ids /\ found x) ->
  (length pp = length ids <-> forall x, x ∈ ids -> found x).
Proof.
  intros Hpp Hids Hk.
  rewrite <- (length_fmap fst pp).
  rewrite <- (size_list_to_set (C:=gset string) _ Hpp), <- (size_list_to_set (C:=gset string) _ Hids).
  split.
  - intros Hsz x Hx. destruct (decide (found x)) as [|Hn]; [done|exfalso].
    assert (Hsub : list_to_set (C:=gset string) pp.*1 ⊂ list_to_set ids).
    { split.
      - intros y. rewrite !elem_of_list_to_set, Hk. tauto.
      - intros Hs. specialize (Hs x). rewrite !elem_of_list_to_set, Hk in Hs. tauto. }
    apply subset_size in Hsub. lia.
  - intros Hall. f_equal. apply leibniz_equiv. intros y.
    rewrite !elem_of_list_to_set, Hk. naive_solver.
Qed.

Lemma map_fst_fmap {A B} (l : list (A * B)) : map fst l = l.*1.
Proof. induction l as [|x l IH]; [done|]. csimpl. by rewrite IH. Qed.

Lemma set_redis_same w : set_redis (w_redis w) w = w.
Proof. by destruct w. Qed.

Lemma get_cart_state u w : RedisClient.get_cart u w = (fst (RedisClient.get_cart u w), w).
Proof.
  destruct w as [r p n f g gn gf].
  unfold RedisClient.get_cart. rewrite bind_run. unfold Redis.cmd, Redis.HGETALL.
  cbn [w_redis]. destruct (r_keys r !! RedisClient.get_cart_key u) as [[]|]; reflexivity.
Qed.

Lemma get_cart_nodup u w c :
  fst (RedisClient.get_cart u w) = Ok c -> NoDup c.*1.
Proof.
  unfold RedisClient.get_cart. rewrite bind_run. unfold Redis.cmd, Redis.HGETALL.
  destruct (r_keys (w_redis w) !! _) as [[]|]; cbn -[RedisClient.parse_cart];
    try discriminate; intros [= <-]; first [apply parse_cart_nodup; constructor | constructor].
Qed.

Lemma pg_roundtrip_ok w :
  w_pg_fault w (w_pg_calls w) = false ->
  Pg.roundtrip w = (Ok tt, set_pg_calls (S (w_pg_calls w)) w).
Proof. intros H. unfold Pg.roundtrip. by rewrite H. Qed.

Lemma execute_ok {A} (stmt : pgdb -> outcome A * pgdb) w :
  w_pg_fault w (w_pg_calls w) = false ->
  Pg.execute stmt w =
  let '(o, p) := stmt (w_pg w) in (o, set_pg p (set_pg_calls (S (w_pg_calls w)) w)).
Proof. intros H. unfold Pg.execute. rewrite bind_run, pg_roundtrip_ok by done. reflexivity. Qed.

Lemma get_cursor_ok {A} (body : M A) w :
  w_pg_fault w (w_pg_calls w) = false ->
  PostgresConnection.get_cursor body w =
  match body (set_pg_calls (S (w_pg_calls w)) w) with
  | (Ok a, w2) =>
      match Pg.roundtrip w2 with
      | (Ok _, w3) => (Ok a, w3)
      | (Raise e, w3) => (Raise e, set_pg (w_pg w) w3)
      end
  | (Raise e, w2) => (Raise e, set_pg (w_pg w) w2)
  end.
Proof.
  intros H. unfold PostgresConnection.get_cursor. rewrite bind_run, pg_roundtrip_ok by done.
  reflexivity.
Qed.

Lemma nm_bind {A B} (m : M A) (k : A -> M B) :
  never_missing m -> (forall a, never_missing (k a)) -> never_missing (x ← m; k x).
Proof.
  intros Hm Hk w. rewrite bind_run. specialize (Hm w).
  destruct (m w) as [[a|e] w'] eqn:E; simpl in *; [apply Hk|intros [= ->]; by apply Hm].
Qed.

Lemma nm_ret {A} (a : A) : never_missing (mret a).
Proof. intros w. discriminate. Qed.

Lemma nm_pg_roundtrip : never_missing Pg.roundtrip.
Proof. intros w. unfold Pg.roundtrip. by destruct (w_pg_fault w (w_pg_calls w)). Qed.

Lemma nm_execute {A} (stmt : pgdb -> outcome A * pgdb) :
  (forall p, fst (stmt p) <> Raise CartService.products_missing) ->
  never_missing (Pg.execute stmt).
Proof.
  intros Hs. unfold Pg.execute. apply nm_bind; [apply nm_pg_roundtrip|].
  intros _ w. unfold prim. specialize (Hs (w_pg w)). by destruct (stmt (w_pg w)).
Qed.

Lemma nm_executemany items : never_missing (Pg.executemany_items items).
Proof.
  induction items as [|[[[oid pid] q] pr] rest IH]; simpl; [apply nm_ret|].
  apply nm_bind; [|intros; apply IH]. apply nm_execute. intros p.
  unfold Pg.insert_order_item. repeat case_match; simpl; discriminate.
Qed.

Lemma nm_neo4j_roundtrip : never_missing Neo4jClient.roundtrip.
Proof. intros w. unfold Neo4jClient.roundtrip. by destruct (w_gr_fault w (w_gr_calls w)). Qed.

Lemma nm_for_each_purchase u cart d :
  never_missing (for_each cart (fun '(product_id, quantity) =>
                   Neo4jClient.add_purchase u product_id quantity d)).
Proof.
  induction cart as [|[p q] cart IH]; simpl; [apply nm_ret|].
  apply nm_bind; [|intros; apply IH].
  unfold Neo4jClient.add_purchase. apply nm_bind; [apply nm_neo4j_roundtrip|].
  intros _ w. unfold prim. case_decide; discriminate.
Qed.

Lemma order_lines_raise oid pp total items cart e :
  CartService.order_lines oid pp total items cart = Raise e -> exists k, e = KeyError k.
Proof.
  revert total items. induction cart as [|[p q] cart IH]; simpl; intros total items; [done|].
  destruct (dict_get pp p); [apply IH|]. intros [= <-]. by eexists.
Qed.

(** With every cart product in the table, the transaction body never
    reports missing products. *)
Lemma checkout_txn_found u oid d c w1 :
  NoDup c.*1 ->
  w_pg_fault w1 (w_pg_calls w1) = false ->
  (forall id, id ∈ c.*1 -> exists pr, pg_products (w_pg w1) !! id = Some pr /\ is_Some (prod_price pr)) ->
  fst (CartService.checkout_txn u oid d c w1) <> Raise CartService.products_missing.
Proof.
  intros Hnd Hf Hall. unfold CartService.checkout_txn.
  rewrite bind_run, execute_ok by done. rewrite map_fst_fmap.
  destruct (select_prices_rows c.*1 (w_pg w1)) as (rows & Hsel & Hk & Hv).
  rewrite Hsel. simpl. rewrite bind_run.
  destruct (price_dict_spec [] rows) as (pp & Hpp & Hndpp & Hkpp).
  { intros r Hr. destruct (Hv r Hr) as (pr & Hpr & ->).
    destruct (Hall r.1) as (pr' & Hpr' & Hs).
    - apply Hk. apply list_elem_of_fmap_2. done.
    - congruence. }
  { constructor. }
  unfold lift at 1. rewrite Hpp.
  assert (Hlen : length pp = length c.*1).
  { apply (lengths_match pp c.*1 (fun x => is_Some (pg_products (w_pg w1) !! x)));
      [done|done| |].
    - intros x. rewrite Hkpp, Hk. set_solver.
    - intros x Hx. destruct (Hall x Hx) as (pr & -> & _). by eexists. }
  rewrite Hlen, Nat.eqb_refl. simpl.
  match goal with |- fst (?m ?w) <> _ => enough (Hnm : never_missing m) by apply Hnm end.
  apply nm_bind.
  - intros w. unfold lift. destruct (CartService.order_lines _ _ _ _ _) eqn:E; simpl; [discriminate|].
    apply order_lines_raise in E as [k ->]. discriminate.
  - intros [total items]. apply nm_bind; [|intros; apply nm_bind; [apply nm_executemany|intros; apply nm_ret]].
    apply nm_execute. intros p. unfold Pg.insert_order. repeat case_match; simpl; discriminate.
Qed.

(** With a cart product absent from the table, the transaction body
    reports missing products. *)
Lemma checkout_txn_missing u oid d c w1 :
  NoDup c.*1 ->
  w_pg_fault w1 (w_pg_calls w1) = false ->
  (forall id pr, id ∈ c.*1 -> pg_products (w_pg w1) !! id = Some pr -> is_Some (prod_price pr)) ->
  (exists id, id ∈ c.*1 /\ pg_products (w_pg w1) !! id = None) ->
  fst (CartService.checkout_txn u oid d c w1) = Raise CartService.products_missing.
Proof.
  intros Hnd Hf Hpr (id & Hid & Hnone). unfold CartService.checkout_txn.
  rewrite bind_run, execute_ok by done. rewrite map_fst_fmap.
  destruct (select_prices_rows c.*1 (w_pg w1)) as (rows & Hsel & Hk & Hv).
  rewrite Hsel. simpl. rewrite bind_run.
  destruct (price_dict_spec [] rows) as (pp & Hpp & Hndpp & Hkpp).
  { intros r Hr. destruct (Hv r Hr) as (pr & Hpr' & ->).
    apply (Hpr r.1); [|done]. apply Hk. by apply list_elem_of_fmap_2. }
  { constructor. }
  unfold lift at 1. rewrite Hpp.
  destruct (Nat.eqb_spec (length pp) (length c.*1)) as [Hlen|]; [|reflexivity].
  exfalso.
  assert (Hkey : forall x, x ∈ pp.*1 <-> x ∈ c.*1 /\ is_Some (pg_products (w_pg w1) !! x)).
  { intros x. rewrite Hkpp, Hk. set_solver. }
  pose proof (proj1 (lengths_match pp c.*1 _ Hndpp Hnd Hkey) Hlen id Hid) as [? Hs].
  congruence.
Qed.

Lemma nm_clear_cart u : never_missing (RedisClient.clear_cart u).
Proof. intros w. discriminate. Qed.

(** For a non-empty cart whose products that exist all have a price, with
    the server answering the connection and the price lookup, the checkout
    fails with [ProductsMissing] exactly when some product id of the cart
    has no row; the tables and the Redis keyspace are then left as they
    were. *)
Lemma checkout_products_missing_priced u oid d w c :
  fst (CartService.get_cart u w) = Ok c -> c <> [] ->
  w_pg_fault w (w_pg_calls w) = false ->
  w_pg_fault w (S (w_pg_calls w)) = false ->
  (forall id pr, id ∈ c.*1 -> pg_products (w_pg w) !! id = Some pr -> is_Some (prod_price pr)) ->
  (fst (CartService.convert_cart_to_order u oid d w) = Raise CartService.products_missing <->
   exists id, id ∈ c.*1 /\ pg_products (w_pg w) !! id = None) /\
  (fst (CartService.convert_cart_to_order u oid d w) = Raise CartService.products_missing ->
   w_pg (snd (CartService.convert_cart_to_order u oid d w)) = w_pg w /\
   w_redis (snd (CartService.convert_cart_to_order u oid d w)) = w_redis w).
Proof.
  intros Hc Hne Hf0 Hf1 Hpr.
  pose proof (get_cart_nodup u w c Hc) as Hnd.
  unfold CartService.convert_cart_to_order. rewrite bind_run, get_cart_state.
  change (fst (RedisClient.get_cart u w) = Ok c) in Hc. rewrite Hc.
  destruct c as [|x c0] eqn:Ec; [done|]. rewrite <- Ec in *. clear Hne x c0 Ec.
  rewrite bind_run, get_cursor_ok by done.
  set (w1 := set_pg_calls (S (w_pg_calls w)) w).
  destruct (decide (Exists (fun id => pg_products (w_pg w) !! id = None) c.*1)) as [Hm|Hm].
  - apply Exists_exists in Hm.
    pose proof (checkout_txn_missing u oid d c w1 Hnd Hf1 Hpr Hm) as Hb.
    pose proof (frame_checkout_txn u oid d c w1) as Hfr.
    destruct (CartService.checkout_txn u oid d c w1) as [o w2] eqn:Eb.
    simpl in Hb, Hfr. subst o. simpl.
    split; [tauto|]. intros _. split; [done|]. exact Hfr.
  - assert (Hfound : forall id, id ∈ c.*1 ->
              exists pr, pg_products (w_pg w1) !! id = Some pr /\ is_Some (prod_price pr)).
    { intros id Hid. simpl. destruct (pg_products (w_pg w) !! id) as [pr|] eqn:E.
      - exists pr. split; [done|]. by apply (Hpr id).
      - exfalso. apply Hm, Exists_exists. by exists id. }
    assert (Hnot : fst (let '(o, w') := match CartService.checkout_txn u oid d c w1 with
                  | (Ok a, w2) =>
                      match Pg.roundtrip w2 with
                      | (Ok _, w3) => (Ok a, w3)
                      | (Raise e, w3) => (Raise e, set_pg (w_pg w) w3)
                      end
                  | (Raise e, w2) => (Raise e, set_pg (w_pg w) w2)
                  end in match o with
                  | Ok a => (for_each c (fun '(product_id, quantity) =>
                               Neo4jClient.add_purchase u product_id quantity d) ;;
                             RedisClient.clear_cart u ;;
                             mret (CartService.mkOrderResult oid a (length c))) w'
                  | Raise e => (Raise e, w')
                  end) <> Raise CartService.products_missing).
    { pose proof (checkout_txn_found u oid d c w1 Hnd Hf1 Hfound) as Hb.
      destruct (CartService.checkout_txn u oid d c w1) as [[a|e] w2] eqn:Eb; simpl in Hb.
      - pose proof (nm_pg_roundtrip w2) as Hr.
        destruct (Pg.roundtrip w2) as [[[]|e'] w3]; simpl in Hr |- *.
        + apply nm_bind; [apply nm_for_each_purchase|]. intros _.
          apply nm_bind; [apply nm_clear_cart|]. intros _. apply nm_ret.
        + intros [= ->]. by apply Hr.
      - intros [= ->]. by apply Hb. }
    split.
    + split; [|intros Hx; exfalso; apply Hm, Exists_exists, Hx].
      intros Hx. exfalso. apply Hnot. exact Hx.
    + intros Hx. exfalso. apply Hnot. exact Hx.
Qed.

Lemma price_dict_null acc rows id :
  (id, None) ∈ rows -> CartService.price_dict acc rows = Raise CartService.float_of_none.
Proof.
  revert acc. induction rows as [|[id' [c|]] rows IH]; intros acc Hin; simpl.
  - by apply elem_of_nil in Hin.
  - apply IH. apply elem_of_cons in Hin as [[=]|Hin]; done.
  - reflexivity.
Qed.

(** A cart product whose row has a NULL price makes the transaction body
    raise [float(None)]'s [TypeError]. *)
Lemma checkout_txn_null u oid d c w1 :
  w_pg_fault w1 (w_pg_calls w1) = false ->
  (exists id pr, id ∈ c.*1 /\ pg_products (w_pg w1) !! id = Some pr /\ prod_price pr = None) ->
  fst (CartService.checkout_txn u oid d c w1) = Raise CartService.float_of_none.
Proof.
  intros Hf (id & pr & Hid & Hl & Hp). unfold CartService.checkout_txn.
  rewrite bind_run, execute_ok by done. rewrite map_fst_fmap.
  destruct (select_prices_rows c.*1 (w_pg w1)) as (rows & Hsel & Hk & Hv).
  rewrite Hsel. simpl. rewrite bind_run.
  assert (Hrow : (id, None) ∈ rows).
  { assert (Hin : id ∈ rows.*1) by (apply Hk; split; [done|by eexists]).
    apply list_elem_of_fmap in Hin as ([id' o] & -> & Hr).
    destruct (Hv _ Hr) as (pr' & Hl' & Ho). simpl in Hl, Hl', Ho.
    rewrite Hl in Hl'. injection Hl' as <-. rewrite Ho, Hp in Hr. exact Hr. }
  unfold lift at 1. rewrite (price_dict_null _ _ _ Hrow). reflexivity.
Qed.

(** An exception of the transaction body reaches the caller of
    [convert_cart_to_order] with the tables rolled back and Redis as it
    was. *)
Lemma convert_txn_raise u oid d w c e :
  fst (CartService.get_cart u w) = Ok c -> c <> [] ->
  w_pg_fault w (w_pg_calls w) = false ->
  fst (CartService.checkout_txn u oid d c (set_pg_calls (S (w_pg_calls w)) w)) = Raise e ->
  fst (CartService.convert_cart_to_order u oid d w) = Raise e /\
  w_pg (snd (CartService.convert_cart_to_order u oid d w)) = w_pg w /\
  w_redis (snd (CartService.convert_cart_to_order u oid d w)) = w_redis w.
Proof.
  intros Hc Hne Hf0 Hb.
  unfold CartService.convert_cart_to_order. rewrite bind_run, get_cart_state.
  change (fst (RedisClient.get_cart u w) = Ok c) in Hc. rewrite Hc.
  destruct c as [|x c0] eqn:Ec; [done|]. rewrite <- Ec in *. clear Hne x c0 Ec.
  rewrite bind_run, get_cursor_ok by done.
  pose proof (frame_checkout_txn u oid d c (set_pg_calls (S (w_pg_calls w)) w)) as Hfr.
  destruct (CartService.checkout_txn u oid d c _) as [o w2] eqn:Eb.
  simpl in Hb, Hfr. subst o. simpl. split; [done|]. split; [done|]. exact Hfr.
Qed.



Lemma gframe_bind {A B} (m : M A) (k : A -> M B) :
  graph_frame m -> (forall a, graph_frame (k a)) -> graph_frame (x ← m; k x).
Proof.
  intros Hm Hk w. rewrite bind_run. specialize (Hm w).
  destruct (m w) as [[a|e] w'] eqn:E; simpl in *; [rewrite Hk|]; done.
Qed.

Lemma gframe_ret {A} (a : A) : graph_frame (mret a).
Proof. intros w. reflexivity. Qed.

Lemma gframe_pg_roundtrip : graph_frame Pg.roundtrip.
Proof. intros w. unfold Pg.roundtrip. by destruct (w_pg_fault w (w_pg_calls w)). Qed.

Lemma gframe_pg_execute {A} (stmt : pgdb -> outcome A * pgdb) :
  graph_frame (Pg.execute stmt).
Proof.
  unfold Pg.execute. apply gframe_bind; [apply gframe_pg_roundtrip|].
  intros _ w. unfold prim. by destruct (stmt (w_pg w)).
Qed.

Lemma gframe_checkout_txn u oid d cart :
  graph_frame (CartService.checkout_txn u oid d cart).
Proof.
  unfold CartService.checkout_txn.
  apply gframe_bind; [apply gframe_pg_execute|]. intros rows.
  apply gframe_bind; [intros w; reflexivity|]. intros pp.
  destruct (negb _); [intros w; reflexivity|].
  apply gframe_bind; [intros w; reflexivity|]. intros [total items].
  apply gframe_bind; [apply gframe_pg_execute|]. intros _.
  apply gframe_bind; [|intros _; apply gframe_ret].
  induction items as [|[[[oid' pid] q] pr] rest IH]; simpl; [apply gframe_ret|].
  apply gframe_bind; [apply gframe_pg_execute|]. intros _. apply IH.
Qed.

Lemma gframe_get_cursor {A} (body : M A) :
  graph_frame body -> graph_frame (PostgresConnection.get_cursor body).
Proof.
  intros Hb. unfold PostgresConnection.get_cursor.
  apply gframe_bind; [apply gframe_pg_roundtrip|]. intros _ w. unfold prim.
  specialize (Hb w).
  destruct (body w) as [[a|e] w1] eqn:E; simpl in *; [|done].
  pose proof (gframe_pg_roundtrip w1) as Hr.
  destruct (Pg.roundtrip w1) as [[]w2]; simpl in *; congruence.
Qed.

Lemma pg_roundtrip_pg w : w_pg (snd (Pg.roundtrip w)) = w_pg w.
Proof. unfold Pg.roundtrip. by destruct (w_pg_fault w (w_pg_calls w)). Qed.

(** A failed [get_cursor] block leaves the tables as they were. *)
Lemma get_cursor_raise_pg {A} (body : M A) w e :
  fst (PostgresConnection.get_cursor body w) = Raise e ->
  w_pg (snd (PostgresConnection.get_cursor body w)) = w_pg w.
Proof.
  unfold PostgresConnection.get_cursor. rewrite bind_run.
  pose proof (pg_roundtrip_pg w) as Hp.
  destruct (Pg.roundtrip w) as [[[]|e0] w0]; simpl in *; [|intros; congruence].
  unfold prim. destruct (body w0) as [[a|e'] w1]; simpl; [|intros; congruence].
  destruct (Pg.roundtrip w1) as [[[]|e1] w2]; simpl; [discriminate|intros; congruence].
Qed.

(** **** C1
    When the [get_cursor] block of a checkout of a non-empty cart (price
    lookup, order insert, item inserts, commit) raises, the checkout raises
    the same exception, and the Redis keyspace (the cart included), the
    tables (no order, no item) and the graph are those before the call. *)
Theorem checkout_failure_keeps_state u oid d w c e :
  fst (CartService.get_cart u w) = Ok c -> c <> [] ->
  fst (PostgresConnection.get_cursor (CartService.checkout_txn u oid d c) w) = Raise e ->
  fst (CartService.convert_cart_to_order u oid d w) = Raise e /\
  w_redis (snd (CartService.convert_cart_to_order u oid d w)) = w_redis w /\
  w_pg (snd (CartService.convert_cart_to_order u oid d w)) = w_pg w /\
  w_graph (snd (CartService.convert_cart_to_order u oid d w)) = w_graph w.
Proof.
  intros Hc Hne Hraise.
  pose proof (get_cursor_raise_pg _ w e Hraise) as Hpg.
  pose proof (frame_get_cursor _ (frame_checkout_txn u oid d c) w) as Hr.
  pose proof (gframe_get_cursor _ (gframe_checkout_txn u oid d c) w) as Hg.
  unfold CartService.convert_cart_to_order. rewrite bind_run, get_cart_state.
  change (fst (RedisClient.get_cart u w) = Ok c) in Hc. rewrite Hc.
  destruct c as [|x c0] eqn:Ec; [done|]. rewrite <- Ec in *. clear Hne x c0 Ec.
  rewrite bind_run.
  destruct (PostgresConnection.get_cursor (CartService.checkout_txn u oid d c) w) as [o w'].
  simpl in *. subst o. done.
Qed.

(** The purchase edges: when the Neo4j round trip of the [k]-th edge
    fails, the loop stops there with the error. *)
Lemma for_each_purchase_fail u d c k w :
  (k < length c)%nat ->
  (forall j, (j < k)%nat -> w_gr_fault w (w_gr_calls w + j) = false) ->
  w_gr_fault w (w_gr_calls w + k) = true ->
  exists w', for_each c (fun '(product_id, quantity) =>
                Neo4jClient.add_purchase u product_id quantity d) w
             = (Raise (Neo4jError "ServiceUnavailable"), w') /\
    w_redis w' = w_redis w /\ w_pg w' = w_pg w /\
    (length (g_purchased (w_graph w')) <= length (g_purchased (w_graph w)) + k)%nat.
Proof.
  revert k w. induction c as [|[p q] c IH]; simpl; intros k w Hk Hok Hfail; [lia|].
  rewrite bind_run. unfold Neo4jClient.add_purchase at 1. rewrite bind_run.
  unfold Neo4jClient.roundtrip at 1.
  destruct k as [|k].
  - rewrite Nat.add_0_r in Hfail. rewrite Hfail. simpl. eexists. split; [reflexivity|].
    simpl. repeat split; lia.
  - pose proof (Hok 0%nat ltac:(lia)) as H0. rewrite Nat.add_0_r in H0. rewrite H0.
    simpl. unfold prim.
    set (w1 := set_gr_calls (S (w_gr_calls w)) w).
    assert (Hw1 : exists w2, (if decide (u ∈ g_users (w_graph w1) ∧ p ∈ g_products (w_graph w1))
       then (Ok tt, set_graph (mkGraph (g_users (w_graph w1)) (g_products (w_graph w1))
                                (g_purchased (w_graph w1) ++ [(u, p, q, d)])
                                (g_viewed (w_graph w1))) w1)
       else (Ok tt, w1)) = (Ok tt, w2) /\ w_redis w2 = w_redis w /\ w_pg w2 = w_pg w /\
       w_gr_calls w2 = S (w_gr_calls w) /\ w_gr_fault w2 = w_gr_fault w /\
       (length (g_purchased (w_graph w2)) <= S (length (g_purchased (w_graph w))))%nat).
    { case_decide.
      - eexists. split; [reflexivity|]. simpl. rewrite length_app. simpl. repeat split; lia.
      - eexists. split; [reflexivity|]. simpl. repeat split; lia. }
    destruct Hw1 as (w2 & -> & Hr2 & Hp2 & Hc2 & Hf2 & Hl2).
    destruct (IH k w2) as (w' & Hrun & Hr' & Hp' & Hl').
    + simpl in Hk. lia.
    + intros j Hj. rewrite Hf2, Hc2. replace (S (w_gr_calls w) + j)%nat with (w_gr_calls w + S j)%nat by lia.
      apply Hok. lia.
    + rewrite Hf2, Hc2. replace (S (w_gr_calls w) + k)%nat with (w_gr_calls w + S k)%nat by lia.
      exact Hfail.
    + exists w'. rewrite Hrun. split; [reflexivity|]. split; [congruence|]. split; [congruence|]. lia.
Qed.

(** **** C2 (amended)
    After the transaction has committed, a Neo4j failure on the [k]-th
    purchase edge is not absorbed: the checkout raises the error, the
    committed order and items stay, no later edge is written, the cart is
    not cleared (Redis is as before the call) and no result is returned. *)
Theorem checkout_purchase_edge_failure_propagates u oid d w c total w1 k :
  fst (CartService.get_cart u w) = Ok c ->
  PostgresConnection.get_cursor (CartService.checkout_txn u oid d c) w = (Ok total, w1) ->
  (k < length c)%nat ->
  (forall j, (j < k)%nat -> w_gr_fault w1 (w_gr_calls w1 + j) = false) ->
  w_gr_fault w1 (w_gr_calls w1 + k) = true ->
  fst (CartService.convert_cart_to_order u oid d w) = Raise (Neo4jError "ServiceUnavailable") /\
  w_redis (snd (CartService.convert_cart_to_order u oid d w)) = w_redis w /\
  w_pg (snd (CartService.convert_cart_to_order u oid d w)) = w_pg w1 /\
  (length (g_purchased (w_graph (snd (CartService.convert_cart_to_order u oid d w))))
     <= length (g_purchased (w_graph w1)) + k)%nat.
Proof.
  intros Hc Htx Hk Hok Hfail.
  pose proof (frame_get_cursor _ (frame_checkout_txn u oid d c) w) as Hr.
  rewrite Htx in Hr. simpl in Hr.
  destruct (for_each_purchase_fail u d c k w1 Hk Hok Hfail) as (w' & Hrun & Hr' & Hp' & Hl').
  unfold CartService.convert_cart_to_order. rewrite bind_run, get_cart_state.
  change (fst (RedisClient.get_cart u w) = Ok c) in Hc. rewrite Hc.
  destruct c as [|x c0] eqn:Ec; [simpl in Hk; lia|]. rewrite <- Ec in *. clear x c0 Ec.
  rewrite bind_run, Htx, bind_run, Hrun. simpl. split; [done|]. split; [congruence|]. done.
Qed.

Lemma checkout_failure_keeps_state_witness :
  let w := shop_world [("P1", "2")] (fault_at 3) no_fault in
  let c := [("P1", 2)] in
  fst (CartService.get_cart "U1" w) = Ok c /\ c <> [] /\
  fst (PostgresConnection.get_cursor
         (CartService.checkout_txn "U1" "O1" "2024-05-01T10:00:00" c) w)
    = Raise (PgError "server closed the connection unexpectedly") /\
  fst (CartService.convert_cart_to_order "U1" "O1" "2024-05-01T10:00:00" w)
    = Raise (PgError "server closed the connection unexpectedly") /\
  w_redis (snd (CartService.convert_cart_to_order "U1" "O1" "2024-05-01T10:00:00" w)) = w_redis w /\
  w_pg (snd (CartService.convert_cart_to_order "U1" "O1" "2024-05-01T10:00:00" w)) = w_pg w /\
  w_graph (snd (CartService.convert_cart_to_order "U1" "O1" "2024-05-01T10:00:00" w)) = w_graph w.
Proof.
  intros w c.
  assert (H1 : fst (CartService.get_cart "U1" w) = Ok c) by (vm_compute; reflexivity).
  assert (H2 : c <> []) by discriminate.
  assert (H3 : fst (PostgresConnection.get_cursor
                      (CartService.checkout_txn "U1" "O1" "2024-05-01T10:00:00" c) w)
               = Raise (PgError "server closed the connection unexpectedly"))
    by (vm_compute; reflexivity).
  split; [exact H1|split; [exact H2|split; [exact H3|]]].
  exact (checkout_failure_keeps_state "U1" "O1" "2024-05-01T10:00:00" w c _ H1 H2 H3).
Defined.

(** The first purchase edge fails after the commit: the error reaches the
    caller, the order is in the table and the cart is still there. *)
Lemma checkout_purchase_edge_failure_example :
  let w := shop_world [("P1", "2"); ("P2", "1")] no_fault (fault_at 0) in
  let r := CartService.convert_cart_to_order "U1" "O1" "2024-05-01T10:00:00" w in
  fst r = Raise (Neo4jError "ServiceUnavailable") /\
  r_keys (w_redis (snd r)) !! "cart:U1" = Some (RHash [("P1", "2"); ("P2", "1")]) /\
  is_Some (pg_orders (w_pg (snd r)) !! "O1") /\
  g_purchased (w_graph (snd r)) = [].
Proof.
  vm_compute. split; [reflexivity|split; [reflexivity|split; [eexists; reflexivity|reflexivity]]].
Qed.

Lemma checkout_purchase_edge_failure_propagates_witness :
  let w := shop_world [("P1", "2"); ("P2", "1")] no_fault (fault_at 0) in
  let c := [("P1", 2); ("P2", 1)] in
  fst (CartService.get_cart "U1" w) = Ok c /\
  exists total w1,
    PostgresConnection.get_cursor
      (CartService.checkout_txn "U1" "O1" "2024-05-01T10:00:00" c) w = (Ok total, w1) /\
    (0 < length c)%nat /\
    (forall j, (j < 0)%nat -> w_gr_fault w1 (w_gr_calls w1 + j) = false) /\
    w_gr_fault w1 (w_gr_calls w1 + 0) = true /\
    fst (CartService.convert_cart_to_order "U1" "O1" "2024-05-01T10:00:00" w)
      = Raise (Neo4jError "ServiceUnavailable") /\
    w_redis (snd (CartService.convert_cart_to_order "U1" "O1" "2024-05-01T10:00:00" w)) = w_redis w /\
    w_pg (snd (CartService.convert_cart_to_order "U1" "O1" "2024-05-01T10:00:00" w)) = w_pg w1 /\
    (length (g_purchased (w_graph (snd (CartService.convert_cart_to_order
                                          "U1" "O1" "2024-05-01T10:00:00" w))))
       <= length (g_purchased (w_graph w1)) + 0)%nat.
Proof.
  intros w c.
  assert (H1 : fst (CartService.get_cart "U1" w) = Ok c) by (vm_compute; reflexivity).
  split; [exact H1|].
  destruct (PostgresConnection.get_cursor
              (CartService.checkout_txn "U1" "O1" "2024-05-01T10:00:00" c) w)
    as [[total|e] w1] eqn:E.
  - assert (Hk : (0 < length c)%nat) by (simpl; lia).
    assert (Hok : forall j, (j < 0)%nat -> w_gr_fault w1 (w_gr_calls w1 + j) = false) by lia.
    assert (Hf : w_gr_fault w1 (w_gr_calls w1 + 0) = true).
    { vm_compute in E. injection E as _ <-. reflexivity. }
    exists total, w1. split; [reflexivity|]. split; [exact Hk|]. split; [exact Hok|].
    split; [exact Hf|].
    exact (checkout_purchase_edge_failure_propagates "U1" "O1" "2024-05-01T10:00:00"
             w c total w1 0 H1 E Hk Hok Hf).
  - exfalso. vm_compute in E. discriminate E.
Defined.

(** **** C3
    For a non-empty cart, with the server answering the connection and the
    price lookup: the checkout fails with [ProductsMissing] exactly when
    some product id of the cart has no row in [products] and every cart
    product that has a row has a price.  A cart product whose row has a
    NULL price makes it fail with [float(None)]'s [TypeError] instead,
    whether or not other products are missing.  In both cases the tables
    and the Redis keyspace (the cart included) are left as they were: no
    order is created for the products that were found. *)
Theorem checkout_products_missing_or_null_price u oid d w c :
  fst (CartService.get_cart u w) = Ok c -> c <> [] ->
  w_pg_fault w (w_pg_calls w) = false ->
  w_pg_fault w (S (w_pg_calls w)) = false ->
  (fst (CartService.convert_cart_to_order u oid d w) = Raise CartService.products_missing <->
   (exists id, id ∈ c.*1 /\ pg_products (w_pg w) !! id = None) /\
   (forall id pr, id ∈ c.*1 -> pg_products (w_pg w) !! id = Some pr -> is_Some (prod_price pr))) /\
  ((exists id pr, id ∈ c.*1 /\ pg_products (w_pg w) !! id = Some pr /\ prod_price pr = None) ->
   fst (CartService.convert_cart_to_order u oid d w) = Raise CartService.float_of_none /\
   w_pg (snd (CartService.convert_cart_to_order u oid d w)) = w_pg w /\
   w_redis (snd (CartService.convert_cart_to_order u oid d w)) = w_redis w) /\
  (fst (CartService.convert_cart_to_order u oid d w) = Raise CartService.products_missing ->
   w_pg (snd (CartService.convert_cart_to_order u oid d w)) = w_pg w /\
   w_redis (snd (CartService.convert_cart_to_order u oid d w)) = w_redis w).
Proof.
  intros Hc Hne Hf0 Hf1.
  assert (Hnull : (exists id pr, id ∈ c.*1 /\ pg_products (w_pg w) !! id = Some pr /\
                                 prod_price pr = None) ->
     fst (CartService.convert_cart_to_order u oid d w) = Raise CartService.float_of_none /\
     w_pg (snd (CartService.convert_cart_to_order u oid d w)) = w_pg w /\
     w_redis (snd (CartService.convert_cart_to_order u oid d w)) = w_redis w).
  { intros Hn. apply (convert_txn_raise u oid d w c); [done|done|done|].
    by apply checkout_txn_null. }
  destruct (decide (Exists (fun id => option_map prod_price (pg_products (w_pg w) !! id) = Some None)
                      c.*1)) as [Hn|Hn].
  - apply Exists_exists in Hn as (id & Hid & Hl).
    destruct (pg_products (w_pg w) !! id) as [pr|] eqn:Epr; [|discriminate].
    injection Hl as Hp.
    destruct (Hnull (ex_intro _ id (ex_intro _ pr (conj Hid (conj Epr Hp))))) as (Hr & Hst).
    rewrite Hr. split; [|split; [done|intros [=]]].
    split; [intros [=]|]. intros [_ Hall]. destruct (Hall id pr Hid Epr) as [x Hx]. congruence.
  - assert (Hpr : forall id pr, id ∈ c.*1 -> pg_products (w_pg w) !! id = Some pr ->
                                is_Some (prod_price pr)).
    { intros id pr Hid Hl. destruct (prod_price pr) as [x|] eqn:Hp; [by eexists|].
      exfalso. apply Hn, Exists_exists. exists id. split; [done|]. rewrite Hl. simpl. by rewrite Hp. }
    destruct (checkout_products_missing_priced u oid d w c Hc Hne Hf0 Hf1 Hpr) as [Hiff Hst].
    split; [|split; [exact Hnull|exact Hst]].
    split.
    + intros Hr. split; [by apply Hiff|exact Hpr].
    + intros [Hm _]. by apply Hiff.
Qed.

Lemma checkout_products_missing_or_null_price_witness :
  let w := world_unpriced_missing in
  let c := [("P1", 1); ("P9", 1)] in
  fst (CartService.get_cart "U1" w) = Ok c /\ c <> [] /\
  w_pg_fault w (w_pg_calls w) = false /\ w_pg_fault w (S (w_pg_calls w)) = false /\
  fst (CartService.convert_cart_to_order "U1" "O1" "2024-05-01T10:00:00" w)
    = Raise CartService.float_of_none /\
  w_pg (snd (CartService.convert_cart_to_order "U1" "O1" "2024-05-01T10:00:00" w)) = w_pg w /\
  w_redis (snd (CartService.convert_cart_to_order "U1" "O1" "2024-05-01T10:00:00" w)) = w_redis w.
Proof.
  intros w c.
  assert (H1 : fst (CartService.get_cart "U1" w) = Ok c) by (vm_compute; reflexivity).
  assert (H2 : c <> []) by discriminate.
  assert (H3 : w_pg_fault w (w_pg_calls w) = false) by reflexivity.
  assert (H4 : w_pg_fault w (S (w_pg_calls w)) = false) by reflexivity.
  destruct (checkout_products_missing_or_null_price "U1" "O1" "2024-05-01T10:00:00" w c H1 H2 H3 H4)
    as (_ & Hnull & _).
  assert (Hn : exists id pr, id ∈ c.*1 /\ pg_products (w_pg w) !! id = Some pr /\
                             prod_price pr = None).
  { exists "P1", (mkProduct "Lamp" None None None None None None).
    split; [simpl; set_solver|]. split; reflexivity. }
  do 4 (split; [assumption|]). exact (Hnull Hn).
Defined.

(** C3, refuted: a cart with a product that has no row and a product
    whose price is NULL.  The checkout does not fail with
    [ProductsMissing]: [float(None)] raises [TypeError] while the
    price dictionary is built, before the count is compared. *)
Lemma checkout_null_price_masks_missing :
  fst (CartService.get_cart "U1" world_unpriced_missing) = Ok [("P1", 1); ("P9", 1)] /\
  pg_products (w_pg world_unpriced_missing) !! "P9" = None /\
  fst (CartService.convert_cart_to_order "U1" "O1" "2024-05-01T10:00:00" world_unpriced_missing)
    = Raise CartService.float_of_none /\
  fst (CartService.convert_cart_to_order "U1" "O1" "2024-05-01T10:00:00" world_unpriced_missing)
    <> Raise CartService.products_missing.
Proof.
  assert (E : fst (CartService.convert_cart_to_order "U1" "O1" "2024-05-01T10:00:00"
                     world_unpriced_missing) = Raise CartService.float_of_none)
    by (vm_compute; reflexivity).
  split; [vm_compute; reflexivity|]. split; [reflexivity|]. split; [exact E|].
  rewrite E. discriminate.
Qed.

(* ------------------------------------------------------------------ *)
(** ** Product reads *)

(** **** C10
    For a product id with no row, no cache entry, and the server answering
    the three round trips (connect, [SELECT], commit), [get_product_by_id]
    returns [None] without raising, and the only change to the world is the
    three round trips: nothing is written to Redis (no cache entry, no
    [hot_products] increment), the graph gets no view, so the next call
    queries the table again. *)
Theorem get_product_by_id_missing id u w :
  r_keys (w_redis w) !! ("product:" +:+ id) = None ->
  pg_products (w_pg w) !! id = None ->
  (forall k, (k < 3)%nat -> w_pg_fault w (w_pg_calls w + k)%nat = false) ->
  ProductService.get_product_by_id id u w = (Ok PNone, set_pg_calls (w_pg_calls w + 3) w).
Proof.
  destruct w as [r p n f g gn gf]; simpl. intros Hc Hp Hf.
  pose proof (Hf 0%nat ltac:(lia)) as H0. pose proof (Hf 1%nat ltac:(lia)) as H1.
  pose proof (Hf 2%nat ltac:(lia)) as H2.
  replace (n + 0)%nat with n in H0 by lia. replace (n + 1)%nat with (S n) in H1 by lia.
  replace (n + 2)%nat with (S (S n)) in H2 by lia.
  replace (n + 3)%nat with (S (S (S n))) by lia.
  unfold ProductService.get_product_by_id, RedisClient.get_json, Redis.cmd, Redis.GET,
    ProductService.get_product_from_db, PostgresConnection.get_cursor, Pg.execute,
    Pg.roundtrip, prim, Pg.select_product, mbind, M_bind, bind, mret, M_ret, ret.
  simpl. rewrite Hc. simpl. rewrite H0. simpl. rewrite H1. simpl. rewrite Hp. simpl.
  rewrite H2. simpl. reflexivity.
Qed.

Lemma get_product_by_id_missing_witness :
  let w := start_world redis_empty pg_shop graph_shop in
  r_keys (w_redis w) !! ("product:" +:+ "P9") = None /\
  pg_products (w_pg w) !! "P9" = None /\
  (forall k, (k < 3)%nat -> w_pg_fault w (w_pg_calls w + k)%nat = false) /\
  ProductService.get_product_by_id "P9" (Some "U1") w = (Ok PNone, set_pg_calls 3 w).
Proof.
  intros w.
  assert (H1 : r_keys (w_redis w) !! ("product:" +:+ "P9") = None) by (vm_compute; reflexivity).
  assert (H2 : pg_products (w_pg w) !! "P9" = None) by (vm_compute; reflexivity).
  assert (H3 : forall k, (k < 3)%nat -> w_pg_fault w (w_pg_calls w + k)%nat = false)
    by (intros; reflexivity).
  split; [exact H1|split; [exact H2|split; [exact H3|]]].
  exact (get_product_by_id_missing "P9" (Some "U1") w H1 H2 H3).
Defined.

(* ------------------------------------------------------------------ *)
(** ** Successful checkouts and product reads *)

Lemma bind_ok_inv {A B} (m : M A) (k : A -> M B) w b w2 :
  (x ← m; k x) w = (Ok b, w2) -> exists a w1, m w = (Ok a, w1) /\ k a w1 = (Ok b, w2).
Proof. rewrite bind_run. destruct (m w) as [[a|e] w1]; [eauto|discriminate]. Qed.

Lemma get_cursor_ok_inv {A} (body : M A) w a w3 :
  PostgresConnection.get_cursor body w = (Ok a, w3) ->
  exists w1 w2, body w1 = (Ok a, w2) /\ w_pg w1 = w_pg w /\ w_pg w3 = w_pg w2.
Proof.
  unfold PostgresConnection.get_cursor. rewrite bind_run.
  pose proof (pg_roundtrip_pg w) as Hp.
  destruct (Pg.roundtrip w) as [[[]|e] w0]; [|discriminate]. simpl in Hp. unfold prim.
  destruct (body w0) as [[a'|e] w1] eqn:E; [|discriminate].
  pose proof (pg_roundtrip_pg w1) as Hp1.
  destruct (Pg.roundtrip w1) as [[[]|e] w2]; [|discriminate]. simpl in Hp1.
  intros [= -> <-]. exists w0, w1. auto.
Qed.

Lemma execute_ok_inv {A} (stmt : pgdb -> outcome A * pgdb) w a w2 :
  Pg.execute stmt w = (Ok a, w2) -> stmt (w_pg w) = (Ok a, w_pg w2).
Proof.
  unfold Pg.execute. rewrite bind_run.
  pose proof (pg_roundtrip_pg w) as Hp.
  destruct (Pg.roundtrip w) as [[[]|e] w0]; [|discriminate]. simpl in Hp. unfold prim.
  rewrite <- Hp. destruct (stmt (w_pg w0)) as [o p]. intros [= -> <-]. reflexivity.
Qed.

Lemma insert_order_ok id u d t s p p' :
  Pg.insert_order id u d t s p = (Ok tt, p') ->
  exists cents, Flt.to_numeric_10_2 t = Some cents /\
    pg_orders p' = <[id := mkOrder u d s cents]> (pg_orders p).
Proof.
  unfold Pg.insert_order. destruct (Flt.to_numeric_10_2 t) as [cents|]; [|discriminate].
  repeat case_decide; try discriminate. intros [= <-]. eauto.
Qed.

Lemma insert_order_item_orders oid pid q pr p :
  pg_orders (snd (Pg.insert_order_item oid pid q pr p)) = pg_orders p.
Proof. unfold Pg.insert_order_item. repeat case_match; reflexivity. Qed.

Lemma executemany_orders items w :
  pg_orders (w_pg (snd (Pg.executemany_items items w))) = pg_orders (w_pg w).
Proof.
  revert w. induction items as [|[[[oid pid] q] pr] rest IH]; intros w; [reflexivity|].
  cbn [Pg.executemany_items]. rewrite bind_run. unfold Pg.execute at 1. rewrite bind_run.
  pose proof (pg_roundtrip_pg w) as Hp.
  destruct (Pg.roundtrip w) as [[[]|e] w0]; simpl in Hp; [|simpl; by rewrite Hp].
  unfold prim. pose proof (insert_order_item_orders oid pid q pr (w_pg w0)) as Hi.
  destruct (Pg.insert_order_item oid pid q pr (w_pg w0)) as [[[]|e] p] eqn:E;
    simpl in Hi |- *; [rewrite IH|]; simpl; congruence.
Qed.

Lemma for_each_purchase_pg u c d w :
  w_pg (snd (for_each c (fun '(product_id, quantity) =>
                Neo4jClient.add_purchase u product_id quantity d) w)) = w_pg w.
Proof.
  revert w. induction c as [|[p q] c IH]; intros w; [reflexivity|].
  cbn [for_each]. rewrite bind_run. unfold Neo4jClient.add_purchase at 1. rewrite bind_run.
  unfold Neo4jClient.roundtrip at 1.
  destruct (w_gr_fault w (w_gr_calls w)); [reflexivity|]. unfold prim.
  case_decide; cbn -[for_each]; rewrite IH; reflexivity.
Qed.

Lemma price_dict_cents acc rows pp :
  CartService.price_dict acc rows = Ok pp ->
  Forall (fun kv => exists cents, kv.2 = Flt.of_cents cents) acc ->
  Forall (fun kv => exists cents, kv.2 = Flt.of_cents cents) pp.
Proof.
  revert acc. induction rows as [|[id [cents|]] rows IH]; intros acc; simpl.
  - intros [= <-]. done.
  - intros Hr Hacc. apply (IH _ Hr). apply dict_set_Forall; [done|]. by exists cents.
  - discriminate.
Qed.

(** What a successful checkout did: the cart it read, the price rows, the
    float prices, the loop that summed them, the order row written with
    the rounded total, and the cart key deleted. *)
Lemma convert_ok_inv u oid d w res w' :
  CartService.convert_cart_to_order u oid d w = (Ok res, w') ->
  exists c rows pp items cents,
    fst (CartService.get_cart u w) = Ok c /\ c <> [] /\
    fst (Pg.select_prices (map fst c) (w_pg w)) = Ok rows /\
    CartService.price_dict [] rows = Ok pp /\
    CartService.order_lines oid pp (Flt.of_Z 0) [] c
      = Ok (CartService.res_total_amount res, items) /\
    Flt.to_numeric_10_2 (CartService.res_total_amount res) = Some cents /\
    pg_orders (w_pg w') !! oid = Some (mkOrder u d "COMPLETED" cents) /\
    r_keys (w_redis w') !! RedisClient.get_cart_key u = None /\
    res = CartService.mkOrderResult oid (CartService.res_total_amount res) (length c).
Proof.
  unfold CartService.convert_cart_to_order. intros H.
  apply bind_ok_inv in H as (c & w0 & Hc & H).
  pose proof (get_cart_state u w) as Hs. unfold CartService.get_cart.
  rewrite Hc in Hs. injection Hs as <-. rewrite Hc.
  assert (Hne : c <> []) by (intros ->; discriminate).
  destruct c as [|x c0] eqn:Ec; [discriminate|]. rewrite <- Ec in *. clear x c0 Ec.
  apply bind_ok_inv in H as (total & w1 & Hcur & H).
  apply bind_ok_inv in H as ([] & w2 & Hfor & H).
  apply bind_ok_inv in H as ([] & w3 & Hclr & H).
  injection H as <- <-.
  apply get_cursor_ok_inv in Hcur as (v1 & v2 & Htx & Hv1 & Hw1).
  unfold CartService.checkout_txn in Htx.
  apply bind_ok_inv in Htx as (rows & v3 & Hsel & Htx).
  apply execute_ok_inv in Hsel. rewrite Hv1 in Hsel.
  apply bind_ok_inv in Htx as (pp & v4 & Hpp & Htx). injection Hpp as Hpp <-.
  destruct (negb _); [discriminate|].
  apply bind_ok_inv in Htx as ([total' items] & v5 & Hol & Htx). injection Hol as Hol <-.
  apply bind_ok_inv in Htx as ([] & v6 & Hins & Htx).
  apply bind_ok_inv in Htx as ([] & v7 & Hmany & Htx).
  injection Htx as -> <-.
  apply execute_ok_inv in Hins. apply insert_order_ok in Hins as (cents & Hcents & Hord).
  pose proof (executemany_orders items v6) as Hm. rewrite Hmany in Hm. simpl in Hm.
  pose proof (for_each_purchase_pg u c d w1) as Hf. rewrite Hfor in Hf. simpl in Hf.
  unfold RedisClient.clear_cart, Redis.cmd, Redis.DEL in Hclr. injection Hclr as <-.
  exists c, rows, pp, items, cents.
  split; [done|]. split; [done|]. split; [by rewrite Hsel|]. split; [done|].
  split; [done|]. split; [done|]. split.
  - simpl. rewrite Hf, Hw1, Hm, Hord. apply lookup_insert_eq.
  - split; [apply lookup_delete_eq|reflexivity].
Qed.

Lemma insert_order_item_ok oid pid q pr p p' :
  Pg.insert_order_item oid pid q pr p = (Ok tt, p') ->
  (exists cents, Flt.to_numeric_10_2 pr = Some cents /\
     pg_order_items p' !! (oid, pid) = Some (mkOrderItem q cents)) /\
  (forall k v, pg_order_items p !! k = Some v -> pg_order_items p' !! k = Some v).
Proof.
  unfold Pg.insert_order_item. destruct (negb _); [discriminate|].
  destruct (Flt.to_numeric_10_2 pr) as [cents|]; [|discriminate].
  repeat case_decide; try discriminate. intros [= <-]. simpl. split.
  - exists cents. split; [done|]. apply lookup_insert_eq.
  - intros k v Hk. rewrite lookup_insert_ne; [done|]. intros <-. rewrite Hk in H. by apply H.
Qed.

(** A successful [executemany] stores every item, rounded to two
    decimals, and overwrites no row. *)
Lemma executemany_stored items w w' :
  Pg.executemany_items items w = (Ok tt, w') ->
  (forall o p q pr, (o, p, q, pr) ∈ items -> exists cents,
     Flt.to_numeric_10_2 pr = Some cents /\
     pg_order_items (w_pg w') !! (o, p) = Some (mkOrderItem q cents)) /\
  (forall k v, pg_order_items (w_pg w) !! k = Some v -> pg_order_items (w_pg w') !! k = Some v).
Proof.
  revert w. induction items as [|[[[oid pid] q] pr] rest IH]; intros w H.
  - injection H as <-. split; [|done]. intros ? ? ? ? Hin. by apply elem_of_nil in Hin.
  - cbn [Pg.executemany_items] in H. apply bind_ok_inv in H as ([] & w0 & Hi & H).
    apply execute_ok_inv, insert_order_item_ok in Hi as [(cents & Hc & Hs) Hk].
    destruct (IH w0 H) as [Hall Hk'].
    split; [|intros k v Hv; by apply Hk', Hk].
    intros o p' q' pr' Hin. apply elem_of_cons in Hin as [[= -> -> -> ->]|Hin].
    + exists cents. split; [done|]. by apply Hk'.
    + by apply Hall.
Qed.

(** The loop keeps the items it was given and adds one per cart line,
    with the line's quantity and the float price of the dictionary. *)
Lemma order_lines_items oid pp t acc c t' items :
  CartService.order_lines oid pp t acc c = Ok (t', items) ->
  (forall x, x ∈ acc -> x ∈ items) /\
  (forall pid q, (pid, q) ∈ c -> exists pr, dict_get pp pid = Some pr /\ (oid, pid, q, pr) ∈ items).
Proof.
  revert t acc. induction c as [|[pid q] c IH]; intros t acc; simpl.
  - intros [= _ <-]. split; [done|]. intros ? ? Hin. by apply elem_of_nil in Hin.
  - destruct (dict_get pp pid) as [pr|] eqn:Ep; [|discriminate]. intros H.
    destruct (IH _ _ H) as [Hacc Hc]. split.
    + intros x Hx. apply Hacc. apply elem_of_app. by left.
    + intros pid' q' Hin. apply elem_of_cons in Hin as [[= -> ->]|Hin]; [|by apply Hc].
      exists pr. split; [done|]. apply Hacc. apply elem_of_app. right. by left.
Qed.

(** What a successful checkout wrote to [order_items]: one row per cart
    line, with the line's quantity and the rounding of the float price
    the loop used. *)
Lemma convert_ok_items u oid d w res w' :
  CartService.convert_cart_to_order u oid d w = (Ok res, w') ->
  exists c rows pp items,
    fst (CartService.get_cart u w) = Ok c /\
    fst (Pg.select_prices (map fst c) (w_pg w)) = Ok rows /\
    CartService.price_dict [] rows = Ok pp /\
    CartService.order_lines oid pp (Flt.of_Z 0) [] c
      = Ok (CartService.res_total_amount res, items) /\
    (forall pid q, (pid, q) ∈ c -> exists price cents,
       dict_get pp pid = Some price /\ Flt.to_numeric_10_2 price = Some cents /\
       pg_order_items (w_pg w') !! (oid, pid) = Some (mkOrderItem q cents)).
Proof.
  unfold CartService.convert_cart_to_order. intros H.
  apply bind_ok_inv in H as (c & w0 & Hc & H).
  pose proof (get_cart_state u w) as Hs. unfold CartService.get_cart.
  rewrite Hc in Hs. injection Hs as <-. rewrite Hc.
  destruct c as [|x c0] eqn:Ec; [discriminate|]. rewrite <- Ec in *. clear x c0 Ec.
  apply bind_ok_inv in H as (total & w1 & Hcur & H).
  apply bind_ok_inv in H as ([] & w2 & Hfor & H).
  apply bind_ok_inv in H as ([] & w3 & Hclr & H).
  injection H as <- <-.
  apply get_cursor_ok_inv in Hcur as (v1 & v2 & Htx & Hv1 & Hw1).
  unfold CartService.checkout_txn in Htx.
  apply bind_ok_inv in Htx as (rows & v3 & Hsel & Htx).
  apply execute_ok_inv in Hsel. rewrite Hv1 in Hsel.
  apply bind_ok_inv in Htx as (pp & v4 & Hpp & Htx). injection Hpp as Hpp <-.
  destruct (negb _); [discriminate|].
  apply bind_ok_inv in Htx as ([total' items] & v5 & Hol & Htx). injection Hol as Hol <-.
  apply bind_ok_inv in Htx as ([] & v6 & Hins & Htx).
  apply bind_ok_inv in Htx as ([] & v7 & Hmany & Htx).
  injection Htx as -> <-.
  apply executemany_stored in Hmany as [Hst _].
  pose proof (for_each_purchase_pg u c d w1) as Hf. rewrite Hfor in Hf. simpl in Hf.
  unfold RedisClient.clear_cart, Redis.cmd, Redis.DEL in Hclr. injection Hclr as <-.
  exists c, rows, pp, items.
  split; [done|]. split; [by rewrite Hsel|]. split; [done|]. split; [done|].
  intros pid q Hin.
  destruct (proj2 (order_lines_items _ _ _ _ _ _ _ Hol) pid q Hin) as (pr & Hpr & Hit).
  destruct (Hst _ _ _ _ Hit) as (cents & Hcents & Hrow).
  exists pr, cents. split; [done|]. split; [done|].
  simpl. rewrite Hf, Hw1. exact Hrow.
Qed.

Lemma get_product_from_db_priced id p cents w :
  pg_products (w_pg w) !! id = Some p -> prod_price p = Some cents ->
  w_pg_fault w (w_pg_calls w) = false -> w_pg_fault w (S (w_pg_calls w)) = false ->
  w_pg_fault w (S (S (w_pg_calls w))) = false ->
  fst (ProductService.get_product_from_db id w)
    = Ok (PDict (dict_set (product_row id p) "price" (PFloat (Flt.of_cents cents)))).
Proof.
  intros Hp Hc H0 H1 H2. unfold ProductService.get_product_from_db.
  rewrite get_cursor_ok by done. rewrite bind_run, execute_ok by done.
  cbn [w_pg set_pg_calls set_pg Pg.select_product]. rewrite Hp. cbn -[product_row].
  replace (dict_get (product_row id p) "price") with (Some (PDecimal cents))
    by (unfold product_row; rewrite Hc; reflexivity).
  cbn. rewrite bind_run. cbn. rewrite pg_roundtrip_ok by exact H2. reflexivity.
Qed.

(** **** C4 (amended)
    A successful checkout reads the cart, turns each price row into a
    binary float, sums [price * quantity] in floating point in cart order,
    stores the DECIMAL(10,2) rounding of that float as the order total and
    deletes the cart.  For the cart [{P1: 2, P2: 1}] at 10.00 and 5.00 the
    order total is 25.00, the items are snapshotted at 10.00 and 5.00, the
    items' sum equals the total, and the cart is gone. *)
Theorem checkout_order_total_rounded_float_sum :
  (forall u oid d w res w',
     CartService.convert_cart_to_order u oid d w = (Ok res, w') ->
     exists c rows pp items cents,
       fst (CartService.get_cart u w) = Ok c /\
       fst (Pg.select_prices (map fst c) (w_pg w)) = Ok rows /\
       CartService.price_dict [] rows = Ok pp /\
       CartService.order_lines oid pp (Flt.of_Z 0) [] c
         = Ok (CartService.res_total_amount res, items) /\
       Flt.to_numeric_10_2 (CartService.res_total_amount res) = Some cents /\
       pg_orders (w_pg w') !! oid = Some (mkOrder u d "COMPLETED" cents) /\
       r_keys (w_redis w') !! RedisClient.get_cart_key u = None) /\
  (let w := shop_world [("P1", "2"); ("P2", "1")] no_fault no_fault in
   let r := CartService.convert_cart_to_order "U1" "O1" "2024-05-01T10:00:00" w in
   fst r = Ok (CartService.mkOrderResult "O1" (Flt.of_Z 25) 2) /\
   pg_orders (w_pg (snd r)) !! "O1" = Some (mkOrder "U1" "2024-05-01T10:00:00" "COMPLETED" 2500) /\
   pg_order_items (w_pg (snd r)) !! ("O1", "P1") = Some (mkOrderItem 2 1000) /\
   pg_order_items (w_pg (snd r)) !! ("O1", "P2") = Some (mkOrderItem 1 500) /\
   order_items_total (w_pg (snd r)) "O1" = 2500 /\
   r_keys (w_redis (snd r)) !! "cart:U1" = None).
Proof.
  split.
  - intros u oid d w res w' H.
    destruct (convert_ok_inv u oid d w res w' H)
      as (c & rows & pp & items & cents & Hc & _ & Hs & Hp & Hl & Hn & Ho & Hk & _).
    exists c, rows, pp, items, cents. repeat split; assumption.
  - vm_compute. repeat split; reflexivity.
Qed.

Lemma checkout_order_total_rounded_float_sum_witness :
  let w := shop_world [("P1", "2"); ("P2", "1")] no_fault no_fault in
  exists res w',
    CartService.convert_cart_to_order "U1" "O1" "2024-05-01T10:00:00" w = (Ok res, w') /\
    exists cents,
      Flt.to_numeric_10_2 (CartService.res_total_amount res) = Some cents /\
      pg_orders (w_pg w') !! "O1" = Some (mkOrder "U1" "2024-05-01T10:00:00" "COMPLETED" cents).
Proof.
  intros w.
  destruct (CartService.convert_cart_to_order "U1" "O1" "2024-05-01T10:00:00" w)
    as [[res|e] w'] eqn:E.
  - exists res, w'. split; [reflexivity|].
    destruct (proj1 checkout_order_total_rounded_float_sum _ _ _ _ _ _ E)
      as (c & rows & pp & items & cents & _ & _ & _ & _ & Hn & Ho & _).
    exists cents. split; assumption.
  - exfalso. vm_compute in E. discriminate E.
Defined.

(** The order total and the items disagree: two lines of 99999999 units
    at 99999999.99 and -99999999.98 sum to 999999.99 exactly, but the
    float accumulation stores 1000000.00. *)
Lemma checkout_total_differs_from_items :
  let w := mkWorld (redis_cart [("P1", "99999999"); ("P2", "99999999")])
                   pg_extreme 0 no_fault graph_shop 0 no_fault in
  let r := CartService.convert_cart_to_order "U1" "O1" "2024-05-01T10:00:00" w in
  (exists res, fst r = Ok res) /\
  option_map ord_total_price (pg_orders (w_pg (snd r)) !! "O1") = Some 100000000 /\
  order_items_total (w_pg (snd r)) "O1" = 99999999.
Proof. vm_compute. split; [eexists; reflexivity|split; reflexivity]. Qed.

(** **** C7 (amended)
    Money is stored as DECIMAL(10,2), but the product read returns the
    price as a binary float ([float(Decimal)]), and checkout converts each
    price to a float and accumulates the total in binary floating point:
    the returned [total_amount] is that float sum, and every price it
    adds is the float nearest to the stored decimal.  What is stored is
    the database's two-decimal rounding of those floats: the order's
    [total_price] is the rounding of the float total, and each cart line's
    [price_at_purchase] is the rounding of the float price the loop used
    for it. *)
Theorem money_read_and_summed_as_float :
  (forall id p cents w,
     pg_products (w_pg w) !! id = Some p -> prod_price p = Some cents ->
     w_pg_fault w (w_pg_calls w) = false -> w_pg_fault w (S (w_pg_calls w)) = false ->
     w_pg_fault w (S (S (w_pg_calls w))) = false ->
     fst (ProductService.get_product_from_db id w)
       = Ok (PDict (dict_set (product_row id p) "price" (PFloat (Flt.of_cents cents))))) /\
  (forall u oid d w res w',
     CartService.convert_cart_to_order u oid d w = (Ok res, w') ->
     exists c rows pp items cents,
       fst (CartService.get_cart u w) = Ok c /\
       fst (Pg.select_prices (map fst c) (w_pg w)) = Ok rows /\
       CartService.price_dict [] rows = Ok pp /\
       Forall (fun kv => exists cents, kv.2 = Flt.of_cents cents) pp /\
       CartService.order_lines oid pp (Flt.of_Z 0) [] c
         = Ok (CartService.res_total_amount res, items) /\
       Flt.to_numeric_10_2 (CartService.res_total_amount res) = Some cents /\
       pg_orders (w_pg w') !! oid = Some (mkOrder u d "COMPLETED" cents) /\
       (forall pid q, (pid, q) ∈ c -> exists price pcents,
          dict_get pp pid = Some price /\ Flt.to_numeric_10_2 price = Some pcents /\
          pg_order_items (w_pg w') !! (oid, pid) = Some (mkOrderItem q pcents))).
Proof.
  split; [exact get_product_from_db_priced|].
  intros u oid d w res w' H.
  destruct (convert_ok_inv u oid d w res w' H)
    as (c & rows & pp & items & cents & Hc & _ & Hs & Hp & Hl & Hcents & Hord & _).
  destruct (convert_ok_items u oid d w res w' H)
    as (c' & rows' & pp' & items' & Hc' & Hs' & Hp' & Hl' & Hitems).
  rewrite Hc in Hc'. injection Hc' as <-.
  rewrite Hs in Hs'. injection Hs' as <-.
  rewrite Hp in Hp'. injection Hp' as <-.
  exists c, rows, pp, items, cents. repeat split; try assumption.
  apply (price_dict_cents [] rows pp Hp). constructor.
Qed.

Lemma money_read_and_summed_as_float_witness :
  let w := mkWorld (redis_cart [("P1", "1"); ("P2", "1")]) pg_dimes 0 no_fault graph_shop 0 no_fault in
  pg_products (w_pg w) !! "P1" = Some (product_priced "Pen" 10) /\
  fst (ProductService.get_product_from_db "P1" w)
    = Ok (PDict (dict_set (product_row "P1" (product_priced "Pen" 10)) "price"
                          (PFloat (Flt.of_cents 10)))) /\
  exists res w',
    CartService.convert_cart_to_order "U1" "O1" "2024-05-01T10:00:00" w = (Ok res, w') /\
    exists c pp cents,
      fst (CartService.get_cart "U1" w) = Ok c /\
      Flt.to_numeric_10_2 (CartService.res_total_amount res) = Some cents /\
      pg_orders (w_pg w') !! "O1" = Some (mkOrder "U1" "2024-05-01T10:00:00" "COMPLETED" cents) /\
      (forall pid q, (pid, q) ∈ c -> exists price pcents,
         dict_get pp pid = Some price /\ Flt.to_numeric_10_2 price = Some pcents /\
         pg_order_items (w_pg w') !! ("O1", pid) = Some (mkOrderItem q pcents)).
Proof.
  intros w.
  assert (Hp : pg_products (w_pg w) !! "P1" = Some (product_priced "Pen" 10))
    by reflexivity.
  split; [exact Hp|]. split.
  - exact (proj1 money_read_and_summed_as_float "P1" _ 10 w Hp eq_refl eq_refl eq_refl eq_refl).
  - destruct (CartService.convert_cart_to_order "U1" "O1" "2024-05-01T10:00:00" w)
      as [[res|e] w'] eqn:E.
    + exists res, w'. split; [reflexivity|].
      destruct (proj2 money_read_and_summed_as_float _ _ _ _ _ _ E)
        as (c & rows & pp & items & cents & Hc & _ & _ & _ & _ & Hcents & Hord & Hit).
      exists c, pp, cents. repeat split; assumption.
    + exfalso. vm_compute in E. discriminate E.
Defined.

(** 0.10 + 0.20: the product read yields the float 0.1, and the checkout
    returns the float 0.30000000000000004 as the order total (the order
    row stores its rounding, 0.30, and the items 0.10 and 0.20). *)
Lemma checkout_float_total_example :
  let w := mkWorld (redis_cart [("P1", "1"); ("P2", "1")]) pg_dimes 0 no_fault graph_shop 0 no_fault in
  let r := CartService.convert_cart_to_order "U1" "O1" "2024-05-01T10:00:00" w in
  fst (ProductService.get_product_from_db "P1" w)
    = Ok (PDict (dict_set (product_row "P1" (product_priced "Pen" 10)) "price"
                          (PFloat (Flt.of_cents 10)))) /\
  fst r = Ok (CartService.mkOrderResult "O1"
                (PrimFloat.add (Flt.of_cents 10) (Flt.of_cents 20)) 2) /\
  PrimFloat.eqb (PrimFloat.add (Flt.of_cents 10) (Flt.of_cents 20)) (Flt.of_cents 30) = false /\
  option_map ord_total_price (pg_orders (w_pg (snd r)) !! "O1") = Some 30 /\
  option_map item_price_at_purchase (pg_order_items (w_pg (snd r)) !! ("O1", "P1")) = Some 10 /\
  option_map item_price_at_purchase (pg_order_items (w_pg (snd r)) !! ("O1", "P2")) = Some 20.
Proof. vm_compute. repeat split; reflexivity. Qed.

(** **** C6 (code bug)
    A product priced 0.00 in the results of the similarity query: the
    [if r.get("price")] test skips the [Decimal('0.00')], [json.dumps]
    then raises, so the first call raises after counting a miss and
    querying, nothing is cached, and the identical second call misses and
    queries again (two misses, no hit, six PostgreSQL round trips).  With
    a price of 1.50 the second call is a hit that returns the first
    call's result without touching PostgreSQL. *)
Theorem semantic_search_zero_price_not_cached :
  let w := start_world redis_empty pg_empty graph_empty in
  let r := twice (search_gift (PDecimal 0)) w in
  r.1.1 = Raise (TypeError "Object of type Decimal is not JSON serializable") /\
  r.1.2 = Raise (TypeError "Object of type Decimal is not JSON serializable") /\
  r_keys (w_redis r.2) = {[ "cache_metrics:semantic_misses" := RStr "2" ]} /\
  w_pg_calls r.2 = 6%nat /\
  (let r' := twice (search_gift (PDecimal 150)) w in
   r'.1.2 = r'.1.1 /\ is_Some (match r'.1.1 with Ok v => Some v | Raise _ => None end) /\
   r_keys (w_redis r'.2) !! "cache_metrics:semantic_hits" = Some (RStr "1") /\
   r_keys (w_redis r'.2) !! "cache_metrics:semantic_misses" = Some (RStr "1") /\
   w_pg_calls r'.2 = 3%nat).
Proof. vm_compute. repeat split; try reflexivity. eexists; reflexivity. Qed.

(* ------------------------------------------------------------------ *)
(** ** Cache-aside reads: product search and similar products *)

Fixpoint json_loads_dumps (v : pyval) : forall j, json_dumps v = Some j -> json_loads j = v.
Proof.
  destruct v as [| b | z | f | c | s | l | d]; intros j H; simpl in H;
    try (injection H as <-; reflexivity); try discriminate.
  - revert j H. induction l as [|x l IHl]; intros j H; simpl in H.
    + injection H as <-. reflexivity.
    + destruct (json_dumps x) as [jx|] eqn:Ex; [|discriminate].
      match type of H with option_map _ (match ?r with _ => _ end) = _ =>
        destruct r as [js|] eqn:Er; [|discriminate] end.
      injection H as <-.
      specialize (IHl _ eq_refl). simpl in IHl.
      simpl. rewrite (json_loads_dumps x jx Ex). injection IHl as ->. reflexivity.
  - revert j H. induction d as [|[k x] d IHd]; intros j H; simpl in H.
    + injection H as <-. reflexivity.
    + destruct (json_dumps x) as [jx|] eqn:Ex; [|discriminate].
      match type of H with option_map _ (match ?r with _ => _ end) = _ =>
        destruct r as [js|] eqn:Er; [|discriminate] end.
      injection H as <-.
      specialize (IHd _ eq_refl). simpl in IHd.
      simpl. rewrite (json_loads_dumps x jx Ex). injection IHd as ->. reflexivity.
Qed.

Lemma get_json_absent k w :
  r_keys (w_redis w) !! k = None -> RedisClient.get_json k w = (Ok PNone, w).
Proof.
  intros H. unfold RedisClient.get_json. rewrite bind_run.
  unfold Redis.cmd, Redis.GET. rewrite H. cbn. by rewrite set_redis_same.
Qed.

Lemma get_json_json k w j :
  r_keys (w_redis w) !! k = Some (RJson j) -> RedisClient.get_json k w = (Ok (json_loads j), w).
Proof.
  intros H. unfold RedisClient.get_json. rewrite bind_run.
  unfold Redis.cmd, Redis.GET. rewrite H. cbn. by rewrite set_redis_same.
Qed.

Lemma incr_metric_ok m w n :
  counter_at (w_redis w) ("cache_metrics:" +:+ m) = Some n -> n < int64_max ->
  RedisClient.increment_cache_metric m w
  = (Ok tt, set_redis (Redis.with_key (w_redis w) ("cache_metrics:" +:+ m)
                         (RStr (py_str_int (n + 1)))) w).
Proof.
  intros Hc Hn. unfold RedisClient.increment_cache_metric. rewrite bind_run.
  unfold Redis.cmd, Redis.INCR. unfold counter_at in Hc.
  destruct (r_keys (w_redis w) !! _) as [v|] eqn:E.
  - assert (Hv : (match v with
                  | RHash _ | RZSet _ => Raise WRONGTYPE
                  | _ => match Redis.int_of_value v with
                         | Some n => Ok n
                         | None => Raise (RedisError "ERR value is not an integer or out of range")
                         end
                  end) = Ok n) by (destruct v; try discriminate; by rewrite Hc).
    destruct v; try discriminate; rewrite Hc;
      (replace (n + 1 <=? int64_max) with true by (symmetry; apply Z.leb_le; lia)); reflexivity.
  - injection Hc as <-. cbn. reflexivity.
Qed.

Lemma incr_metric_inv m w w' :
  RedisClient.increment_cache_metric m w = (Ok tt, w') ->
  exists s, w' = set_redis (Redis.with_key (w_redis w) ("cache_metrics:" +:+ m) (RStr s)) w.
Proof.
  unfold RedisClient.increment_cache_metric. rewrite bind_run.
  unfold Redis.cmd, Redis.INCR.
  repeat case_match; simplify_eq/=; try discriminate; intros [= <-]; eauto.
Qed.

Lemma set_json_ok_inv key v ttl w b w' :
  RedisClient.set_json key v ttl w = (Ok b, w') ->
  exists j, json_dumps v = Some j /\
    w' = set_redis (mkRedis (<[key := RJson j]> (r_keys (w_redis w)))
                            (<[key := ttl]> (r_ttl (w_redis w)))) w.
Proof.
  unfold RedisClient.set_json. destruct (json_dumps v) as [j|]; [|discriminate].
  unfold Redis.cmd, Redis.SETEX. intros [= _ <-]. eauto.
Qed.

Lemma cached_query_twice key hit miss fetch fetch' w w2 v n :
  redis_frame fetch ->
  r_keys (w_redis w) !! key = None ->
  "cache_metrics:" +:+ hit <> key -> "cache_metrics:" +:+ miss <> key -> hit <> miss ->
  counter_at (w_redis w) ("cache_metrics:" +:+ hit) = Some n -> n < int64_max ->
  (forall w' x w'', fetch w' = (Ok x, w'') -> is_none x = false) ->
  fst (cached_query key hit miss fetch w) = Ok v ->
  w_redis w2 = w_redis (snd (cached_query key hit miss fetch w)) ->
  cached_query key hit miss fetch' w2
  = (Ok v, set_redis (Redis.with_key (w_redis w2) ("cache_metrics:" +:+ hit)
                        (RStr (py_str_int (n + 1)))) w2).
Proof.
  intros Hfr Habs Hhk Hmk Hhm Hn Hmax Hsome Hok Hw2.
  destruct (cached_query key hit miss fetch w) as [o w1] eqn:E1. simpl in Hok, Hw2. subst o.
  unfold cached_query in E1. rewrite bind_run, get_json_absent in E1 by done. cbn in E1.
  apply bind_ok_inv in E1 as ([] & w3' & Hinc & E1).
  apply bind_ok_inv in E1 as (v' & w3 & Hf & E1).
  apply bind_ok_inv in E1 as (b & w4 & Hset & E1). injection E1 as -> <-.
  pose proof (Hsome _ _ _ Hf) as Hv.
  apply incr_metric_inv in Hinc as (s & ->).
  apply set_json_ok_inv in Hset as (j & Hj & ->).
  pose proof (Hfr (set_redis (Redis.with_key (w_redis w) ("cache_metrics:" +:+ miss) (RStr s)) w))
    as Hr3. rewrite Hf in Hr3. simpl in Hr3.
  assert (Hhit : "cache_metrics:" +:+ hit <> "cache_metrics:" +:+ miss).
  { intros Heq. apply Hhm. by apply (inj (String.append "cache_metrics:")) in Heq. }
  unfold cached_query. rewrite bind_run, (get_json_json _ _ j).
  2: { rewrite Hw2. simpl. apply lookup_insert_eq. }
  rewrite (json_loads_dumps _ _ Hj), Hv. cbn -[RedisClient.increment_cache_metric].
  rewrite bind_run, incr_metric_ok with (n := n); [reflexivity| |done].
  unfold counter_at in *. rewrite Hw2. simpl. rewrite Hr3. simpl.
  rewrite lookup_insert_ne by congruence. rewrite lookup_insert_ne by congruence. exact Hn.
Qed.

Lemma rows_fetch_frame (body : M (list (list (string * pyval)))) :
  redis_frame body ->
  redis_frame (rs ← PostgresConnection.get_cursor body; mret (PList (map PDict rs))).
Proof. intros Hb. apply frame_bind; [by apply frame_get_cursor|]. intros. apply frame_ret. Qed.

Lemma rows_fetch_some (body : M (list (list (string * pyval)))) w x w' :
  (rs ← PostgresConnection.get_cursor body; mret (PList (map PDict rs))) w = (Ok x, w') ->
  is_none x = false.
Proof.
  rewrite bind_run. destruct (PostgresConnection.get_cursor body w) as [[rs|e] w1];
    [intros [= <- _]; reflexivity|discriminate].
Qed.

Ltac cached_query_eq :=
  rewrite !bind_run;
  match goal with |- context [RedisClient.get_json ?k ?w] =>
    destruct (RedisClient.get_json k w) as [[c0|e] w1]; [|reflexivity] end;
  cbn -[RedisClient.increment_cache_metric];
  destruct (negb _); [reflexivity|];
  rewrite !bind_run;
  match goal with |- context [RedisClient.increment_cache_metric ?m ?w] =>
    destruct (RedisClient.increment_cache_metric m w) as [[[]|e] w2]; [|reflexivity] end;
  cbn -[PostgresConnection.get_cursor]; rewrite !bind_run;
  match goal with |- context [PostgresConnection.get_cursor ?b ?w] =>
    destruct (PostgresConnection.get_cursor b w) as [[rs|e] w3]; reflexivity end.

Lemma search_products_cached fr ts q c mn mx lim w :
  search_products fr ts q c mn mx lim w =
  cached_query (search_cache_key fr q c mn mx lim) "hits" "misses"
    (rs ← PostgresConnection.get_cursor (
       rows ← Pg.execute (fun p => (Ok (ts p (mkTextQuery (truthy_str q) (truthy_str c) mn mx lim)), p));
       lift (rows_price_to_float rows));
     mret (PList (map PDict rs))) w.
Proof. unfold search_products, cached_query. cached_query_eq. Qed.

Lemma find_similar_products_cached ss pid k w :
  find_similar_products ss pid k w =
  cached_query ("similar_products:" +:+ pid +:+ ":" +:+ py_str_int k) "similar_hits" "similar_misses"
    (rs ← PostgresConnection.get_cursor (
       rows ← Pg.execute (fun p => (Ok (ss p pid k), p));
       lift (convert_rows rows));
     mret (PList (map PDict rs))) w.
Proof. unfold find_similar_products, cached_query. cached_query_eq. Qed.

(** **** X1
    A [search_products] call that misses the cache and returns [v] stores
    [v]; a later identical call, made with the Redis keyspace as the first
    call left it, returns [v] from Redis whatever the database holds then
    (any other table contents and search function [ts'], any PostgreSQL
    state), and its only effect is to count one more
    [cache_metrics:hits]. *)
Theorem search_products_repeat_is_hit fr ts ts' q c mn mx lim w w2 v n :
  r_keys (w_redis w) !! search_cache_key fr q c mn mx lim = None ->
  counter_at (w_redis w) "cache_metrics:hits" = Some n -> n < int64_max ->
  fst (search_products fr ts q c mn mx lim w) = Ok v ->
  w_redis w2 = w_redis (snd (search_products fr ts q c mn mx lim w)) ->
  search_products fr ts' q c mn mx lim w2 = (Ok v, hit_counted w2 "hits" n).
Proof.
  intros Habs Hn Hmax Hok Hw2. rewrite !search_products_cached in *.
  unfold hit_counted. eapply cached_query_twice; try eassumption.
  all: first [ apply rows_fetch_some
             | apply rows_fetch_frame, frame_bind;
               [apply frame_pg_execute|intros; apply frame_lift]
             | try unfold search_cache_key; cbn; discriminate ].
Qed.

(** The second call runs against a different table ([pg_dimes]) and a
    search function that returns nothing. *)
Lemma search_products_repeat_is_hit_witness :
  let ts := fun (_ : pgdb) (_ : text_query) => [[("id", PStr "P1"); ("price", PDecimal 1000)]] in
  let ts' := fun (_ : pgdb) (_ : text_query) => @nil (list (string * pyval)) in
  let w := start_world redis_empty pg_shop graph_empty in
  let w2 := set_pg pg_dimes (snd (search_products (fun _ => "x") ts None None None None 20 w)) in
  let v := PList [PDict [("id", PStr "P1"); ("price", PFloat (Flt.of_cents 1000))]] in
  fst (search_products (fun _ => "x") ts None None None None 20 w) = Ok v /\
  search_products (fun _ => "x") ts' None None None None 20 w2 = (Ok v, hit_counted w2 "hits" 0).
Proof.
  intros ts ts' w w2 v.
  assert (H1 : fst (search_products (fun _ => "x") ts None None None None 20 w) = Ok v)
    by (vm_compute; reflexivity).
  split; [exact H1|].
  apply (search_products_repeat_is_hit (fun _ => "x") ts ts' None None None None 20 w w2 v 0);
    [vm_compute; reflexivity|vm_compute; reflexivity|vm_compute; reflexivity|exact H1|reflexivity].
Defined.

(** **** X2
    The search text ["all"] and no search text build the same cache key:
    after a miss for no search text that returns [v], a search for ["all"]
    with the same filters is a cache hit that returns [v]. *)
Theorem search_products_all_query_collides fr ts c mn mx lim w v n :
  r_keys (w_redis w) !! search_cache_key fr None c mn mx lim = None ->
  counter_at (w_redis w) "cache_metrics:hits" = Some n -> n < int64_max ->
  fst (search_products fr ts None c mn mx lim w) = Ok v ->
  search_products fr ts (Some "all") c mn mx lim (snd (search_products fr ts None c mn mx lim w))
  = (Ok v, hit_counted (snd (search_products fr ts None c mn mx lim w)) "hits" n).
Proof.
  intros Habs Hn Hmax Hok. rewrite !search_products_cached in *.
  change (search_cache_key fr (Some "all") c mn mx lim) with (search_cache_key fr None c mn mx lim).
  unfold hit_counted. eapply cached_query_twice; try eassumption.
  all: first [ apply rows_fetch_some
             | apply rows_fetch_frame, frame_bind;
               [apply frame_pg_execute|intros; apply frame_lift]
             | reflexivity
             | try unfold search_cache_key; cbn; discriminate ].
Qed.

Lemma search_products_all_query_collides_witness :
  let ts := fun (_ : pgdb) (q : text_query) =>
    match tq_query q with
    | None => [[("id", PStr "P1"); ("price", PDecimal 1000)]]
    | Some _ => [] end in
  let w := start_world redis_empty pg_shop graph_empty in
  let v := PList [PDict [("id", PStr "P1"); ("price", PFloat (Flt.of_cents 1000))]] in
  fst (search_products (fun _ => "x") ts None None None None 20 w) = Ok v /\
  search_products (fun _ => "x") ts (Some "all") None None None 20
    (snd (search_products (fun _ => "x") ts None None None None 20 w))
  = (Ok v, hit_counted (snd (search_products (fun _ => "x") ts None None None None 20 w)) "hits" 0).
Proof.
  intros ts w v.
  assert (H1 : fst (search_products (fun _ => "x") ts None None None None 20 w) = Ok v)
    by (vm_compute; reflexivity).
  split; [exact H1|].
  apply (search_products_all_query_collides (fun _ => "x") ts None None None 20 w v 0);
    [vm_compute; reflexivity|vm_compute; reflexivity|vm_compute; reflexivity|exact H1].
Defined.

(** **** X4
    A [find_similar_products] call that misses the cache and returns [v]
    stores [v]; the identical next call returns [v] from Redis and only
    counts one more [cache_metrics:similar_hits]. *)
Theorem find_similar_products_repeat_is_hit ss pid k w v n :
  r_keys (w_redis w) !! ("similar_products:" +:+ pid +:+ ":" +:+ py_str_int k) = None ->
  counter_at (w_redis w) "cache_metrics:similar_hits" = Some n -> n < int64_max ->
  fst (find_similar_products ss pid k w) = Ok v ->
  find_similar_products ss pid k (snd (find_similar_products ss pid k w))
  = (Ok v, hit_counted (snd (find_similar_products ss pid k w)) "similar_hits" n).
Proof.
  intros Habs Hn Hmax Hok. rewrite !find_similar_products_cached in *.
  unfold hit_counted. eapply cached_query_twice; try eassumption.
  all: first [ apply rows_fetch_some
             | apply rows_fetch_frame, frame_bind;
               [apply frame_pg_execute|intros; apply frame_lift]
             | reflexivity
             | try unfold search_cache_key; cbn; discriminate ].
Qed.

Lemma find_similar_products_repeat_is_hit_witness :
  let ss := fun (_ : pgdb) (_ : string) (_ : Z) =>
    [[("id", PStr "P2"); ("price", PDecimal 500); ("similarity", PDecimal 90)]] in
  let w := start_world redis_empty pg_shop graph_empty in
  let v := PList [PDict [("id", PStr "P2"); ("price", PFloat (Flt.of_cents 500));
                         ("similarity", PFloat (Flt.of_cents 90))]] in
  fst (find_similar_products ss "P1" 5 w) = Ok v /\
  find_similar_products ss "P1" 5 (snd (find_similar_products ss "P1" 5 w))
  = (Ok v, hit_counted (snd (find_similar_products ss "P1" 5 w)) "similar_hits" 0).
Proof.
  intros ss w v.
  assert (H1 : fst (find_similar_products ss "P1" 5 w) = Ok v) by (vm_compute; reflexivity).
  split; [exact H1|].
  apply (find_similar_products_repeat_is_hit ss "P1" 5 w v 0);
    [vm_compute; reflexivity|vm_compute; reflexivity|vm_compute; reflexivity|exact H1].
Defined.


Lemma price_to_float_null r :
  dict_get r "price" = Some PNone ->
  price_to_float r = Raise (TypeError "float() argument must be a string or a real number, not 'NoneType'").
Proof.
  induction r as [|[k v] r IH]; cbn [dict_get price_to_float]; [discriminate|].
  destruct (String.eqb "price" k) eqn:Ek.
  - apply String.eqb_eq in Ek as <-. intros [= ->]. reflexivity.
  - intros H.
    replace (String.eqb k "price") with false
      by (symmetry; rewrite String.eqb_sym; exact Ek).
    by rewrite IH.
Qed.

Lemma price_to_float_db r :
  db_prices r ->
  (exists r', price_to_float r = Ok r') \/
  price_to_float r = Raise (TypeError "float() argument must be a string or a real number, not 'NoneType'").
Proof.
  induction r as [|[k v] r IH]; intros Hr; cbn [price_to_float]; [eauto|].
  assert (Hr' : db_prices r) by (intros v' Hv'; apply Hr; by right).
  destruct (String.eqb k "price") eqn:Ek.
  - apply String.eqb_eq in Ek as ->.
    assert (Hv : v = PNone \/ exists c, v = PDecimal c) by (apply Hr; by left).
    destruct Hv as [-> | [c ->]]; [by right|].
    cbn [py_float]. destruct (IH Hr') as [[r' ->] | ->]; eauto.
  - destruct (IH Hr') as [[r' ->] | ->]; eauto.
Qed.

(** With prices as the database returns them, a row with a NULL price
    makes the conversion raise [float(None)]'s [TypeError]. *)
Lemma rows_price_to_float_null rows r :
  Forall db_prices rows -> r ∈ rows -> dict_get r "price" = Some PNone ->
  rows_price_to_float rows
  = Raise (TypeError "float() argument must be a string or a real number, not 'NoneType'").
Proof.
  intros Hdb Hin Hr. induction rows as [|r' rows IH]; [set_solver|].
  inversion Hdb as [|? ? Hr' Hdb']; subst. simpl.
  apply elem_of_cons in Hin as [<-|Hin].
  - by rewrite (price_to_float_null r Hr).
  - destruct (price_to_float_db r' Hr') as [[r'' ->] | ->]; [|reflexivity].
    by rewrite (IH Hdb' Hin).
Qed.

(** **** X3
    When the search results come back with a NULL price in some row (the
    other prices being [Decimal]s or NULL, as the column holds them), and
    PostgreSQL answers the connection and the query, [search_products]
    counts the cache miss, then raises [float(None)]'s [TypeError]; the
    only change to Redis is the miss count, so the cache key is still
    absent and the next identical call queries again. *)
Theorem search_products_null_price_not_cached fr ts q c mn mx lim w r n :
  r_keys (w_redis w) !! search_cache_key fr q c mn mx lim = None ->
  counter_at (w_redis w) "cache_metrics:misses" = Some n -> n < int64_max ->
  w_pg_fault w (w_pg_calls w) = false -> w_pg_fault w (S (w_pg_calls w)) = false ->
  Forall db_prices (ts (w_pg w) (mkTextQuery (truthy_str q) (truthy_str c) mn mx lim)) ->
  r ∈ ts (w_pg w) (mkTextQuery (truthy_str q) (truthy_str c) mn mx lim) ->
  dict_get r "price" = Some PNone ->
  fst (search_products fr ts q c mn mx lim w)
    = Raise (TypeError "float() argument must be a string or a real number, not 'NoneType'") /\
  w_redis (snd (search_products fr ts q c mn mx lim w))
    = Redis.with_key (w_redis w) "cache_metrics:misses" (RStr (py_str_int (n + 1))) /\
  r_keys (w_redis (snd (search_products fr ts q c mn mx lim w)))
    !! search_cache_key fr q c mn mx lim = None.
Proof.
  intros Habs Hn Hmax Hf0 Hf1 Hdb Hin Hnull.
  pose proof (rows_price_to_float_null _ _ Hdb Hin Hnull) as He.
  rewrite search_products_cached. unfold cached_query.
  rewrite bind_run, get_json_absent by done. cbn -[RedisClient.increment_cache_metric].
  rewrite bind_run, (incr_metric_ok _ _ n) by done.
  cbn -[PostgresConnection.get_cursor]. rewrite !bind_run.
  rewrite get_cursor_ok by exact Hf0. rewrite bind_run.
  rewrite execute_ok by exact Hf1. cbn -[rows_price_to_float].
  unfold lift. rewrite He. cbn.
  split; [reflexivity|]. split; [reflexivity|].
  rewrite lookup_insert_ne; [done|]. unfold search_cache_key. cbn. discriminate.
Qed.

Lemma search_products_null_price_not_cached_witness :
  let r := [("id", PStr "P3"); ("price", PNone)] in
  let ts := fun (_ : pgdb) (_ : text_query) => [[("id", PStr "P1"); ("price", PDecimal 1000)]; r] in
  let w := start_world redis_empty pg_shop graph_empty in
  fst (search_products (fun _ => "x") ts (Some "lamp") None None None 20 w)
    = Raise (TypeError "float() argument must be a string or a real number, not 'NoneType'") /\
  w_redis (snd (search_products (fun _ => "x") ts (Some "lamp") None None None 20 w))
    = Redis.with_key (w_redis w) "cache_metrics:misses" (RStr (py_str_int 1)) /\
  r_keys (w_redis (snd (search_products (fun _ => "x") ts (Some "lamp") None None None 20 w)))
    !! search_cache_key (fun _ => "x") (Some "lamp") None None None 20 = None.
Proof.
  intros r ts w.
  apply (search_products_null_price_not_cached (fun _ => "x") ts (Some "lamp") None None None 20 w r 0).
  - vm_compute. reflexivity.
  - vm_compute. reflexivity.
  - vm_compute. reflexivity.
  - reflexivity.
  - reflexivity.
  - constructor; [|constructor; [|constructor]]; intros v Hv;
      repeat (apply elem_of_cons in Hv as [Hv|Hv]; [simplify_eq; eauto|]);
      by apply elem_of_nil in Hv.
  - cbn. right. left.
  - vm_compute. reflexivity.
Defined.

(* ------------------------------------------------------------------ *)
(** ** Cart operations read back *)

Lemma dict_get_set {A} (d : list (string * A)) k v x :
  dict_get (dict_set d k v) x = if String.eqb x k then Some v else dict_get d x.
Proof.
  induction d as [|[k' v'] d IH]; simpl.
  - destruct (String.eqb x k); reflexivity.
  - destruct (String.eqb_spec k k') as [->|Hk]; simpl.
    + destruct (String.eqb x k'); reflexivity.
    + rewrite IH. destruct (String.eqb_spec x k') as [->|]; [|done].
      destruct (String.eqb_spec k' k); congruence.
Qed.

Lemma dict_get_filter_ne {A} (h : list (string * A)) p k :
  dict_get (filter (fun kv => kv.1 <> p) h) k = if String.eqb k p then None else dict_get h k.
Proof.
  induction h as [|[f s] h IH]; simpl.
  - by destruct (String.eqb k p).
  - rewrite filter_cons. simpl. case_decide as Hf; simpl.
    + rewrite IH. destruct (String.eqb_spec k f) as [->|], (String.eqb_spec f p); congruence.
    + try apply dec_stable in Hf. subst f. rewrite IH.
      destruct (String.eqb_spec k p); reflexivity.
Qed.

Lemma nodup_filter_fst {A} (P : string * A -> Prop) `{!forall x, Decision (P x)} h :
  NoDup h.*1 -> NoDup (filter P h).*1.
Proof.
  induction h as [|[f s] h IH]; simpl; intros Hnd; [constructor|].
  inversion Hnd as [|? ? Hf Hnd']; subst. rewrite filter_cons.
  case_decide; simpl; [|by apply IH].
  constructor; [|by apply IH].
  intros Hin. apply list_elem_of_fmap in Hin as (x & Hx & Hin).
  apply list_elem_of_filter in Hin as [_ Hin].
  apply Hf. rewrite Hx. by apply list_elem_of_fmap_2.
Qed.

Lemma parse_cart_get acc data k :
  NoDup data.*1 ->
  dict_get (RedisClient.parse_cart acc data) k =
  match dict_get data k with
  | Some s => match py_int s with Some z => Some z | None => dict_get acc k end
  | None => dict_get acc k
  end.
Proof.
  revert acc. induction data as [|[f s] data IH]; intros acc Hnd; [done|].
  inversion Hnd as [|? ? Hf Hnd']; subst.
  cbn [RedisClient.parse_cart dict_get].
  destruct (String.eqb_spec k f) as [->|Hk].
  - destruct (py_int s) as [q|] eqn:Eq; rewrite IH by done;
      rewrite (dict_get_not_key data f) by done;
      [rewrite dict_get_set, String.eqb_refl|]; reflexivity.
  - destruct (py_int s) as [q|]; rewrite IH by done; [|reflexivity].
    rewrite dict_get_set. apply String.eqb_neq in Hk. by rewrite Hk.
Qed.

Lemma get_cart_hash u w h :
  r_keys (w_redis w) !! RedisClient.get_cart_key u = Some (RHash h) -> NoDup h.*1 ->
  exists c, RedisClient.get_cart u w = (Ok c, w) /\
    forall k, dict_get c k = dict_get h k ≫= py_int.
Proof.
  intros E Hnd. unfold RedisClient.get_cart. rewrite bind_run. unfold Redis.cmd, Redis.HGETALL.
  rewrite E. cbn -[RedisClient.parse_cart]. rewrite set_redis_same.
  eexists. split; [reflexivity|]. intros k. rewrite parse_cart_get by done.
  destruct (dict_get h k); simpl; [destruct (py_int s)|]; reflexivity.
Qed.

Lemma get_cart_absent u w :
  r_keys (w_redis w) !! RedisClient.get_cart_key u = None ->
  RedisClient.get_cart u w = (Ok [], w).
Proof.
  intros E. unfold RedisClient.get_cart. rewrite bind_run. unfold Redis.cmd, Redis.HGETALL.
  rewrite E. cbn. by rewrite set_redis_same.
Qed.

Lemma hincrby_ok k f by_ r n r' :
  Redis.HINCRBY k f by_ r = (Ok n, r') ->
  exists h old,
    (r_keys r !! k = None /\ h = [] \/ r_keys r !! k = Some (RHash h)) /\
    (dict_get h f = None /\ old = 0 \/
     exists s, dict_get h f = Some s /\ redis_string2ll s = Some old) /\
    n = old + by_ /\
    r' = Redis.with_key r k (RHash (dict_set h f (py_str_int n))).
Proof.
  unfold Redis.HINCRBY.
  destruct (r_keys r !! k) as [[s|j|h|z]|] eqn:E; try discriminate.
  - destruct (dict_get h f) as [s|] eqn:Ef.
    + destruct (redis_string2ll s) as [old|] eqn:Es; [|discriminate].
      destruct (_ && _); [|discriminate]. intros [= <- <-].
      exists h, old. split; [by right|]. split; [right; eauto|]. done.
    + destruct (_ && _); [|discriminate]. intros [= <- <-].
      exists h, 0. split; [by right|]. split; [left; done|]. done.
  - cbn. match goal with |- context [if ?b then _ else _] => destruct b end;
      [|discriminate]. intros [= <- <-].
    exists [], 0. split; [by left|]. split; [left; done|]. done.
Qed.

Lemma string2ll_py_int s n : redis_string2ll s = Some n -> py_int s = Some n.
Proof.
  intros (i & Ei & <-)%string2ll_int_of_string. by apply py_int_of_int_of_string.
Qed.

(** The cart read before an operation, in terms of the stored hash. *)
Lemma get_cart_before u w c :
  hashes_nodup (w_redis w) -> fst (RedisClient.get_cart u w) = Ok c ->
  exists h, (r_keys (w_redis w) !! RedisClient.get_cart_key u = None /\ h = [] \/
             r_keys (w_redis w) !! RedisClient.get_cart_key u = Some (RHash h)) /\
            NoDup h.*1 /\ forall k, dict_get c k = dict_get h k ≫= py_int.
Proof.
  intros Hh Hc.
  destruct (r_keys (w_redis w) !! RedisClient.get_cart_key u) as [[s|j|h|z]|] eqn:E.
  - unfold RedisClient.get_cart in Hc. rewrite bind_run in Hc.
    unfold Redis.cmd, Redis.HGETALL in Hc. by rewrite E in Hc.
  - unfold RedisClient.get_cart in Hc. rewrite bind_run in Hc.
    unfold Redis.cmd, Redis.HGETALL in Hc. by rewrite E in Hc.
  - pose proof (Hh _ _ E) as Hnd. destruct (get_cart_hash u w h E Hnd) as (c' & Hg & Hk).
    rewrite Hg in Hc. injection Hc as <-. exists h. eauto.
  - unfold RedisClient.get_cart in Hc. rewrite bind_run in Hc.
    unfold Redis.cmd, Redis.HGETALL in Hc. by rewrite E in Hc.
  - rewrite get_cart_absent in Hc by done. injection Hc as <-.
    exists []. split; [by left|]. split; [constructor|done].
Qed.

Lemma hashes_nodup_redis_cart h : NoDup h.*1 -> hashes_nodup (redis_cart h).
Proof. intros Hnd k h' E. cbn in E. apply lookup_singleton_Some in E as [_ [= <-]]. exact Hnd. Qed.

(** **** X6
    After a successful [add_to_cart u p q], the cart read back holds the
    previous quantity of [p] (0 if absent) plus [q], every other product
    keeps its quantity, and the cart key has the cart TTL. *)
Theorem add_to_cart_then_get u p q w c :
  hashes_nodup (w_redis w) ->
  fst (CartService.get_cart u w) = Ok c ->
  fst (CartService.add_to_cart u p q w) = Ok tt ->
  exists c', fst (CartService.get_cart u (snd (CartService.add_to_cart u p q w))) = Ok c' /\
    dict_get c' p = Some (from_option id 0 (dict_get c p) + q) /\
    (forall k, k <> p -> dict_get c' k = dict_get c k) /\
    r_ttl (w_redis (snd (CartService.add_to_cart u p q w))) !! RedisClient.get_cart_key u
      = Some CART_TTL.
Proof.
  intros Hh Hc Hok. destruct (get_cart_before u w c Hh Hc) as (h & Hkey & Hnd & Hcget).
  unfold CartService.get_cart, CartService.add_to_cart in *.
  destruct (q <=? 0); [discriminate|].
  destruct (RedisClient.add_to_cart u p q w) as [o w'] eqn:Ea. simpl in Hok |- *. subst o.
  unfold RedisClient.add_to_cart in Ea. rewrite !bind_run in Ea. unfold Redis.cmd in Ea.
  destruct (Redis.HINCRBY _ p q (w_redis w)) as [[n|e] r1] eqn:Ei; [|discriminate].
  apply hincrby_ok in Ei as (h' & old & Hkey' & Hold & -> & ->).
  assert (h' = h) as ->.
  { destruct Hkey as [[E1 ->]|E1], Hkey' as [[E2 ->]|E2]; congruence. }
  rewrite bind_run in Ea. unfold Redis.EXPIRE in Ea. cbn in Ea.
  rewrite lookup_insert_eq in Ea. injection Ea as Hw'.
  destruct (get_cart_hash u w' (dict_set h p (py_str_int (old + q)))) as (c' & Hg & Hc').
  { rewrite <- Hw'. unfold Redis.with_key. cbn. apply lookup_insert_eq. }
  { by apply dict_set_nodup. }
  exists c'. rewrite Hg. split; [reflexivity|]. split; [|split].
  - rewrite Hc', dict_get_set, String.eqb_refl. simpl. rewrite py_int_py_str_int.
    rewrite Hcget. destruct Hold as [[-> ->]|(s & -> & Hs)]; [done|].
    simpl. by rewrite (string2ll_py_int _ _ Hs).
  - intros k Hk. rewrite Hc', Hcget, dict_get_set. apply String.eqb_neq in Hk. by rewrite Hk.
  - rewrite <- Hw'. unfold Redis.with_key. cbn. apply lookup_insert_eq.
Qed.

Lemma add_to_cart_then_get_witness :
  let w := shop_world [("P1", "2"); ("P2", "1")] no_fault no_fault in
  exists c', fst (CartService.get_cart "U1" (snd (CartService.add_to_cart "U1" "P1" 3 w))) = Ok c' /\
    dict_get c' "P1" = Some 5 /\
    (forall k, k <> "P1" -> dict_get c' k = dict_get [("P1", 2); ("P2", 1)] k) /\
    r_ttl (w_redis (snd (CartService.add_to_cart "U1" "P1" 3 w))) !! RedisClient.get_cart_key "U1"
      = Some CART_TTL.
Proof.
  intros w.
  apply (add_to_cart_then_get "U1" "P1" 3 w [("P1", 2); ("P2", 1)]).
  - apply hashes_nodup_redis_cart, (bool_decide_unpack _). vm_compute. reflexivity.
  - vm_compute. reflexivity.
  - vm_compute. reflexivity.
Defined.

Lemma hset_ok k f v r h :
  (r_keys r !! k = None /\ h = [] \/ r_keys r !! k = Some (RHash h)) ->
  Redis.HSET k f v r = (Ok tt, Redis.with_key r k (RHash (dict_set h f v))).
Proof. unfold Redis.HSET. intros [[-> ->] | ->]; reflexivity. Qed.

(** **** X7
    After [update_item_quantity u p q] with [q > 0], the cart read back
    holds [q] for [p], every other product keeps its quantity, and the
    cart key has the cart TTL. *)
Theorem update_item_quantity_then_get u p q w c :
  hashes_nodup (w_redis w) ->
  fst (CartService.get_cart u w) = Ok c -> 0 < q ->
  exists c',
    fst (CartService.get_cart u (snd (CartService.update_item_quantity u p q w))) = Ok c' /\
    dict_get c' p = Some q /\
    (forall k, k <> p -> dict_get c' k = dict_get c k) /\
    r_ttl (w_redis (snd (CartService.update_item_quantity u p q w))) !! RedisClient.get_cart_key u
      = Some CART_TTL.
Proof.
  intros Hh Hc Hq. destruct (get_cart_before u w c Hh Hc) as (h & Hkey & Hnd & Hcget).
  unfold CartService.get_cart.
  destruct (CartService.update_item_quantity u p q w) as [o w'] eqn:Eu. simpl.
  unfold CartService.update_item_quantity in Eu.
  replace (q <? 0) with false in Eu by lia. replace (q =? 0) with false in Eu by lia.
  unfold RedisClient.update_cart_item_quantity in Eu. rewrite !bind_run in Eu.
  unfold Redis.cmd at 1 in Eu. rewrite (hset_ok _ _ _ _ h Hkey) in Eu.
  rewrite bind_run in Eu. unfold Redis.cmd, Redis.EXPIRE in Eu. cbn in Eu.
  rewrite lookup_insert_eq in Eu. injection Eu as _ Hw'.
  destruct (get_cart_hash u w' (dict_set h p (py_str_int q))) as (c' & Hg & Hc').
  { rewrite <- Hw'. cbn. apply lookup_insert_eq. }
  { by apply dict_set_nodup. }
  exists c'. rewrite Hg. split; [reflexivity|]. split; [|split].
  - rewrite Hc', dict_get_set, String.eqb_refl. simpl. apply py_int_py_str_int.
  - intros k Hk. rewrite Hc', Hcget, dict_get_set. apply String.eqb_neq in Hk. by rewrite Hk.
  - rewrite <- Hw'. cbn. apply lookup_insert_eq.
Qed.

Lemma update_item_quantity_then_get_witness :
  let w := shop_world [("P1", "2"); ("P2", "1")] no_fault no_fault in
  exists c',
    fst (CartService.get_cart "U1" (snd (CartService.update_item_quantity "U1" "P2" 4 w))) = Ok c' /\
    dict_get c' "P2" = Some 4 /\
    (forall k, k <> "P2" -> dict_get c' k = dict_get [("P1", 2); ("P2", 1)] k) /\
    r_ttl (w_redis (snd (CartService.update_item_quantity "U1" "P2" 4 w)))
      !! RedisClient.get_cart_key "U1" = Some CART_TTL.
Proof.
  intros w.
  apply (update_item_quantity_then_get "U1" "P2" 4 w [("P1", 2); ("P2", 1)]).
  - apply hashes_nodup_redis_cart, (bool_decide_unpack _). vm_compute. reflexivity.
  - vm_compute. reflexivity.
  - lia.
Defined.

(** **** X8
    After [remove_from_cart u p], the cart read back has no entry for [p]
    and every other product keeps its quantity. *)
Theorem remove_from_cart_then_get u p w c :
  hashes_nodup (w_redis w) ->
  fst (CartService.get_cart u w) = Ok c ->
  exists c',
    fst (CartService.get_cart u (snd (CartService.remove_from_cart u p w))) = Ok c' /\
    dict_get c' p = None /\
    (forall k, k <> p -> dict_get c' k = dict_get c k).
Proof.
  intros Hh Hc. destruct (get_cart_before u w c Hh Hc) as (h & Hkey & Hnd & Hcget).
  unfold CartService.get_cart, CartService.remove_from_cart, RedisClient.remove_from_cart.
  unfold Redis.cmd at 1, Redis.HDEL.
  assert (Hf : forall k, dict_get (filter (fun kv => kv.1 <> p) h) k ≫= py_int
                         = if String.eqb k p then None else dict_get c k).
  { intros k. rewrite dict_get_filter_ne, Hcget. by destruct (String.eqb k p). }
  destruct Hkey as [[E ->]|E]; rewrite E.
  - cbn -[RedisClient.get_cart]. rewrite set_redis_same.
    exists c. unfold CartService.get_cart in Hc. rewrite Hc. split; [reflexivity|]. split; [|done].
    specialize (Hf p). rewrite String.eqb_refl in Hf. done.
  - destruct (filter (fun kv => kv.1 <> p) h) as [|e h'] eqn:Ef; cbn -[RedisClient.get_cart].
    + rewrite get_cart_absent by (cbn; apply lookup_delete_eq).
      exists []. split; [reflexivity|]. split; [done|].
      intros k Hk. specialize (Hf k). simpl in Hf. apply String.eqb_neq in Hk.
      by rewrite Hk in Hf.
    + match goal with |- context [RedisClient.get_cart u ?w'] =>
        destruct (get_cart_hash u w' (e :: h')) as (c' & Hg & Hc') end.
      { cbn. apply lookup_insert_eq. }
      { rewrite <- Ef. by apply nodup_filter_fst. }
      exists c'. rewrite Hg. split; [reflexivity|].
      split; [|intros k Hk; apply String.eqb_neq in Hk];
        rewrite Hc', Hf; [by rewrite String.eqb_refl|by rewrite Hk].
Qed.

Lemma remove_from_cart_then_get_witness :
  let w := shop_world [("P1", "2"); ("P2", "1")] no_fault no_fault in
  exists c',
    fst (CartService.get_cart "U1" (snd (CartService.remove_from_cart "U1" "P1" w))) = Ok c' /\
    dict_get c' "P1" = None /\
    (forall k, k <> "P1" -> dict_get c' k = dict_get [("P1", 2); ("P2", 1)] k).
Proof.
  intros w.
  apply (remove_from_cart_then_get "U1" "P1" w [("P1", 2); ("P2", 1)]).
  - apply hashes_nodup_redis_cart, (bool_decide_unpack _). vm_compute. reflexivity.
  - vm_compute. reflexivity.
Defined.




(* ------------------------------------------------------------------ *)
(** ** Hot products *)

Lemma redis_range_prefix {A} (l : list A) (top_n : Z) :
  0 <= top_n ->
  Redis.redis_range l 0 (top_n - 1) = if top_n =? 0 then l else take (Z.to_nat top_n) l.
Proof.
  intros Hn. unfold Redis.redis_range. cbv zeta. change (0 <? 0) with false. cbv iota.
  assert (Hlen : 0 <= Z.of_nat (length l)) by lia.
  destruct (Z.eqb_spec top_n 0) as [->|Hn0].
  - destruct l as [|x l]; [reflexivity|].
    cbn [length]. rewrite Nat2Z.inj_succ.
    repeat match goal with
      | |- context [?a <? ?b] => destruct (Z.ltb_spec a b); try lia
      | |- context [?a <=? ?b] => destruct (Z.leb_spec a b); try lia
      end; simpl.
    all: rewrite take_ge; [done|simpl; lia].
  - repeat match goal with
      | |- context [?a <? ?b] => destruct (Z.ltb_spec a b); try lia
      | |- context [?a <=? ?b] => destruct (Z.leb_spec a b); try lia
      end; simpl.
    all: change (Z.to_nat 0) with 0%nat; rewrite ?drop_0;
      first [ destruct l; [by rewrite take_nil|simpl in *; lia]
            | rewrite !take_ge; [done|lia|lia]
            | f_equal; lia ].
Qed.

(** **** X10
    [get_hot_products top_n] returns the members of [hot_products] sorted
    by decreasing score (ties by decreasing member): all of them for
    [top_n = 0], the first [top_n] otherwise; it changes nothing. *)
Theorem get_hot_products_ranked top_n w z :
  r_keys (w_redis w) !! "hot_products" = Some (RZSet z) -> 0 <= top_n ->
  exists s, Sorted Redis.zrev_le s /\ s ≡ₚ z /\
    RedisClient.get_hot_products top_n w
    = (Ok (if top_n =? 0 then s else take (Z.to_nat top_n) s), w).
Proof.
  intros E Hn. exists (merge_sort Redis.zrev_le z).
  split; [apply Sorted_merge_sort; exact zrev_le_total|split; [apply merge_sort_Permutation|]].
  cbv [RedisClient.get_hot_products Redis.cmd Redis.ZREVRANGE]. rewrite E.
  rewrite redis_range_prefix by done. cbn. by rewrite set_redis_same.
Qed.

Lemma get_hot_products_ranked_witness :
  let w := start_world (mkRedis {[ "hot_products" := RZSet [("P1", 3); ("P2", 5); ("P3", 1)] ]} ∅)
                       pg_empty graph_empty in
  exists s, Sorted Redis.zrev_le s /\ s ≡ₚ [("P1", 3); ("P2", 5); ("P3", 1)] /\
    RedisClient.get_hot_products 2 w = (Ok (if 2 =? 0 then s else take (Z.to_nat 2) s), w).
Proof.
  intros w. apply get_hot_products_ranked; [vm_compute; reflexivity|lia].
Defined.

(* ------------------------------------------------------------------ *)
(** ** Product reads through the cache *)

Lemma get_json_state k w : RedisClient.get_json k w = (fst (RedisClient.get_json k w), w).
Proof.
  unfold RedisClient.get_json. rewrite bind_run. unfold Redis.cmd, Redis.GET.
  destruct (r_keys (w_redis w) !! k) as [[s|j|h|z]|]; cbn; rewrite ?set_redis_same;
    try reflexivity; destruct s; try reflexivity; repeat case_match; reflexivity.
Qed.

Lemma keeps_bind {A B} k (m : M A) (f : A -> M B) :
  keeps_key k m -> (forall a, keeps_key k (f a)) -> keeps_key k (x ← m; f x).
Proof.
  intros Hm Hf w. rewrite bind_run. specialize (Hm w).
  destruct (m w) as [[a|e] w1]; simpl in *; [rewrite Hf|]; done.
Qed.

Lemma keeps_frame {A} k (m : M A) : redis_frame m -> keeps_key k m.
Proof. intros H w. by rewrite H. Qed.

Lemma keeps_set_json k k' v ttl : k' <> k -> keeps_key k (RedisClient.set_json k' v ttl).
Proof.
  intros Hk w. unfold RedisClient.set_json. destruct (json_dumps v); [|done].
  cbn. by rewrite lookup_insert_ne.
Qed.

Lemma zincrby_hot p w z :
  (r_keys (w_redis w) !! "hot_products" = None /\ z = [] \/
   r_keys (w_redis w) !! "hot_products" = Some (RZSet z)) ->
  RedisClient.increment_hot_product_score p w
  = (Ok tt, set_redis (Redis.with_key (w_redis w) "hot_products"
                         (RZSet (dict_set z p (from_option id 0 (dict_get z p) + 1)))) w).
Proof.
  intros [[E ->]|E]; unfold RedisClient.increment_hot_product_score;
    rewrite bind_run; unfold Redis.cmd, Redis.ZINCRBY; rewrite E; reflexivity.
Qed.

(** **** X11
    A product read that returns a product adds 1 to the product's score
    in [hot_products] (from 0 if it had none) and leaves the other scores
    alone. *)
Theorem get_product_by_id_bumps_score pid uid w v z :
  (r_keys (w_redis w) !! "hot_products" = None /\ z = [] \/
   r_keys (w_redis w) !! "hot_products" = Some (RZSet z)) ->
  fst (ProductService.get_product_by_id pid uid w) = Ok v -> py_truthy v = true ->
  exists z',
    r_keys (w_redis (snd (ProductService.get_product_by_id pid uid w))) !! "hot_products"
      = Some (RZSet z') /\
    dict_get z' pid = Some (from_option id 0 (dict_get z pid) + 1) /\
    (forall m, m <> pid -> dict_get z' m = dict_get z m).
Proof.
  intros Hz Hok Hv.
  destruct (ProductService.get_product_by_id pid uid w) as [o wf] eqn:E.
  simpl in Hok |- *. subst o.
  unfold ProductService.get_product_by_id in E.
  apply bind_ok_inv in E as (c & w1 & Hg & E).
  rewrite get_json_state in Hg. injection Hg as _ <-.
  apply bind_ok_inv in E as (prod & w2 & Hp & E).
  apply bind_ok_inv in E as (u & w3 & Hinc & E). injection E as -> <-.
  assert (Hkeep : r_keys (w_redis w2) !! "hot_products" = r_keys (w_redis w) !! "hot_products").
  { assert (Hk : keeps_key "hot_products"
                   (if py_truthy c then mret c
                    else product ← ProductService.get_product_from_db pid;
                         (if py_truthy product
                          then RedisClient.set_json ("product:" +:+ pid) product CACHE_TTL ;; mret tt
                          else mret tt) ;;
                         mret product)).
    { destruct (py_truthy c); [intros w'; reflexivity|].
      apply keeps_bind; [apply keeps_frame, frame_get_product_from_db|]. intros a.
      apply keeps_bind; [|intros; intros w'; reflexivity].
      destruct (py_truthy a); [|intros w'; reflexivity].
      apply keeps_bind; [apply keeps_set_json; discriminate|intros; intros w'; reflexivity]. }
    specialize (Hk w). rewrite Hp in Hk. exact Hk. }
  rewrite Hv in Hinc. apply bind_ok_inv in Hinc as ([] & w4 & Hi & Hview).
  rewrite (zincrby_hot pid w2 z) in Hi by (by rewrite Hkeep). injection Hi as Hw4. subst w4.
  assert (Hr : w_redis w3 = Redis.with_key (w_redis w2) "hot_products"
                 (RZSet (dict_set z pid (from_option id 0 (dict_get z pid) + 1)))).
  { destruct uid as [s|].
    - destruct (String.eqb s ""); [injection Hview as Hw3; subst w3; reflexivity|].
      pose proof (frame_add_view s pid
                    (set_redis (Redis.with_key (w_redis w2) "hot_products"
                       (RZSet (dict_set z pid (from_option id 0 (dict_get z pid) + 1)))) w2)) as Hf.
      rewrite Hview in Hf. exact Hf.
    - injection Hview as Hw3. subst w3. reflexivity. }
  eexists. rewrite Hr. split; [apply lookup_insert_eq|]. split.
  - rewrite dict_get_set, String.eqb_refl. reflexivity.
  - intros m Hm. rewrite dict_get_set. apply String.eqb_neq in Hm. by rewrite Hm.
Qed.

Lemma get_product_by_id_bumps_score_witness :
  let w := start_world redis_empty pg_shop graph_shop in
  exists z',
    r_keys (w_redis (snd (ProductService.get_product_by_id "P1" (Some "U1") w))) !! "hot_products"
      = Some (RZSet z') /\
    dict_get z' "P1" = Some (from_option id 0 (dict_get [] "P1") + 1) /\
    (forall m, m <> "P1" -> dict_get z' m = dict_get [] m).
Proof.
  intros w.
  apply (get_product_by_id_bumps_score "P1" (Some "U1") w
           (PDict [("id", PStr "P1"); ("name", PStr "Lamp"); ("description", PNone);
                   ("price", PFloat (Flt.of_cents 1000)); ("category_id", PNone);
                   ("seller_id", PNone); ("tags", PNone); ("stock", PNone)]) []).
  - left. split; [vm_compute; reflexivity|reflexivity].
  - vm_compute. reflexivity.
  - vm_compute. reflexivity.
Defined.

Lemma gok_bind {A B} (m : M A) (f : A -> M B) :
  gr_oracle_kept m -> (forall a, gr_oracle_kept (f a)) -> gr_oracle_kept (x ← m; f x).
Proof.
  intros Hm Hf w. rewrite bind_run. specialize (Hm w).
  destruct (m w) as [[a|e] w1]; simpl in *; [rewrite Hf|]; done.
Qed.

Lemma gok_ret {A} (a : A) : gr_oracle_kept (mret a).
Proof. intros w. reflexivity. Qed.

Lemma gok_cmd {A} (f : redis -> outcome A * redis) : gr_oracle_kept (Redis.cmd f).
Proof. intros w. unfold Redis.cmd. by destruct (f (w_redis w)). Qed.

Lemma gok_pg_roundtrip : gr_oracle_kept Pg.roundtrip.
Proof. intros w. unfold Pg.roundtrip. by destruct (w_pg_fault w _). Qed.

Lemma gok_get_cursor {A} (body : M A) :
  gr_oracle_kept body -> gr_oracle_kept (PostgresConnection.get_cursor body).
Proof.
  intros Hb. unfold PostgresConnection.get_cursor.
  apply gok_bind; [apply gok_pg_roundtrip|]. intros _ w. unfold prim.
  specialize (Hb w). destruct (body w) as [[a|e] w1]; simpl in *; [|done].
  pose proof (gok_pg_roundtrip w1) as Hr.
  destruct (Pg.roundtrip w1) as [[]w2]; simpl in *; congruence.
Qed.

Lemma gok_get_product_from_db id : gr_oracle_kept (ProductService.get_product_from_db id).
Proof.
  unfold ProductService.get_product_from_db. apply gok_get_cursor.
  apply gok_bind.
  - unfold Pg.execute. apply gok_bind; [apply gok_pg_roundtrip|]. intros _ w. unfold prim.
    by destruct (Pg.select_product id (w_pg w)).
  - intros [p|]; [|apply gok_ret]. destruct (dict_get _ _); [|apply gok_ret].
    apply gok_bind; [intros w; reflexivity|]. intros. apply gok_ret.
Qed.

Lemma gok_set_json k v ttl : gr_oracle_kept (RedisClient.set_json k v ttl).
Proof. intros w. unfold RedisClient.set_json. by destruct (json_dumps v). Qed.

Lemma gok_add_view u p : gr_oracle_kept (Neo4jClient.add_view u p).
Proof.
  unfold Neo4jClient.add_view. apply gok_bind.
  - intros w. unfold Neo4jClient.roundtrip. by destruct (w_gr_fault w _).
  - intros _ w. unfold prim. by case_decide.
Qed.

Lemma gok_get_product_by_id pid uid : gr_oracle_kept (ProductService.get_product_by_id pid uid).
Proof.
  unfold ProductService.get_product_by_id.
  apply gok_bind; [unfold RedisClient.get_json; apply gok_bind; [apply gok_cmd|];
                   intros [[]|]; try apply gok_ret; destruct s; apply gok_ret|].
  intros c. apply gok_bind.
  - destruct (py_truthy c); [apply gok_ret|].
    apply gok_bind; [apply gok_get_product_from_db|]. intros a.
    apply gok_bind; [|intros; apply gok_ret]. destruct (py_truthy a); [|apply gok_ret].
    apply gok_bind; [apply gok_set_json|intros; apply gok_ret].
  - intros a. apply gok_bind; [|intros; apply gok_ret]. destruct (py_truthy a); [|apply gok_ret].
    apply gok_bind; [unfold RedisClient.increment_hot_product_score;
                     apply gok_bind; [apply gok_cmd|intros; apply gok_ret]|].
    intros _. destruct uid as [u|]; [|apply gok_ret].
    destruct (String.eqb u ""); [apply gok_ret|apply gok_add_view].
Qed.

Lemma get_json_same_key k w w' :
  r_keys (w_redis w) !! k = r_keys (w_redis w') !! k ->
  fst (RedisClient.get_json k w) = fst (RedisClient.get_json k w').
Proof.
  intros H. unfold RedisClient.get_json. rewrite !bind_run. unfold Redis.cmd, Redis.GET.
  rewrite H. destruct (r_keys (w_redis w') !! k) as [[s|j|h|z]|]; try reflexivity.
  destruct s; reflexivity.
Qed.

(** The read path of [get_product_by_id] after a cache hit. *)
Lemma get_product_by_id_hit pid uid w c z :
  RedisClient.get_json ("product:" +:+ pid) w = (Ok c, w) -> py_truthy c = true ->
  (r_keys (w_redis w) !! "hot_products" = None /\ z = [] \/
   r_keys (w_redis w) !! "hot_products" = Some (RZSet z)) ->
  w_gr_fault w (w_gr_calls w) = false ->
  fst (ProductService.get_product_by_id pid uid w) = Ok c /\
  w_pg (snd (ProductService.get_product_by_id pid uid w)) = w_pg w /\
  w_pg_calls (snd (ProductService.get_product_by_id pid uid w)) = w_pg_calls w.
Proof.
  intros Hg Hc Hz Hf. unfold ProductService.get_product_by_id.
  rewrite bind_run, Hg. cbn -[RedisClient.increment_hot_product_score Neo4jClient.add_view].
  rewrite Hc. cbn -[RedisClient.increment_hot_product_score Neo4jClient.add_view].
  rewrite !bind_run. cbn -[RedisClient.increment_hot_product_score Neo4jClient.add_view].
  rewrite ?Hc, ?bind_run, (zincrby_hot pid w z Hz).
  cbn -[Neo4jClient.add_view].
  destruct uid as [u|]; [|done]. destruct (String.eqb u ""); [done|].
  unfold Neo4jClient.add_view. rewrite !bind_run. unfold Neo4jClient.roundtrip. simpl.
  rewrite Hf. simpl. unfold prim. by case_decide.
Qed.

(** After a read that returns a truthy product: the cache entry of the
    product decodes to it, and [hot_products] holds a sorted set. *)
Lemma get_product_by_id_ok_state pid uid w v :
  fst (ProductService.get_product_by_id pid uid w) = Ok v -> py_truthy v = true ->
  fst (RedisClient.get_json ("product:" +:+ pid) (snd (ProductService.get_product_by_id pid uid w)))
    = Ok v /\
  exists z, r_keys (w_redis (snd (ProductService.get_product_by_id pid uid w))) !! "hot_products"
            = Some (RZSet z).
Proof.
  intros Hok Hv.
  destruct (ProductService.get_product_by_id pid uid w) as [o w1] eqn:E.
  simpl in Hok |- *. subst o.
  unfold ProductService.get_product_by_id in E.
  apply bind_ok_inv in E as (c & w0 & Hg & E).
  rewrite get_json_state in Hg. injection Hg as Hc <-.
  apply bind_ok_inv in E as (prod & w2 & Hp & E).
  apply bind_ok_inv in E as (u & w3 & Hinc & E). injection E as -> <-.
  assert (Hcache : fst (RedisClient.get_json ("product:" +:+ pid) w2) = Ok v).
  { destruct (py_truthy c) eqn:Ec.
    - injection Hp as -> <-. by rewrite <- Hc.
    - apply bind_ok_inv in Hp as (a & wa & Hdb & Hp).
      apply bind_ok_inv in Hp as (b & wb & Hs & Hp). injection Hp as -> <-.
      rewrite Hv in Hs. apply bind_ok_inv in Hs as (b' & wc & Hs & Hs').
      injection Hs' as <- <-. apply set_json_ok_inv in Hs as (j & Hj & ->).
      rewrite (get_json_json _ _ j), (json_loads_dumps _ _ Hj); [done|].
      cbn. apply lookup_insert_eq. }
  rewrite Hv in Hinc. apply bind_ok_inv in Hinc as ([] & w4 & Hi & Hview).
  assert (Hz : exists z, r_keys (w_redis w2) !! "hot_products" = None /\ z = [] \/
                        r_keys (w_redis w2) !! "hot_products" = Some (RZSet z)).
  { destruct (r_keys (w_redis w2) !! "hot_products") as [[s|j|h|z]|] eqn:Ehot;
      try (unfold RedisClient.increment_hot_product_score in Hi; rewrite bind_run in Hi;
           unfold Redis.cmd, Redis.ZINCRBY in Hi; rewrite Ehot in Hi; discriminate);
      eauto. }
  destruct Hz as [z Hz].
  rewrite (zincrby_hot pid w2 z Hz) in Hi. injection Hi as Hw4. subst w4.
  set (z' := dict_set z pid (from_option id 0 (dict_get z pid) + 1)) in *.
  assert (Hr3 : w_redis w3 = Redis.with_key (w_redis w2) "hot_products" (RZSet z')).
  { destruct uid as [s'|].
    - destruct (String.eqb s' ""); [injection Hview as Hw3; by subst w3|].
      pose proof (frame_add_view s' pid
                    (set_redis (Redis.with_key (w_redis w2) "hot_products" (RZSet z')) w2)) as Hf.
      rewrite Hview in Hf. exact Hf.
    - injection Hview as Hw3. by subst w3. }
  split.
  - rewrite <- Hcache. apply get_json_same_key. rewrite Hr3. cbn. by rewrite lookup_insert_ne.
  - exists z'. rewrite Hr3. cbn. apply lookup_insert_eq.
Qed.

(** **** X12
    After a product read that returns a product [v], the next read of the
    same id returns [v] without any PostgreSQL round trip and without
    changing the tables. *)
Theorem get_product_by_id_second_read_cached pid uid w v :
  (forall n, w_gr_fault w n = false) ->
  fst (ProductService.get_product_by_id pid uid w) = Ok v -> py_truthy v = true ->
  fst (ProductService.get_product_by_id pid uid (snd (ProductService.get_product_by_id pid uid w)))
    = Ok v /\
  w_pg (snd (ProductService.get_product_by_id pid uid
               (snd (ProductService.get_product_by_id pid uid w))))
    = w_pg (snd (ProductService.get_product_by_id pid uid w)) /\
  w_pg_calls (snd (ProductService.get_product_by_id pid uid
                     (snd (ProductService.get_product_by_id pid uid w))))
    = w_pg_calls (snd (ProductService.get_product_by_id pid uid w)).
Proof.
  intros Hgr Hok Hv.
  destruct (get_product_by_id_ok_state pid uid w v Hok Hv) as [Hc [z Hz]].
  pose proof (gok_get_product_by_id pid uid w) as Hgk.
  apply get_product_by_id_hit with (z := z).
  - rewrite get_json_state. f_equal. exact Hc.
  - done.
  - by right.
  - rewrite Hgk. apply Hgr.
Qed.

Lemma get_product_by_id_second_read_cached_witness :
  let w := start_world redis_empty pg_shop graph_shop in
  let g := ProductService.get_product_by_id "P1" (Some "U1") in
  fst (g (snd (g w))) = Ok (PDict [("id", PStr "P1"); ("name", PStr "Lamp"); ("description", PNone);
                   ("price", PFloat (Flt.of_cents 1000)); ("category_id", PNone);
                   ("seller_id", PNone); ("tags", PNone); ("stock", PNone)]) /\
  w_pg (snd (g (snd (g w)))) = w_pg (snd (g w)) /\
  w_pg_calls (snd (g (snd (g w)))) = w_pg_calls (snd (g w)).
Proof.
  intros w g.
  apply get_product_by_id_second_read_cached.
  - intros n. reflexivity.
  - vm_compute. reflexivity.
  - vm_compute. reflexivity.
Defined.

Lemma get_json_truthy_present k w v :
  fst (RedisClient.get_json k w) = Ok v -> py_truthy v = true -> is_Some (r_keys (w_redis w) !! k).
Proof.
  unfold RedisClient.get_json. rewrite bind_run. unfold Redis.cmd, Redis.GET.
  destruct (r_keys (w_redis w) !! k) as [x|]; [by eauto|]. cbn. intros [= <-]. discriminate.
Qed.

(** **** X13
    Whenever the route [get_product_from_cache] returns a product, its
    [cache_status] is ["HIT"]: the product was cached by the read just
    before the check, so ["MISS"] is never reported. *)
Theorem get_product_from_cache_always_hit pid uid w d :
  fst (RedisRoutes.get_product_from_cache pid uid w) = Ok (Response (PDict d)) ->
  dict_get d "cache_status" = Some (PStr "HIT").
Proof.
  unfold RedisRoutes.get_product_from_cache. rewrite bind_run.
  destruct (ProductService.get_product_by_id pid uid w) as [[v|e] w1] eqn:E; [|discriminate].
  destruct (py_truthy v) eqn:Hv; cbn -[Redis.cmd]; [|discriminate].
  assert (Hp : is_Some (r_keys (w_redis w1) !! ("product:" +:+ pid))).
  { destruct (get_product_by_id_ok_state pid uid w v) as [Hc _]; rewrite ?E; try done.
    eapply get_json_truthy_present; [|exact Hv]. rewrite E in Hc. exact Hc. }
  rewrite bind_run. unfold Redis.cmd at 1, Redis.EXISTS. cbn.
  rewrite bool_decide_eq_true_2 by done. rewrite set_redis_same.
  destruct v; try discriminate. intros [= <-]. rewrite dict_get_set, String.eqb_refl. done.
Qed.

Lemma get_product_from_cache_always_hit_witness :
  let d := [("id", PStr "P1"); ("name", PStr "Lamp"); ("description", PNone);
            ("price", PFloat (Flt.of_cents 1000)); ("category_id", PNone);
            ("seller_id", PNone); ("tags", PNone); ("stock", PNone);
            ("cache_status", PStr "HIT")] in
  fst (RedisRoutes.get_product_from_cache "P1" (Some "U1") (start_world redis_empty pg_shop graph_shop))
    = Ok (Response (PDict d)) /\
  dict_get d "cache_status" = Some (PStr "HIT").
Proof.
  intros d.
  assert (H : fst (RedisRoutes.get_product_from_cache "P1" (Some "U1")
                     (start_world redis_empty pg_shop graph_shop)) = Ok (Response (PDict d)))
    by (vm_compute; reflexivity).
  split; [exact H|].
  exact (get_product_from_cache_always_hit "P1" (Some "U1") _ d H).
Defined.

(** **** X14
    A product read of an uncached product whose row has a NULL price
    raises [TypeError] from [float(None)], and leaves Redis and the tables
    unchanged. *)
Theorem get_product_by_id_null_price pid uid w p :
  r_keys (w_redis w) !! ("product:" +:+ pid) = None ->
  pg_products (w_pg w) !! pid = Some p -> prod_price p = None ->
  w_pg_fault w (w_pg_calls w) = false -> w_pg_fault w (S (w_pg_calls w)) = false ->
  fst (ProductService.get_product_by_id pid uid w)
    = Raise (TypeError "float() argument must be a string or a real number, not 'NoneType'") /\
  w_redis (snd (ProductService.get_product_by_id pid uid w)) = w_redis w /\
  w_pg (snd (ProductService.get_product_by_id pid uid w)) = w_pg w.
Proof.
  intros Habs Hp Hnull Hf0 Hf1.
  unfold ProductService.get_product_by_id. rewrite bind_run, get_json_absent by done.
  cbn -[ProductService.get_product_from_db]. rewrite !bind_run.
  unfold ProductService.get_product_from_db. rewrite get_cursor_ok by done.
  rewrite bind_run, execute_ok by done. cbn. rewrite Hp, Hnull. cbn. done.
Qed.

Lemma get_product_by_id_null_price_witness :
  let p := mkProduct "Gift" None None None None None None in
  let w := start_world redis_empty (mkPg {[ "U1" ]} {[ "P3" := p ]} ∅ ∅) graph_shop in
  fst (ProductService.get_product_by_id "P3" (Some "U1") w)
    = Raise (TypeError "float() argument must be a string or a real number, not 'NoneType'") /\
  w_redis (snd (ProductService.get_product_by_id "P3" (Some "U1") w)) = w_redis w /\
  w_pg (snd (ProductService.get_product_by_id "P3" (Some "U1") w)) = w_pg w.
Proof.
  intros p w.
  apply (get_product_by_id_null_price "P3" (Some "U1") w p);
    [vm_compute; reflexivity|vm_compute; reflexivity|reflexivity|reflexivity|reflexivity].
Defined.

(* ------------------------------------------------------------------ *)
(** ** Cache metrics *)

Lemma prefix_app s t : String.prefix s (s +:+ t) = true.
Proof.
  induction s as [|c s IH]; [by destruct t|]. simpl.
  destruct (Ascii.ascii_dec c c); [exact IH|congruence].
Qed.

Lemma prefix_inv s k : String.prefix s k = true -> exists t, k = s +:+ t.
Proof.
  revert k. induction s as [|c s IH]; intros k H; [by exists k|].
  destruct k as [|c' k]; [discriminate|]. simpl in H.
  destruct (Ascii.ascii_dec c c') as [->|]; [|discriminate].
  destruct (IH k H) as [t ->]. by exists t.
Qed.

Lemma read_metrics_fold name_of acc keys w :
  (forall k, k ∈ keys -> exists n, RedisClient.metric_int (r_keys (w_redis w) !! k) = Ok n) ->
  RedisClient.read_metrics name_of acc keys w
  = (Ok (foldl (fun a k => dict_set a (name_of k) (metric_val (w_redis w) k)) acc keys), w).
Proof.
  revert acc. induction keys as [|k keys IH]; intros acc Hr; [reflexivity|].
  cbn [RedisClient.read_metrics]. rewrite bind_run. unfold Redis.cmd, Redis.GET.
  destruct (Hr k (list_elem_of_here _ _)) as [n Hn].
  assert (Hget : Redis.GET k (w_redis w) = (Ok (r_keys (w_redis w) !! k), w_redis w)).
  { unfold Redis.GET. destruct (r_keys (w_redis w) !! k) as [[]|]; try reflexivity;
      discriminate. }
  unfold Redis.GET in Hget. rewrite Hget. cbn -[RedisClient.metric_int RedisClient.read_metrics].
  rewrite set_redis_same, Hn.
  rewrite IH; [|intros k' Hk'; apply Hr; by right].
  replace (metric_val (w_redis w) k) with n; [done|]. unfold metric_val. by rewrite Hn.
Qed.

Lemma foldl_dict_set_other (f : string -> string) (g : string -> Z) keys acc x :
  (forall k, k ∈ keys -> f k <> x) ->
  dict_get (foldl (fun a k => dict_set a (f k) (g k)) acc keys) x = dict_get acc x.
Proof.
  revert acc. induction keys as [|k keys IH]; intros acc Hx; [reflexivity|].
  simpl. rewrite IH; [|intros k' Hk'; apply Hx; by right].
  rewrite dict_get_set. destruct (String.eqb_spec x (f k)) as [->|]; [|done].
  exfalso. apply (Hx k); [left|]; done.
Qed.

Lemma foldl_dict_set_key (f : string -> string) (g : string -> Z) keys acc k :
  (forall k1 k2, k1 ∈ keys -> k2 ∈ keys -> f k1 = f k2 -> k1 = k2) -> k ∈ keys ->
  dict_get (foldl (fun a k => dict_set a (f k) (g k)) acc keys) (f k) = Some (g k).
Proof.
  revert acc. induction keys as [|k' keys IH]; intros acc Hinj Hk; [set_solver|].
  simpl. destruct (decide (k ∈ keys)) as [Hin|Hnin].
  - apply IH; [|done]. intros k1 k2 H1 H2. apply Hinj; by right.
  - apply elem_of_cons in Hk as [->|]; [|done].
    rewrite foldl_dict_set_other.
    + by rewrite dict_get_set, String.eqb_refl.
    + intros k'' Hk'' Heq. apply Hnin. rewrite <- (Hinj k'' k'); [done|by right|by left|done].
Qed.

Lemma after_prefix name : RedisClient.after_first_colon ("cache_metrics:" +:+ name) = name.
Proof. reflexivity. Qed.

Lemma get_cache_metrics_spec w :
  metrics_readable (w_redis w) ->
  exists ms, RedisClient.get_cache_metrics w = (Ok ms, w) /\
    forall name n, dict_get ms name = Some n <->
      exists v, r_keys (w_redis w) !! ("cache_metrics:" +:+ name) = Some v /\
                RedisClient.metric_int (Some v) = Ok n.
Proof.
  intros Hr. unfold RedisClient.get_cache_metrics. rewrite bind_run.
  unfold Redis.cmd at 1, Redis.KEYS_prefix. cbn -[RedisClient.read_metrics].
  rewrite set_redis_same.
  set (keys := filter _ _).
  assert (Hk : forall k, k ∈ keys <->
                 String.prefix "cache_metrics:" k = true /\ is_Some (r_keys (w_redis w) !! k)).
  { intros k. unfold keys. rewrite list_elem_of_filter, map_fst_fmap.
    rewrite list_elem_of_fmap. split.
    - intros [Hp ([k' v] & -> & Hin%elem_of_map_to_list)]. split; [done|by exists v].
    - intros [Hp [v Hv]]. split; [done|]. exists (k, v). split; [done|]. by apply elem_of_map_to_list. }
  rewrite read_metrics_fold.
  2: { intros k [Hp [v Hv]]%Hk. rewrite Hv. apply (Hr k v Hp Hv). }
  eexists. split; [reflexivity|]. intros name n.
  assert (Hinj : forall k1 k2, k1 ∈ keys -> k2 ∈ keys ->
                  RedisClient.after_first_colon k1 = RedisClient.after_first_colon k2 -> k1 = k2).
  { intros k1 k2 [Hp1 _]%Hk [Hp2 _]%Hk.
    destruct (prefix_inv _ _ Hp1) as [t1 ->], (prefix_inv _ _ Hp2) as [t2 ->].
    rewrite !after_prefix. by intros ->. }
  destruct (r_keys (w_redis w) !! ("cache_metrics:" +:+ name)) as [v|] eqn:Hv.
  - assert (Hin : "cache_metrics:" +:+ name ∈ keys) by (apply Hk; split; [apply prefix_app|by eexists]).
    pose proof (foldl_dict_set_key RedisClient.after_first_colon (metric_val (w_redis w))
                  keys [] _ Hinj Hin) as Hg.
    rewrite after_prefix in Hg. rewrite Hg.
    destruct (Hr _ _ (prefix_app _ _) Hv) as [n' Hn']. unfold metric_val. rewrite Hv, Hn'.
    split; [intros [= <-]; eauto|]. intros (v' & Hv' & Hn''). injection Hv' as <-.
    change (RedisClient.metric_int (Some v) = Ok n) in Hn''. congruence.
  - rewrite foldl_dict_set_other.
    + split; [done|]. intros (v' & Hv' & _). congruence.
    + intros k [Hp [v Hv']]%Hk Heq. destruct (prefix_inv _ _ Hp) as [t ->].
      rewrite after_prefix in Heq. subst t. congruence.
Qed.

Lemma py_str_int_nonempty z : py_str_int z <> "".
Proof.
  intros H. pose proof (py_int_py_str_int z) as E. rewrite H in E. discriminate.
Qed.

Lemma metric_int_py_str z : RedisClient.metric_int (Some (RStr (py_str_int z))) = Ok z.
Proof.
  pose proof (py_int_py_str_int z) as E. pose proof (py_str_int_nonempty z) as Hne.
  unfold RedisClient.metric_int. destruct (py_str_int z); [done|]. by rewrite E.
Qed.

Lemma option_eq_iff {A} (o1 o2 : option A) : (forall x, o1 = Some x <-> o2 = Some x) -> o1 = o2.
Proof.
  intros H. destruct o1 as [a|], o2 as [b|]; try done.
  - by apply H.
  - by destruct (proj1 (H a)).
  - by destruct (proj2 (H b)).
Qed.

(** **** X15
    After [increment_cache_metric m], [get_cache_metrics] reports the
    counter of [m] one higher than before, and every other metric as
    before. *)
Theorem increment_cache_metric_then_read m w n :
  metrics_readable (w_redis w) ->
  counter_at (w_redis w) ("cache_metrics:" +:+ m) = Some n -> n < int64_max ->
  exists ms0 ms,
    fst (RedisClient.get_cache_metrics w) = Ok ms0 /\
    fst (RedisClient.get_cache_metrics (snd (RedisClient.increment_cache_metric m w))) = Ok ms /\
    dict_get ms m = Some (n + 1) /\
    (forall name, name <> m -> dict_get ms name = dict_get ms0 name).
Proof.
  intros Hr Hc Hmax.
  rewrite (incr_metric_ok m w n Hc Hmax). cbn [snd].
  set (w1 := set_redis _ w).
  assert (Hlk : forall k, r_keys (w_redis w1) !! k =
                 if String.eqb k ("cache_metrics:" +:+ m)
                 then Some (RStr (py_str_int (n + 1))) else r_keys (w_redis w) !! k).
  { intros k. cbn. destruct (String.eqb_spec k ("cache_metrics:" +:+ m)) as [->|].
    - apply lookup_insert_eq.
    - by apply lookup_insert_ne. }
  assert (Hr1 : metrics_readable (w_redis w1)).
  { intros k v Hp. rewrite Hlk. destruct (String.eqb k _).
    - intros [= <-]. eexists. apply metric_int_py_str.
    - by apply Hr. }
  destruct (get_cache_metrics_spec w Hr) as (ms0 & Hg0 & Hs0).
  destruct (get_cache_metrics_spec w1 Hr1) as (ms & Hg1 & Hs1).
  exists ms0, ms. rewrite Hg0, Hg1. split; [done|]. split; [done|]. split.
  - apply Hs1. exists (RStr (py_str_int (n + 1))). rewrite Hlk, String.eqb_refl.
    split; [done|]. apply metric_int_py_str.
  - intros name Hname. apply option_eq_iff. intros x. rewrite Hs0, Hs1, Hlk.
    destruct (String.eqb_spec ("cache_metrics:" +:+ name) ("cache_metrics:" +:+ m)) as [Heq|];
      [|done].
    exfalso. apply Hname. by apply (inj (String.append "cache_metrics:")) in Heq.
Qed.

Lemma increment_cache_metric_then_read_witness :
  let w := start_world (mkRedis {[ "cache_metrics:hits" := RStr "4" ]} ∅) pg_empty graph_empty in
  exists ms0 ms,
    fst (RedisClient.get_cache_metrics w) = Ok ms0 /\
    fst (RedisClient.get_cache_metrics (snd (RedisClient.increment_cache_metric "misses" w))) = Ok ms /\
    dict_get ms "misses" = Some (0 + 1) /\
    (forall name, name <> "misses" -> dict_get ms name = dict_get ms0 name).
Proof.
  intros w.
  apply (increment_cache_metric_then_read "misses" w 0).
  - intros k v _ E. cbn in E. apply lookup_singleton_Some in E as [_ <-].
    exists 4. vm_compute. reflexivity.
  - vm_compute. reflexivity.
  - vm_compute. reflexivity.
Defined.

Lemma read_metrics_ext f g acc keys w :
  (forall k, k ∈ keys -> f k = g k) ->
  RedisClient.read_metrics f acc keys w = RedisClient.read_metrics g acc keys w.
Proof.
  revert acc w. induction keys as [|k keys IH]; intros acc w Hfg; [reflexivity|].
  cbn [RedisClient.read_metrics]. rewrite !bind_run.
  destruct (Redis.cmd (Redis.GET k) w) as [[v|e] w1]; [|reflexivity].
  destruct (RedisClient.metric_int v); [|reflexivity].
  rewrite (Hfg k) by (by left). apply IH. intros k' Hk'. apply Hfg. by right.
Qed.

Lemma before_first_colon_id s : ":"%char ∉ list_ascii_of_string s -> before_first_colon s = s.
Proof.
  induction s as [|c s IH]; intros Hs; [done|]. simpl in *.
  destruct (Ascii.eqb_spec c ":"%char) as [->|]; [set_solver|].
  rewrite IH; [done|set_solver].
Qed.

(** **** X16
    When no metric name contains [:], [get_cache_stats] returns exactly
    what [get_cache_metrics] returns. *)
Theorem get_cache_stats_same_as_metrics w :
  (forall name, is_Some (r_keys (w_redis w) !! ("cache_metrics:" +:+ name)) ->
                ":"%char ∉ list_ascii_of_string name) ->
  get_cache_stats w = RedisClient.get_cache_metrics w.
Proof.
  intros Hnc. unfold get_cache_stats, RedisClient.get_cache_metrics. rewrite !bind_run.
  unfold Redis.cmd at 1 2, Redis.KEYS_prefix. cbn -[RedisClient.read_metrics].
  apply read_metrics_ext. intros k [Hp Hin]%list_elem_of_filter.
  rewrite map_fst_fmap in Hin. apply list_elem_of_fmap in Hin as ([k' v] & -> & Hin%elem_of_map_to_list).
  simpl in Hp |- *.
  destruct (prefix_inv _ _ Hp) as [t ->].
  unfold second_field. rewrite after_prefix. apply before_first_colon_id, Hnc. by eexists.
Qed.

Lemma get_cache_stats_same_as_metrics_witness :
  let w := start_world (mkRedis {[ "cache_metrics:hits" := RStr "4" ]} ∅) pg_empty graph_empty in
  get_cache_stats w = RedisClient.get_cache_metrics w.
Proof.
  intros w. apply get_cache_stats_same_as_metrics.
  intros name [v E]. cbn in E. apply lookup_singleton_Some in E as [Heq _].
  change "cache_metrics:hits" with ("cache_metrics:" +:+ "hits") in Heq.
  apply (inj (String.append "cache_metrics:")) in Heq. subst name. apply (bool_decide_unpack _). vm_compute. reflexivity.
Defined.
